(** * Demo provisioning and deprovisioning server: a shallow embedding

    The development follows [server/src/index.ts] (the Express routes and
    their helpers), the naming code of [server/src/services/demoGenerator.ts]
    (the file that [index.ts] imports [generateDemo] from) and the
    client-side API route [client/src/app/api/delete-demo-data/route.ts].

    - [Js]        : the JavaScript string and array primitives the code uses
                    ([includes], [split], [slice], [join], truthiness).
    - [Resolver]  : the two URL regular expressions, the project-name
                    generator and the project search of [deleteVercelProject].
    - [Server]    : the routes, written in a small state/exception monad over
                    an arbitrary environment of external collaborators.
    - [Capture]   : predicates on the calls a run issues.
    - [Sim]       : an executable test double of the collaborators (record
                    store, deploy host, code host) with fault injection.
    - [Shape]     : further predicates on captures and answers.
    - [Generator] : [generateDemo] and the functions it calls, in a second
                    monad over the collaborators of the generator.
    - [Scenes]    : further scenes and a test double for the generator.

    The definitions come first; the lemmas follow, from the string
    primitives up to the routes and the scenarios on the test double. *)

From Stdlib Require Import String Ascii List Bool Arith ZArith Lia DecimalString.
Import ListNotations.
Open Scope string_scope.

(* ------------------------------------------------------------------ *)
(** ** JavaScript primitives *)

Module Js.

(** [!!v] for a value that is a string, [null] or [undefined]:
    only a non-empty string is truthy. *)
Definition truthy (v : option string) : bool :=
  match v with
  | Some EmptyString => false
  | Some _ => true
  | None => false
  end.

(** [s.startsWith(p)], returning what follows [p]. *)
Fixpoint strip_prefix (p s : string) : option string :=
  match p, s with
  | EmptyString, _ => Some s
  | String a p', String b s' =>
      if Ascii.eqb a b then strip_prefix p' s' else None
  | String _ _, EmptyString => None
  end.

Definition starts_with (p s : string) : bool :=
  match strip_prefix p s with Some _ => true | None => false end.

(** [hay.includes(needle)]. *)
Fixpoint includes (hay needle : string) : bool :=
  starts_with needle hay ||
  match hay with
  | EmptyString => false
  | String _ t => includes t needle
  end.

(** [s.split(c)] for a one-character separator: never the empty array. *)
Fixpoint split (c : ascii) (s : string) : list string :=
  match s with
  | EmptyString => [EmptyString]
  | String a t =>
      if Ascii.eqb a c then EmptyString :: split c t
      else match split c t with
           | h :: r => String a h :: r
           | [] => [String a EmptyString]
           end
  end.

(** [parts.join(sep)]. *)
Definition join (sep : string) (parts : list string) : string :=
  String.concat sep parts.

(** A relative index of [Array.prototype.slice]: negative counts from the
    end, and the result is clamped to [0 .. len]. *)
Definition rel_index (len : nat) (k : Z) : nat :=
  if (k <? 0)%Z then Z.to_nat (Z.max (Z.of_nat len + k) 0)
  else Nat.min (Z.to_nat k) len.

(** [arr.slice(b, e)]. *)
Definition slice {A} (b e : Z) (arr : list A) : list A :=
  let from := rel_index (length arr) b in
  let to := rel_index (length arr) e in
  firstn (to - from) (skipn from arr).

(** [arr.find(pred)]: the first element, in array order, that satisfies
    the predicate. *)
Definition find {A} (pred : A -> bool) (arr : list A) : option A :=
  List.find pred arr.

(** The longest run of leading characters satisfying [ok], and the rest:
    what a greedy character class [[^c]+] consumes. *)
Fixpoint span (ok : ascii -> bool) (s : string) : string * string :=
  match s with
  | EmptyString => (EmptyString, EmptyString)
  | String a t =>
      if ok a then let (run, rest) := span ok t in (String a run, rest)
      else (EmptyString, s)
  end.

(** [s.match(re)] for an unanchored expression: the matcher [at_pos] is
    tried at every start position from the left, the end included. *)
Fixpoint search {A} (at_pos : string -> option A) (s : string) : option A :=
  match at_pos s with
  | Some a => Some a
  | None =>
      match s with
      | EmptyString => None
      | String _ t => search at_pos t
      end
  end.

Definition is_empty (s : string) : bool :=
  match s with EmptyString => true | String _ _ => false end.

Definition all_chars (ok : ascii -> bool) (s : string) : bool :=
  forallb ok (list_ascii_of_string s).

End Js.

(* ------------------------------------------------------------------ *)
(** ** Resource names and their resolution *)

Module Resolver.
Import Js.

Definition not_dot (a : ascii) : bool := negb (Ascii.eqb a ".").
Definition not_slash (a : ascii) : bool := negb (Ascii.eqb a "/").
Definition not_dash (a : ascii) : bool := negb (Ascii.eqb a "-").

(** [/https:\/\/([^.]+)\.vercel\.app/] tried at one position.  The class
    [[^.]+] is greedy, and a shorter run is followed by a character that is
    not a dot, so only the longest run can be followed by [.vercel.app]. *)
Definition vercel_at (s : string) : option string :=
  match strip_prefix "https://" s with
  | Some r =>
      let (name, rest) := span not_dot r in
      if negb (is_empty name) && starts_with ".vercel.app" rest
      then Some name else None
  | None => None
  end.

(** [extractProjectNameFromUrl], index.ts 504-511. *)
Definition extractProjectNameFromUrl (url : string) : option string :=
  search vercel_at url.

(** [/https:\/\/github\.com\/([^\/]+)\/([^\/]+)/] tried at one position. *)
Definition github_at (s : string) : option (string * string) :=
  match strip_prefix "https://github.com/" s with
  | Some r =>
      let (owner, rest) := span not_slash r in
      match rest with
      | String "/" rest' =>
          let (repo, _) := span not_slash rest' in
          if negb (is_empty owner) && negb (is_empty repo)
          then Some (owner, repo) else None
      | _ => None
      end
  | None => None
  end.

(** The [repoUrl.match(...)] of [deleteGitHubRepo], index.ts 672. *)
Definition matchGitHubRepoUrl (repoUrl : string) : option (string * string) :=
  search github_at repoUrl.

(** *** The name generator of [generateDemo] and [deployToVercel] *)

Inductive role := Frontend | Backend.

Definition role_token (r : role) : string :=
  match r with Frontend => "frontend" | Backend => "backend" end.

(** The project name handed to [deployToVercel] (demoGenerator.ts 140-141):
    [`segment-demo-${slugify(customerName).toLowerCase()}-frontend`].
    [slug] stands for [slugify(customerName).toLowerCase()]; the [slugify]
    package is a dependency, so its result is an argument here. *)
Definition projectNameFor (slug : string) (r : role) : string :=
  "segment-demo-" ++ slug ++ "-" ++ role_token r.

(** The URL [deployToVercel] synthesizes (demoGenerator.ts 1164-1165 and
    1233-1234): [`https://${projectName}-${deploymentId}.vercel.app`], where
    [deploymentId] is [Math.random().toString(36).substring(7)]; the
    fallback of [generateDemo] (144-146) has the same shape with
    [Date.now().toString(36)]. *)
Definition placeholderUrl (projectName deploymentId : string) : string :=
  "https://" ++ projectName ++ "-" ++ deploymentId ++ ".vercel.app".

(** The generated resource name: the sole variable segment of that URL. *)
Definition generatedName (slug : string) (r : role) (suffix : string) : string :=
  projectNameFor slug r ++ "-" ++ suffix.

(** [https://{project-name}.vercel.app]. *)
Definition deployUrl (name : string) : string :=
  "https://" ++ name ++ ".vercel.app".

(** The digits [Number.prototype.toString(36)] produces. *)
Definition base36_digit (a : ascii) : bool :=
  let n := nat_of_ascii a in
  ((48 <=? n)%nat && (n <=? 57)%nat) || ((97 <=? n)%nat && (n <=? 122)%nat).

Definition base36 (s : string) : bool := all_chars base36_digit s.

Definition dot_free (s : string) : bool := all_chars not_dot s.
Definition dash_free (s : string) : bool := all_chars not_dash s.

(** *** The project search of [deleteVercelProject], index.ts 582-598 *)

Record project := { p_name : string; p_id : string }.

(** [projectName.split('-').slice(2, -2).join('-')], line 594. *)
Definition customerNameOf (projectName : string) : string :=
  join "-" (slice 2 (-2) (split "-" projectName)).

Definition exact_pass (projectName : string) (projects : list project) :=
  find (fun p => String.eqb (p_name p) projectName) projects.

Definition partial_pass (projectName : string) (projects : list project) :=
  find (fun p => includes (p_name p) projectName
                 || includes projectName (p_name p)) projects.

Definition customer_pass (projectName : string) (projects : list project) :=
  let customerName := customerNameOf projectName in
  if truthy (Some customerName)
  then find (fun p => includes (p_name p) customerName) projects
  else None.

(** Lines 582-598 as they are written: [project] is assigned by the exact
    search, and reassigned by the next search only while it is still
    undefined. *)
Definition findProjectFuzzy (projectName : string) (projects : list project)
  : option project :=
  let project := exact_pass projectName projects in
  let project :=
    match project with
    | Some _ => project
    | None => partial_pass projectName projects
    end in
  let project :=
    match project with
    | Some _ => project
    | None => customer_pass projectName projects
    end in
  project.

(** The matching policy in the words of the specification: an ordered list
    of matcher strategies, tried in order, stopping at the first hit.  What
    each matcher accepts is said here without the code's searches. *)
Inductive matcher := ExactMatch | SubstringMatch | SlugHeuristicMatch.

Definition matching_policy : list matcher :=
  [ExactMatch; SubstringMatch; SlugHeuristicMatch].

(** [part] stands somewhere in [whole]. *)
Definition occurs_in (part whole : string) : Prop :=
  exists pre post, whole = pre ++ part ++ post.

(** The display-name slug recovered from a resource name: what is left of
    the dash-separated name once its two leading segments ([segment] and
    [demo] in a generated name), the role token and the trailing uniqueness
    suffix are stripped; an empty rest is no slug. *)
Definition recovered_slug (target slug : string) : Prop :=
  slug <> EmptyString
  /\ exists a b r s,
       dash_free a = true /\ dash_free b = true
       /\ dash_free r = true /\ dash_free s = true
       /\ target = a ++ "-" ++ b ++ "-" ++ slug ++ "-" ++ r ++ "-" ++ s.

(** What a matcher accepts: the entry named as the target; an entry whose
    name holds the target or is held by it; an entry whose name holds the
    slug recovered from the target. *)
Definition matches (m : matcher) (target : string) (p : project) : Prop :=
  match m with
  | ExactMatch => p_name p = target
  | SubstringMatch => occurs_in target (p_name p) \/ occurs_in (p_name p) target
  | SlugHeuristicMatch =>
      exists slug, recovered_slug target slug /\ occurs_in slug (p_name p)
  end.

Definition rejects_all (m : matcher) (target : string) (listing : list project) : Prop :=
  forall q, In q listing -> ~ matches m target q.

(** The first entry, in listing order, that the matcher accepts. *)
Definition first_accepted (m : matcher) (target : string) (listing : list project)
           (p : project) : Prop :=
  exists before after,
    listing = (before ++ p :: after)%list
    /\ matches m target p
    /\ rejects_all m target before.

(** The result of an ordered policy: the first entry accepted by the first
    matcher that accepts any entry, and nothing when every matcher rejects
    every entry. *)
Definition policy_result (ms : list matcher) (target : string)
           (listing : list project) (result : option project) : Prop :=
  match result with
  | Some p =>
      exists tried m later,
        ms = (tried ++ m :: later)%list
        /\ (forall m', In m' tried -> rejects_all m' target listing)
        /\ first_accepted m target listing p
  | None => forall m, In m ms -> rejects_all m target listing
  end.

End Resolver.

(* ------------------------------------------------------------------ *)
(** ** The server: routes and helpers of index.ts *)

Module Server.
Import Js Resolver.

(** The columns of the [demos] table (supabase-schema.sql) that the insert
    of [/generate-demo] writes. *)
Record demo_row := {
  user_id : string;
  customer_name : string;
  logo_url : option string;
  segment_write_key : string;
  segment_profile_token : string;
  segment_unify_space_id : string;
  frontend_url : option string;
  backend_url : option string;
  github_repo_url : option string
}.

(** A stored Demo Record: the generated id and the row. *)
Record demo := { demo_id : string; demo_cols : demo_row }.

(** The body of a [/generate-demo] request: every field may be missing. *)
Record demo_params := {
  customerName : option string;
  logoUrl : option string;
  writeKey : option string;
  profileToken : option string;
  unifySpaceId : option string;
  githubToken : option string;
  supabaseUserId : option string;
  inspirationRepo : option string
}.

(** [DemoResult] of demoGenerator.ts. *)
Record demo_result := {
  frontendUrl : string;
  backendUrl : string;
  githubRepoUrl : string
}.

(** [process.env] as far as the deletion code reads it. *)
Record process_env := {
  VERCEL_TOKEN : option string;
  VERCEL_TEAM_ID : option string
}.

(** The account scope of a deploy-host request:
    [/v9/teams/${teamId}/projects...] or [/v9/projects...]. *)
Inductive scope := Team (teamId : string) | Personal.

(** What the code throws and catches: an object that is an [Error] (of
    any subclass), with its [name] and its [message], or another value.
    The [error] of a record-store reply is a plain object with a [message]
    field, not an [Error]. *)
Inductive thrown :=
| ErrorObject (name message : string)
| PlainObject (message : string).

(** [new Error(message)]. *)
Definition new_Error (message : string) : thrown := ErrorObject "Error" message.

(** A message that stands where a thrown value is expected is
    [new Error(message)]. *)
Coercion new_Error : string >-> thrown.

(** [error instanceof Error ? error.message : 'Unknown error'] *)
Definition error_message (error : thrown) : string :=
  match error with
  | ErrorObject _ message => message
  | PlainObject _ => "Unknown error"
  end.

(** [`${error}`]: [Error.prototype.toString] joins the name and the message
    when both are there; a plain object prints as [[object Object]]. *)
Definition render_error (error : thrown) : string :=
  match error with
  | ErrorObject EmptyString message => message
  | ErrorObject name EmptyString => name
  | ErrorObject name message => name ++ ": " ++ message
  | PlainObject _ => "[object Object]"
  end.

(** What [fetch] gives for a project listing: a rejected promise, or a
    response with its [ok] flag, its [`${status} ${statusText}`] and the
    [projects] array of its JSON body ([data.projects || []]).  A body that
    fails to parse rejects inside the same [try] as the request, so it is a
    [ListRejected] as well. *)
Inductive list_reply :=
| ListRejected (error : thrown)
| ListResponse (ok : bool) (status_line : string) (projects : list project).

(** What [fetch] gives for a [DELETE] request. *)
Inductive delete_reply :=
| DeleteRejected (error : thrown)
| DeleteResponse (ok : bool) (status_line : string).

(** The external collaborators.  Each operation reads and updates a world
    [W] that the server cannot see otherwise.  The record-store operations
    resolve to supabase-js's [{ data, error }] pair; [fetch] and octokit
    reject their promise on failure. *)
Record Env (W : Type) := {
  (** [supabase.from('demos').select('*').eq('id', id).single()] *)
  db_select_single : string -> W -> (option demo * option string) * W;
  (** [supabase.from('demos').delete().eq('id', id)]: the [error] *)
  db_delete_eq : string -> W -> option string * W;
  (** [supabase.from('demos').insert(row)]: the [error] *)
  db_insert : demo_row -> W -> option string * W;
  (** [GET] of the project listing of a scope, with the bearer token *)
  vercel_get_projects : scope -> string -> W -> list_reply * W;
  (** [DELETE .../projects/${idOrName}] in a scope, with the bearer token *)
  vercel_delete_project : scope -> string -> string -> W -> delete_reply * W;
  (** [octokit.repos.delete({ owner, repo })] with the given token:
      [Some message] when the promise rejects *)
  octokit_repos_delete : string -> string -> string -> W -> option string * W;
  (** [generateDemo(params)] of demoGenerator.ts: the result, or the
      message of the error it throws *)
  run_generateDemo : demo_params -> W -> (demo_result + string) * W
}.

Arguments db_select_single {W}.
Arguments db_delete_eq {W}.
Arguments db_insert {W}.
Arguments vercel_get_projects {W}.
Arguments vercel_delete_project {W}.
Arguments octokit_repos_delete {W}.
Arguments run_generateDemo {W}.

(** The calls the server issues, as a test double would capture them.  The
    two deletions of a deploy-host project are the same HTTP request; the
    capture also tells whether the identifier was the id of a project found
    in the listing or the literal name of the fallback. *)
Inductive call :=
| DbFetch (demoId : string)
| DbDelete (demoId : string)
| DbInsert (r : demo_row)
| VercelList (sc : scope)
| VercelDeleteById (sc : scope) (projectId : string)
| VercelDeleteByName (sc : scope) (projectName : string)
| GitHubDelete (owner repo : string)
| GenerateDemo (p : demo_params).

(** A captured call and whether it succeeded. *)
Record event := { ev_call : call; ev_ok : bool }.

(** JSON bodies of the responses. *)
Inductive body :=
| JError (error : string) (details : option string)
| JSuccess (message : string)
| JData (data : demo_result)
| JTest (success : bool) (endpointUsed : string) (projectCount : nat)
        (projects : list project).

Record response := { status : nat; json : body }.

Inductive outcome (A : Type) :=
| Ret (a : A)
| Throw (e : thrown).
Arguments Ret {A}.
Arguments Throw {A}.

Definition is_some {A} (o : option A) : bool :=
  match o with Some _ => true | None => false end.

Definition or_empty (o : option string) : string :=
  match o with Some s => s | None => EmptyString end.

Section Routes.
Context {W : Type}.
Variable env : Env W.
Variable cfg : process_env.

(** A request runs on the world and appends to the capture. *)
Definition state : Type := W * list event.

(** Computations of the server: they run on a state and return a value or
    throw one. *)
Definition M (A : Type) : Type := state -> outcome A * state.

Definition ret {A} (a : A) : M A := fun s => (Ret a, s).

Definition throw {A} (e : thrown) : M A := fun s => (Throw e, s).

Definition bind {A B} (m : M A) (k : A -> M B) : M B :=
  fun s =>
    match m s with
    | (Ret a, s') => k a s'
    | (Throw e, s') => (Throw e, s')
    end.

(** [try { m } catch (e) { h e }] *)
Definition try_catch {A} (m : M A) (h : thrown -> M A) : M A :=
  fun s =>
    match m s with
    | (Ret a, s') => (Ret a, s')
    | (Throw e, s') => h e s'
    end.

Notation "x <- c1 ;; c2" := (bind c1 (fun x => c2))
  (at level 61, c1 at next level, right associativity).
Notation "c1 ;;; c2" := (bind c1 (fun _ => c2))
  (at level 61, right associativity).

(** An external operation that resolves: run it, capture it. *)
Definition perform {R} (c : call) (op : W -> R * W) (ok : R -> bool) : M R :=
  fun '(w, tr) =>
    let '(r, w') := op w in
    (Ret r, (w', (tr ++ [{| ev_call := c; ev_ok := ok r |}])%list)).

Definition supabase_single (demoId : string) : M (option demo * option string) :=
  perform (DbFetch demoId) (db_select_single env demoId)
          (fun r => is_some (fst r) && negb (is_some (snd r))).

Definition supabase_delete (demoId : string) : M (option string) :=
  perform (DbDelete demoId) (db_delete_eq env demoId)
          (fun r => negb (is_some r)).

Definition supabase_insert (r : demo_row) : M (option string) :=
  perform (DbInsert r) (db_insert env r) (fun e => negb (is_some e)).

Definition list_ok (r : list_reply) : bool :=
  match r with ListResponse ok _ _ => ok | ListRejected _ => false end.

Definition delete_ok (r : delete_reply) : bool :=
  match r with DeleteResponse ok _ => ok | DeleteRejected _ => false end.

(** [await fetch(listing url)] followed by [await response.json()]: throws
    when the promise rejects. *)
Definition fetch_projects (sc : scope) (token : string)
  : M (bool * string * list project) :=
  r <- perform (VercelList sc) (vercel_get_projects env sc token) list_ok ;;
  match r with
  | ListRejected m => throw m
  | ListResponse ok line ps => ret (ok, line, ps)
  end.

(** [await fetch(delete url, { method: 'DELETE' })]. *)
Definition fetch_delete (c : call) (sc : scope) (idOrName token : string)
  : M (bool * string) :=
  r <- perform c (vercel_delete_project env sc idOrName token) delete_ok ;;
  match r with
  | DeleteRejected m => throw m
  | DeleteResponse ok line => ret (ok, line)
  end.

Inductive endpoint := EpTeam | EpPersonal.

(** [endpointType === 'team' && teamId ? team url : personal url] *)
Definition delete_scope (endpointType : endpoint) : scope :=
  match endpointType with
  | EpTeam =>
      if truthy (VERCEL_TEAM_ID cfg) then Team (or_empty (VERCEL_TEAM_ID cfg))
      else Personal
  | EpPersonal => Personal
  end.

(** [deleteVercelProject], index.ts 514-664. *)
Definition deleteVercelProject (projectName token : string) : M unit :=
  try_catch
    (let teamId := VERCEL_TEAM_ID cfg in
     (* 526-548: the team listing; any failure is logged only *)
     st <- (if truthy teamId then
              try_catch
                (r <- fetch_projects (Team (or_empty teamId)) token ;;
                 let '(ok, _, ps) := r in
                 if ok then ret (ps, EpTeam) else ret ([], EpPersonal))
                (fun _ => ret ([], EpPersonal))
            else ret ([], EpPersonal)) ;;
     (* 550-575: the personal listing when nothing is listed yet *)
     st <- (let '(projects, endpointType) := st in
            if (length projects =? 0)%nat then
              try_catch
                (r <- fetch_projects Personal token ;;
                 let '(ok, line, ps) := r in
                 if ok then ret (ps, EpPersonal)
                 else throw ("Failed to fetch Vercel projects: " ++ line))
                (fun e =>
                   throw ("Failed to fetch Vercel projects: " ++ render_error e))
            else ret (projects, endpointType)) ;;
     let '(projects, endpointType) := st in
     match findProjectFuzzy projectName projects with
     | None =>
         (* 600-634: direct deletion by name; its failure is logged only *)
         try_catch
           (fetch_delete (VercelDeleteByName (delete_scope endpointType) projectName)
                         (delete_scope endpointType) projectName token ;;;
            ret tt)
           (fun _ => ret tt)
     | Some project =>
         (* 636-659 *)
         r <- fetch_delete (VercelDeleteById (delete_scope endpointType) (p_id project))
                           (delete_scope endpointType) (p_id project) token ;;
         let '(ok, line) := r in
         if negb ok then throw ("Failed to delete Vercel project: " ++ line)
         else ret tt
     end)
    (fun e => throw e).

(** [demo.frontend_url ? extractProjectNameFromUrl(demo.frontend_url) : null] *)
Definition project_of_url (url : option string) : option string :=
  if truthy url then extractProjectNameFromUrl (or_empty url) else None.

(** [deleteVercelDeployments], index.ts 466-501. *)
Definition deleteVercelDeployments (d : demo) : M unit :=
  let vercelToken := VERCEL_TOKEN cfg in
  if negb (truthy vercelToken) then ret tt
  else
    try_catch
      (let frontendProject := project_of_url (frontend_url (demo_cols d)) in
       let backendProject := project_of_url (backend_url (demo_cols d)) in
       (if truthy frontendProject
        then deleteVercelProject (or_empty frontendProject) (or_empty vercelToken)
        else ret tt) ;;;
       (if truthy backendProject
        then deleteVercelProject (or_empty backendProject) (or_empty vercelToken)
        else ret tt) ;;;
       ret tt)
      (fun e => throw e).

(** [deleteGitHubRepo], index.ts 667-696. *)
Definition deleteGitHubRepo (repoUrl githubToken : string) : M unit :=
  try_catch
    (match matchGitHubRepoUrl repoUrl with
     | None => throw "Invalid GitHub repository URL"
     | Some (owner, repo) =>
         r <- perform (GitHubDelete owner repo)
                      (octokit_repos_delete env owner repo githubToken)
                      (fun r => negb (is_some r)) ;;
         match r with
         | Some m => throw m
         | None => ret tt
         end
     end)
    (fun e => throw e).

Definition reply (code : nat) (b : body) : M response :=
  ret {| status := code; json := b |}.

(** The database delete that ends [/delete-demo-data] and [/delete-demo]:
    [if (deleteError) throw deleteError]. *)
Definition delete_record (demoId : string) : M unit :=
  deleteError <- supabase_delete demoId ;;
  match deleteError with
  | Some m => throw (PlainObject m)
  | None => ret tt
  end.

(** The repository step shared by [/delete-demo-data] (222-235) and
    [/delete-demo] (300-313). *)
Definition github_step (d : demo) (githubToken : option string) : M unit :=
  if truthy (github_repo_url (demo_cols d)) && truthy githubToken then
    try_catch
      (deleteGitHubRepo (or_empty (github_repo_url (demo_cols d)))
                        (or_empty githubToken))
      (fun _ => ret tt)
  else ret tt.

(** The deploy-host step of [/delete-demo] (284-298): a failure of
    [deleteVercelDeployments] is logged only. *)
Definition vercel_step (d : demo) : M unit :=
  if truthy (frontend_url (demo_cols d)) || truthy (backend_url (demo_cols d))
  then try_catch (deleteVercelDeployments d) (fun _ => ret tt)
  else ret tt.

(** [app.delete('/delete-vercel-deployments')], index.ts 141-194. *)
Definition delete_vercel_deployments_route (demoId : option string) : M response :=
  try_catch
    (if negb (truthy demoId) then reply 400 (JError "Demo ID is required" None)
     else
       r <- supabase_single (or_empty demoId) ;;
       match r with
       | (Some d, None) =>
           if truthy (frontend_url (demo_cols d)) || truthy (backend_url (demo_cols d))
           then
             try_catch
               (deleteVercelDeployments d ;;;
                reply 200 (JSuccess "Vercel deployments deleted successfully"))
               (fun e =>
                  reply 500 (JError "Failed to delete Vercel deployments" (Some (error_message e))))
           else reply 200 (JSuccess "No Vercel deployments found")
       | _ => reply 404 (JError "Demo not found" None)
       end)
    (fun e => reply 500 (JError "Failed to delete Vercel deployments" (Some (error_message e)))).

(** [app.delete('/delete-demo-data')], index.ts 197-256. *)
Definition delete_demo_data_route (demoId githubToken : option string) : M response :=
  try_catch
    (if negb (truthy demoId) then reply 400 (JError "Demo ID is required" None)
     else
       r <- supabase_single (or_empty demoId) ;;
       match r with
       | (Some d, None) =>
           github_step d githubToken ;;;
           delete_record (or_empty demoId) ;;;
           reply 200 (JSuccess "Demo data deleted successfully")
       | _ => reply 404 (JError "Demo not found" None)
       end)
    (fun e => reply 500 (JError "Failed to delete demo data" (Some (error_message e)))).

(** [app.delete('/delete-demo')], index.ts 259-334. *)
Definition delete_demo_route (demoId githubToken : option string) : M response :=
  try_catch
    (if negb (truthy demoId) || negb (truthy githubToken)
     then reply 400 (JError "Demo ID and GitHub token are required" None)
     else
       r <- supabase_single (or_empty demoId) ;;
       match r with
       | (Some d, None) =>
           vercel_step d ;;;
           github_step d githubToken ;;;
           delete_record (or_empty demoId) ;;;
           reply 200 (JSuccess "Demo deleted successfully")
       | _ => reply 404 (JError "Demo not found" None)
       end)
    (fun e => reply 500 (JError "Failed to delete demo" (Some (error_message e)))).

(** [app.get('/test-vercel')], index.ts 337-418.  The [framework] field of
    the listed projects is not modelled. *)
Definition test_vercel_route : M response :=
  try_catch
    (let vercelToken := VERCEL_TOKEN cfg in
     let teamId := VERCEL_TEAM_ID cfg in
     if negb (truthy vercelToken) then reply 400 (JError "VERCEL_TOKEN not set" None)
     else
       st <- (if truthy teamId then
                try_catch
                  (r <- fetch_projects (Team (or_empty teamId)) (or_empty vercelToken) ;;
                   let '(ok, _, ps) := r in
                   if ok then ret (ps, "team") else ret ([], EmptyString))
                  (fun _ => ret ([], EmptyString))
              else ret ([], EmptyString)) ;;
       st <- (let '(projects, endpointUsed) := st in
              if (length projects =? 0)%nat then
                try_catch
                  (r <- fetch_projects Personal (or_empty vercelToken) ;;
                   let '(ok, _, ps) := r in
                   if ok then ret (ps, "personal") else ret (projects, endpointUsed))
                  (fun _ => ret (projects, endpointUsed))
              else ret (projects, endpointUsed)) ;;
       let '(projects, endpointUsed) := st in
       reply 200 (JTest (0 <? length projects)%nat endpointUsed
                        (length projects) projects))
    (fun e => reply 500 (JError "Failed to test Vercel API" (Some (error_message e)))).

(** [app.post('/generate-demo')], index.ts 43-113. *)
Definition generate_demo_route (p : demo_params) : M response :=
  try_catch
    (if negb (truthy (customerName p)) || negb (truthy (writeKey p))
        || negb (truthy (profileToken p)) || negb (truthy (unifySpaceId p))
        || negb (truthy (githubToken p)) || negb (truthy (supabaseUserId p))
     then reply 400 (JError "Missing required fields: customerName, writeKey, profileToken, unifySpaceId, githubToken, supabaseUserId" None)
     else
       g <- perform (GenerateDemo p) (run_generateDemo env p)
                    (fun r => match r with inl _ => true | inr _ => false end) ;;
       match g with
       | inr m => throw m
       | inl result =>
           (* 81-99: the insert; its error is logged only *)
           supabase_insert
             {| user_id := or_empty (supabaseUserId p);
                customer_name := or_empty (customerName p);
                logo_url := logoUrl p;
                segment_write_key := or_empty (writeKey p);
                segment_profile_token := or_empty (profileToken p);
                segment_unify_space_id := or_empty (unifySpaceId p);
                frontend_url := Some (frontendUrl result);
                backend_url := Some (backendUrl result);
                github_repo_url := Some (githubRepoUrl result) |} ;;;
           reply 200 (JData result)
       end)
    (fun e => reply 500 (JError "Failed to generate demo" (Some (error_message e)))).

(** The [ok] flag of a [fetch] response: a status in 200..299. *)
Definition response_ok (r : response) : bool :=
  (200 <=? status r)%nat && (status r <=? 299)%nat.

(** [result.error || fallback] on the JSON body of the server's answer. *)
Definition error_or (b : body) (fallback : string) : string :=
  match b with
  | JError e _ => if truthy (Some e) then e else fallback
  | _ => fallback
  end.

(** The client-side API route in front of [/delete-demo-data]
    (client/src/app/api/delete-demo-data/route.ts): it checks both query
    parameters and then forwards the request to the server. *)
Definition client_delete_demo_data (demoId githubToken : option string) : M response :=
  try_catch
    (if negb (truthy demoId) then reply 400 (JError "Demo ID is required" None)
     else if negb (truthy githubToken)
     then reply 400 (JError "GitHub token is required" None)
     else
       r <- delete_demo_data_route demoId githubToken ;;
       if negb (response_ok r)
       then reply (status r)
                  (JError (error_or (json r) "Failed to delete demo data") None)
       else reply 200 (json r))
    (fun _ => reply 500 (JError "Internal server error" None)).

(** Running a route on a world, with an empty capture. *)
Definition run {A} (m : M A) (w : W) : outcome A * state := m (w, []).

Definition calls_of {A} (r : outcome A * state) : list event := snd (snd r).
Definition world_of {A} (r : outcome A * state) : W := fst (snd r).
Definition value_of {A} (r : outcome A * state) : outcome A := fst r.

End Routes.

End Server.

(* ------------------------------------------------------------------ *)
(** ** Reading a capture *)

Module Capture.
Import Server.

Definition is_throw {A} (o : outcome A) : bool :=
  match o with Throw _ => true | Ret _ => false end.

Definition deploy_host_call (c : call) : bool :=
  match c with
  | VercelList _ | VercelDeleteById _ _ | VercelDeleteByName _ _ => true
  | _ => false
  end.

Definition listing_call (c : call) : bool :=
  match c with VercelList _ => true | _ => false end.

Definition code_host_call (c : call) : bool :=
  match c with GitHubDelete _ _ => true | _ => false end.

Definition deploy_host_event (e : event) : bool := deploy_host_call (ev_call e).
Definition listing_event (e : event) : bool := listing_call (ev_call e).
Definition code_host_event (e : event) : bool := code_host_call (ev_call e).

(** The deploy-host failures that [deleteVercelProject] lets escape: a
    failed personal-scope listing, and a failed deletion of a project that
    the listing search found. *)
Definition fatal (e : event) : bool :=
  negb (ev_ok e) &&
  match ev_call e with
  | VercelList Personal => true
  | VercelDeleteById _ _ => true
  | _ => false
  end.

(** The stage of the combined deletion a call belongs to: record lookup,
    deploy host, code host, record delete. *)
Definition stage (c : call) : nat :=
  match c with
  | DbFetch _ => 0
  | VercelList _ | VercelDeleteById _ _ | VercelDeleteByName _ _ => 1
  | GitHubDelete _ _ => 2
  | DbDelete _ => 3
  | DbInsert _ | GenerateDemo _ => 4
  end.

Definition status_of (o : outcome response) : option nat :=
  match o with Ret r => Some (status r) | Throw _ => None end.

(** The lookup event and the record-delete event of a deletion route. *)
Definition fetched (demoId : option string) (ok : bool) : event :=
  {| ev_call := DbFetch (or_empty demoId); ev_ok := ok |}.

Definition record_deleted (demoId : option string) (ok : bool) : event :=
  {| ev_call := DbDelete (or_empty demoId); ev_ok := ok |}.

(** A lookup that does not yield the record. *)
Definition lookup_failed (r : option demo * option string) : Prop :=
  match r with (Some _, None) => False | _ => True end.

(** No project found in a listing was deleted. *)
Definition not_by_id (e : event) : bool :=
  match ev_call e with
  | VercelDeleteById _ _ => false
  | _ => true
  end.

(** A computation whose calls all satisfy [good] and which throws exactly
    when one of them is a fatal deploy-host failure. *)
Definition captures {W A} (good : event -> bool) (m : @M W A) : Prop :=
  forall s, exists evs,
    snd (snd (m s)) = (snd s ++ evs)%list
    /\ forallb good evs = true
    /\ is_throw (fst (m s)) = existsb fatal evs.

(** The order of the stages. *)
Definition stage_le (a b : event) : Prop :=
  stage (ev_call a) <= stage (ev_call b).

(** A capture is staged when no call of a later stage comes before a call
    of an earlier one. *)
Inductive staged : list event -> Prop :=
| staged_nil : staged []
| staged_cons a l : Forall (stage_le a) l -> staged l -> staged (a :: l).

End Capture.

(* ------------------------------------------------------------------ *)
(** ** A test double of the collaborators *)

Module Sim.
Import Js Resolver Server Capture.

(** The requests as the collaborators see them. *)
Inductive request :=
| RqSelect (demoId : string)
| RqDelete (demoId : string)
| RqInsert
| RqList (sc : scope)
| RqDeleteProject (sc : scope) (idOrName : string)
| RqDeleteRepo (owner repo : string)
| RqGenerate.

(** The simulated world: the rows of the [demos] table, the projects listed
    under the team scope [team] and under the personal scope, the
    repositories of the code host, what the generator is going to produce,
    and the requests that are made to fail. *)
Record world := {
  rows : list demo;
  team : string;
  team_projects : list project;
  personal_projects : list project;
  repos : list (string * string);
  next_row : nat;
  generator : option demo_result;
  faulty : request -> bool
}.

Definition with_rows (w : world) (rs : list demo) (n : nat) : world :=
  {| rows := rs; team := team w; team_projects := team_projects w;
     personal_projects := personal_projects w; repos := repos w;
     next_row := n; generator := generator w; faulty := faulty w |}.

Definition with_projects (w : world) (tp pp : list project) : world :=
  {| rows := rows w; team := team w; team_projects := tp;
     personal_projects := pp; repos := repos w;
     next_row := next_row w; generator := generator w; faulty := faulty w |}.

Definition with_repos (w : world) (rp : list (string * string)) : world :=
  {| rows := rows w; team := team w; team_projects := team_projects w;
     personal_projects := personal_projects w; repos := rp;
     next_row := next_row w; generator := generator w; faulty := faulty w |}.

Definition has_id (demoId : string) (d : demo) : bool :=
  String.eqb (demo_id d) demoId.

(** [.single()] answers with an error unless exactly one row matches. *)
Definition sim_select (demoId : string) (w : world)
  : (option demo * option string) * world :=
  if faulty w (RqSelect demoId) then ((None, Some "record store unavailable"), w)
  else
    match filter (has_id demoId) (rows w) with
    | [d] => ((Some d, None), w)
    | _ => ((None, Some "JSON object requested, multiple (or no) rows returned"), w)
    end.

(** Deleting by id removes the matching rows; no row is not an error. *)
Definition sim_delete (demoId : string) (w : world) : option string * world :=
  if faulty w (RqDelete demoId) then (Some "record store unavailable", w)
  else (None, with_rows w (filter (fun d => negb (has_id demoId d)) (rows w))
                          (next_row w)).

Definition row_id (n : nat) : string :=
  "row-" ++ NilEmpty.string_of_uint (Nat.to_uint n).

Definition sim_insert (r : demo_row) (w : world) : option string * world :=
  if faulty w RqInsert then (Some "record store unavailable", w)
  else (None, with_rows w (rows w ++ [{| demo_id := row_id (next_row w);
                                         demo_cols := r |}])%list
                          (S (next_row w))).

Definition sim_list (sc : scope) (token : string) (w : world) : list_reply * world :=
  if faulty w (RqList sc) then (ListResponse false "403 Forbidden" [], w)
  else
    match sc with
    | Team t =>
        if String.eqb t (team w) then (ListResponse true "200 OK" (team_projects w), w)
        else (ListResponse false "404 Not Found" [], w)
    | Personal => (ListResponse true "200 OK" (personal_projects w), w)
    end.

Definition named (idOrName : string) (p : project) : bool :=
  String.eqb (p_id p) idOrName || String.eqb (p_name p) idOrName.

Definition drop_project (idOrName : string) (ps : list project) : list project :=
  filter (fun p => negb (named idOrName p)) ps.

(** The deploy host deletes a project addressed by id or by name. *)
Definition sim_delete_project (sc : scope) (idOrName token : string) (w : world)
  : delete_reply * world :=
  if faulty w (RqDeleteProject sc idOrName) then (DeleteResponse false "403 Forbidden", w)
  else
    match sc with
    | Team t =>
        if String.eqb t (team w) && existsb (named idOrName) (team_projects w)
        then (DeleteResponse true "204 No Content",
              with_projects w (drop_project idOrName (team_projects w))
                              (personal_projects w))
        else (DeleteResponse false "404 Not Found", w)
    | Personal =>
        if existsb (named idOrName) (personal_projects w)
        then (DeleteResponse true "204 No Content",
              with_projects w (team_projects w)
                              (drop_project idOrName (personal_projects w)))
        else (DeleteResponse false "404 Not Found", w)
    end.

Definition is_repo (owner repo : string) (r : string * string) : bool :=
  String.eqb (fst r) owner && String.eqb (snd r) repo.

Definition sim_delete_repo (owner repo token : string) (w : world)
  : option string * world :=
  if faulty w (RqDeleteRepo owner repo) then (Some "Bad credentials", w)
  else if existsb (is_repo owner repo) (repos w)
  then (None, with_repos w (filter (fun r => negb (is_repo owner repo r)) (repos w)))
  else (Some "Not Found", w).

Definition sim_generate (p : demo_params) (w : world)
  : (demo_result + string) * world :=
  if faulty w RqGenerate then (inr "OpenAI request failed", w)
  else match generator w with
       | Some r => (inl r, w)
       | None => (inr "OpenAI request failed", w)
       end.

Definition sim_env : Env world := {|
  db_select_single := sim_select;
  db_delete_eq := sim_delete;
  db_insert := sim_insert;
  vercel_get_projects := sim_list;
  vercel_delete_project := sim_delete_project;
  octokit_repos_delete := sim_delete_repo;
  run_generateDemo := sim_generate
|}.

Definition no_faults : request -> bool := fun _ => false.

Definition mk_demo (demoId : string) (front back repo : option string) : demo :=
  {| demo_id := demoId;
     demo_cols := {| user_id := "user-1"; customer_name := "Acme";
                     logo_url := None; segment_write_key := "wk";
                     segment_profile_token := "pt";
                     segment_unify_space_id := "sp";
                     frontend_url := front; backend_url := back;
                     github_repo_url := repo |} |}.

(** *** A concrete scene: the demo "Acme" with both projects deployed under
    the personal scope, and its repository. *)

Definition acme_front : string := generatedName "acme" Frontend "k3x9a".
Definition acme_back : string := generatedName "acme" Backend "q7w2e".

Definition acme : demo :=
  mk_demo "d1" (Some (deployUrl acme_front)) (Some (deployUrl acme_back))
          (Some "https://github.com/octo/segment-demo-acme").

Definition acme_projects : list project :=
  [ {| p_name := acme_front; p_id := "prj_front" |};
    {| p_name := acme_back; p_id := "prj_back" |} ].

Definition scene (f : request -> bool) : world :=
  {| rows := [acme]; team := "team_1"; team_projects := [];
     personal_projects := acme_projects;
     repos := [("octo", "segment-demo-acme")];
     next_row := 2; generator := None; faulty := f |}.

Definition token_only : process_env :=
  {| VERCEL_TOKEN := Some "vercel-token"; VERCEL_TEAM_ID := None |}.

Definition no_token : process_env :=
  {| VERCEL_TOKEN := None; VERCEL_TEAM_ID := None |}.

(** *** Faults and further scenes *)

(** The deploy host refuses to delete the frontend project. *)
Definition front_delete_refused (r : request) : bool :=
  match r with
  | RqDeleteProject Personal "prj_front" => true
  | _ => false
  end.

(** The code host refuses every repository deletion. *)
Definition repo_delete_refused (r : request) : bool :=
  match r with
  | RqDeleteRepo _ _ => true
  | _ => false
  end.

(** The record store refuses every insert. *)
Definition insert_refused (r : request) : bool :=
  match r with
  | RqInsert => true
  | _ => false
  end.

Definition acme_params : demo_params :=
  {| customerName := Some "Acme"; logoUrl := None; writeKey := Some "wk";
     profileToken := Some "pt"; unifySpaceId := Some "sp";
     githubToken := Some "gh-token"; supabaseUserId := Some "user-1";
     inspirationRepo := None |}.

Definition acme_result : demo_result :=
  {| frontendUrl := deployUrl acme_front; backendUrl := deployUrl acme_back;
     githubRepoUrl := "https://github.com/octo/segment-demo-acme" |}.

(** A world in which generation works and the insert is refused. *)
Definition generating : world :=
  {| rows := []; team := "team_1"; team_projects := []; personal_projects := [];
     repos := []; next_row := 1; generator := Some acme_result;
     faulty := insert_refused |}.

(** The scene with the frontend project of another demo of the same
    customer next to the two projects of the record. *)
Definition sibling : project :=
  {| p_name := generatedName "acme" Frontend "zz000"; p_id := "prj_other" |}.

Definition crowded_scene : world :=
  {| rows := [acme]; team := "team_1"; team_projects := [];
     personal_projects := (acme_projects ++ [sibling])%list;
     repos := [("octo", "segment-demo-acme")];
     next_row := 2; generator := None; faulty := no_faults |}.

(** The scene after its two projects were deleted. *)
Definition cleared_scene : world :=
  {| rows := [acme]; team := "team_1"; team_projects := [];
     personal_projects := []; repos := [("octo", "segment-demo-acme")];
     next_row := 2; generator := None; faulty := no_faults |}.

(** A computation that, started in the world [w], returns and leaves [w]
    as it is, having found no project to delete by id. *)
Definition quiet (w : world) {A} (m : @M world A) : Prop :=
  forall tr, exists a evs,
    m (w, tr) = (Ret a, (w, (tr ++ evs)%list))
    /\ forallb not_by_id evs = true.

End Sim.

(* ------------------------------------------------------------------ *)
(** ** More ways to read a capture *)

Module Shape.
Import Js Resolver Server Capture.

(** The two deletions of a deploy-host project. *)
Definition delete_event (e : event) : bool :=
  match ev_call e with
  | VercelDeleteById _ _ | VercelDeleteByName _ _ => true
  | _ => false
  end.

(** The account scope a deploy-host call addresses. *)
Definition scope_of (c : call) : option scope :=
  match c with
  | VercelList sc | VercelDeleteById sc _ | VercelDeleteByName sc _ => Some sc
  | _ => None
  end.

Definition personal_event (e : event) : bool :=
  match scope_of (ev_call e) with
  | Some Personal => true
  | _ => false
  end.

Definition lookup_event (e : event) : bool :=
  match ev_call e with DbFetch _ => true | _ => false end.

Definition record_delete_event (e : event) : bool :=
  match ev_call e with DbDelete _ => true | _ => false end.

(** The three tests of the project search, on one listed project. *)
Definition exact_test (projectName : string) (p : project) : bool :=
  String.eqb (p_name p) projectName.

Definition partial_test (projectName : string) (p : project) : bool :=
  includes (p_name p) projectName || includes projectName (p_name p).

Definition customer_test (projectName : string) (p : project) : bool :=
  truthy (Some (customerNameOf projectName))
  && includes (p_name p) (customerNameOf projectName).

Definition any_test (projectName : string) (p : project) : bool :=
  exact_test projectName p || partial_test projectName p
  || customer_test projectName p.

Definition slash_free (s : string) : bool := all_chars not_slash s.

(** A deploy-host call addressed to the personal scope or to the team of
    [VERCEL_TEAM_ID]. *)
Definition configured_scope (cfg : process_env) (e : event) : Prop :=
  scope_of (ev_call e) = Some Personal
  \/ (truthy (VERCEL_TEAM_ID cfg) = true
      /\ scope_of (ev_call e) = Some (Team (or_empty (VERCEL_TEAM_ID cfg)))).

(** The values of [endpointUsed] in the answer of [/test-vercel]. *)
Definition endpoint_name (s : string) : Prop :=
  s = EmptyString \/ s = "team" \/ s = "personal".

(** The statuses a route of the server answers with. *)
Definition known_status (n : nat) : bool :=
  (n =? 200)%nat || (n =? 400)%nat || (n =? 404)%nat || (n =? 500)%nat.

Definition answers {W} (r : outcome response * @state W) : Prop :=
  exists resp, fst r = Ret resp /\ known_status (status resp) = true.

End Shape.

(* ------------------------------------------------------------------ *)
(** ** The generator: demoGenerator.ts *)

Module Generator.
Import Js Resolver Server.

(** In this module a character is a UTF-16 code unit below 256. *)

Definition unit_between (lo hi : nat) (a : ascii) : bool :=
  (lo <=? nat_of_ascii a)%nat && (nat_of_ascii a <=? hi)%nat.

(** [toLowerCase] on one unit: the capitals of ASCII and of Latin-1. *)
Definition lower_unit (a : ascii) : ascii :=
  if unit_between 65 90 a || unit_between 192 214 a || unit_between 216 222 a
  then ascii_of_nat (nat_of_ascii a + 32)
  else a.

Fixpoint map_units (f : ascii -> ascii) (s : string) : string :=
  match s with
  | EmptyString => EmptyString
  | String a t => String (f a) (map_units f t)
  end.

Definition toLowerCase (s : string) : string := map_units lower_unit s.

(** The class [[a-z0-9._-]]. *)
Definition name_unit (a : ascii) : bool :=
  unit_between 97 122 a || unit_between 48 57 a
  || Ascii.eqb a "." || Ascii.eqb a "_" || Ascii.eqb a "-".

(** [.replace(/[^a-z0-9._-]/g, '-')] *)
Definition replace_foreign (s : string) : string :=
  map_units (fun a => if name_unit a then a else "-"%char) s.

(** [.replace(/-+/g, '-')] *)
Fixpoint collapse_dashes (s : string) : string :=
  match s with
  | EmptyString => EmptyString
  | String a t =>
      if Ascii.eqb a "-" && starts_with "-" t then collapse_dashes t
      else String a (collapse_dashes t)
  end.

Definition drop_leading_dash (s : string) : string :=
  match s with
  | String "-" t => t
  | _ => s
  end.

Fixpoint drop_trailing_dash (s : string) : string :=
  match s with
  | EmptyString => EmptyString
  | String a EmptyString => if Ascii.eqb a "-" then EmptyString else s
  | String a t => String a (drop_trailing_dash t)
  end.

(** [.replace(/^-|-$/g, '')]: one dash at the start and, in what is left,
    one dash at the end. *)
Definition trim_dashes (s : string) : string :=
  drop_trailing_dash (drop_leading_dash s).

(** [.substring(0, n)] *)
Fixpoint take (n : nat) (s : string) : string :=
  match n, s with
  | S n', String a t => String a (take n' t)
  | _, _ => EmptyString
  end.

(** [cleanProjectName] of [deployToVercel], demoGenerator.ts 1187-1193. *)
Definition cleanProjectName (projectName : string) : string :=
  take 50 (trim_dashes (collapse_dashes (replace_foreign (toLowerCase projectName)))).

(** The class [\s] on units below 256. *)
Definition is_space (a : ascii) : bool :=
  unit_between 9 13 a || Ascii.eqb a " " || (nat_of_ascii a =? 160)%nat.

Definition not_space (a : ascii) : bool := negb (is_space a).

(** [/https:\/\/[^\s]+/] tried at one position; the value is the whole
    match. *)
Definition https_at (s : string) : option string :=
  match strip_prefix "https://" s with
  | Some r =>
      let (run, _) := span not_space r in
      if negb (is_empty run) then Some ("https://" ++ run)%string else None
  | None => None
  end.

(** [output.match(/https:\/\/[^\s]+/)], line 1222. *)
Definition matchDeploymentUrl (output : string) : option string :=
  search https_at output.

(** The first occurrence of [pat] in [s]: what stands before and after. *)
Fixpoint first_occurrence (pat s : string) : option (string * string) :=
  match strip_prefix pat s with
  | Some after => Some (EmptyString, after)
  | None =>
      match s with
      | EmptyString => None
      | String a t =>
          match first_occurrence pat t with
          | Some (before, after) => Some (String a before, after)
          | None => None
          end
      end
  end.

(** The replacement text of [String.prototype.replace] for a string
    pattern: [$$], [$&], [$`] and [$'] are expanded, any other [$] stands
    for itself (there are no captures). *)
Fixpoint substitution (replacement matched before after : string) : string :=
  match replacement with
  | EmptyString => EmptyString
  | String "$" rest =>
      match rest with
      | String "$" t => String "$" (substitution t matched before after)
      | String "&" t => (matched ++ substitution t matched before after)%string
      | String "`" t => (before ++ substitution t matched before after)%string
      | String "'" t => (after ++ substitution t matched before after)%string
      | _ => String "$" (substitution rest matched before after)
      end
  | String a rest => String a (substitution rest matched before after)
  end.

(** [s.replace(pat, replacement)] for a string pattern. *)
Definition replace (pat replacement s : string) : string :=
  match first_occurrence pat s with
  | Some (before, after) =>
      (before ++ substitution replacement pat before after ++ after)%string
  | None => s
  end.

(** What [spawnSync] returns: the exit status ([null] when the process did
    not exit by itself) and the two outputs. *)
Record spawn_result := {
  sp_status : option nat;
  sp_stdout : string;
  sp_stderr : string
}.

(** [result.status !== 0] is false. *)
Definition spawn_ok (r : spawn_result) : bool :=
  match sp_status r with
  | Some 0 => true
  | _ => false
  end.

(** The calls of the generator to its collaborators. *)
Inductive gcall :=
| Uuid
| Mkdir (dir : string)
| FetchContext (repoFullName token : string)
| ChatCompletion (part : role)
| WriteFiles (part : role) (dir : string)
| CreateRepo (name token : string)
| Spawn (command : string) (args : list string) (cwd : string)
        (projectNameVar : option string)
| WriteVercelJson (dir framework : string)
| MathRandom
| DateNow
| Rm (dir : string).

Record gevent := { g_call : gcall; g_ok : bool }.

(** The collaborators of the generator.  A file-system operation gives
    [Some message] when it throws; the operations of the providers give
    their value or the message of the error. *)
Record GenEnv (W : Type) := {
  (** [uuidv4()] *)
  uuidv4 : W -> string * W;
  (** [fs.mkdirSync(dir, { recursive: true })] *)
  fs_mkdirSync : string -> W -> option string * W;
  (** the [try] block of [fetchRepositoryContext] (lines 29-78): the reads
      from the code host and the summary made of them *)
  repository_summary : string -> string -> W -> (string + string) * W;
  (** the chat completion for the frontend or the backend prompt, built
      with the given inspiration context: the content of the first choice *)
  chat_completion : role -> string -> W -> (string + string) * W;
  (** [writeFrontendFiles] and [writeBackendFiles]: the files of one
      bundle, written under [dir] *)
  write_files : role -> string -> string -> W -> option string * W;
  (** [octokit.repos.createForAuthenticatedUser]: the [html_url] *)
  repos_create : string -> string -> W -> (string + string) * W;
  (** [spawnSync(command, args, { cwd, env })], with the value of
      [VERCEL_PROJECT_NAME] when it is set *)
  spawnSync : string -> list string -> string -> option string -> W -> spawn_result * W;
  (** [fs.writeFileSync] of [vercel.json] for a framework *)
  write_vercel_json : string -> string -> W -> option string * W;
  (** [Math.random().toString(36).substring(7)] *)
  random_id : W -> string * W;
  (** [Date.now().toString(36)] *)
  now_id : W -> string * W;
  (** [fs.rmSync(dir, { recursive: true, force: true })] *)
  fs_rmSync : string -> W -> option string * W
}.

Arguments uuidv4 {W}.
Arguments fs_mkdirSync {W}.
Arguments repository_summary {W}.
Arguments chat_completion {W}.
Arguments write_files {W}.
Arguments repos_create {W}.
Arguments spawnSync {W}.
Arguments write_vercel_json {W}.
Arguments random_id {W}.
Arguments now_id {W}.
Arguments fs_rmSync {W}.

(** [process.env] as far as the generator reads it. *)
Record gen_config := {
  OPENAI_API_KEY : option string;
  deploy_config : process_env
}.

(** The state of a run: the world, whether the module-level [openai]
    client exists, and the capture. *)
Record gstate (W : Type) := {
  g_world : W;
  g_client : bool;
  g_calls : list gevent
}.

Arguments g_world {W}.
Arguments g_client {W}.
Arguments g_calls {W}.

Definition placeholderRepoUrl : string :=
  "https://github.com/your-username/segment-demo-placeholder".

Section Generate.
Context {W : Type}.
Variable genv : GenEnv W.
Variable cfg : gen_config.
(** [slugify(customerName).toLowerCase()]; [slugify] is a dependency. *)
Variable slug_of : string -> string.

Definition G (A : Type) : Type := gstate W -> outcome A * gstate W.

Definition gret {A} (a : A) : G A := fun st => (Ret a, st).

Definition gthrow {A} (e : thrown) : G A := fun st => (Throw e, st).

Definition gbind {A B} (m : G A) (k : A -> G B) : G B :=
  fun st =>
    match m st with
    | (Ret a, st') => k a st'
    | (Throw e, st') => (Throw e, st')
    end.

(** [try { m } catch (e) { h e }] *)
Definition gtry {A} (m : G A) (h : thrown -> G A) : G A :=
  fun st =>
    match m st with
    | (Ret a, st') => (Ret a, st')
    | (Throw e, st') => h e st'
    end.

(** [try { m } finally { f }]: [f] runs on every exit of [m]; an error of
    [f] replaces the outcome of [m]. *)
Definition gfinally {A} (m : G A) (f : G unit) : G A :=
  fun st =>
    match m st with
    | (o, st') =>
        match f st' with
        | (Ret _, st'') => (o, st'')
        | (Throw e, st'') => (Throw e, st'')
        end
    end.

Notation "x <- c1 ;; c2" := (gbind c1 (fun x => c2))
  (at level 61, c1 at next level, right associativity).
Notation "c1 ;;; c2" := (gbind c1 (fun _ => c2))
  (at level 61, right associativity).

Definition gperform {R} (c : gcall) (op : W -> R * W) (ok : R -> bool) : G R :=
  fun st =>
    let '(r, w') := op (g_world st) in
    (Ret r, {| g_world := w'; g_client := g_client st;
               g_calls := (g_calls st ++ [{| g_call := c; g_ok := ok r |}])%list |}).

Definition is_inl {A B} (r : A + B) : bool :=
  match r with inl _ => true | inr _ => false end.

Definition is_none {A} (r : option A) : bool :=
  match r with None => true | Some _ => false end.

(** A provider operation: its value, or an [Error] with its message
    thrown. *)
Definition provider {A} (c : gcall) (op : W -> (A + string) * W) : G A :=
  r <- gperform c op is_inl ;;
  match r with
  | inl a => gret a
  | inr m => gthrow m
  end.

(** A file-system operation: done, or its error thrown. *)
Definition file_system (c : gcall) (op : W -> option string * W) : G unit :=
  r <- gperform c op is_none ;;
  match r with
  | None => gret tt
  | Some m => gthrow m
  end.

(** [getOpenAIClient], lines 12-23. *)
Definition getOpenAIClient : G unit :=
  fun st =>
    if g_client st then (Ret tt, st)
    else if negb (truthy (OPENAI_API_KEY cfg))
    then (Throw "OPENAI_API_KEY environment variable is not set", st)
    else (Ret tt, {| g_world := g_world st; g_client := true;
                     g_calls := g_calls st |}).

(** [fetchRepositoryContext], lines 25-83: the summary of the repository,
    or a line that says the details could not be fetched; it never
    throws. *)
Definition fetchRepositoryContext (repoFullName githubToken : string) : G string :=
  gtry (provider (FetchContext repoFullName githubToken)
                 (repository_summary genv repoFullName githubToken))
       (fun _ => gret ("Repository: " ++ repoFullName ++ " (Error fetching details)")).

(** Lines 174-181 and 279-286: the inspiration context, empty unless a
    repository and a credential are given. *)
Definition inspirationContext (inspirationRepo githubToken : option string) : G string :=
  if truthy inspirationRepo && truthy githubToken then
    gtry (fetchRepositoryContext (or_empty inspirationRepo) (or_empty githubToken))
         (fun _ => gret EmptyString)
  else gret EmptyString.

(** [generateFrontendCode], lines 168-274. *)
Definition generateFrontendCode (inspirationRepo githubToken : option string) : G string :=
  context <- inspirationContext inspirationRepo githubToken ;;
  getOpenAIClient ;;;
  provider (ChatCompletion Frontend) (chat_completion genv Frontend context).

(** [generateBackendCode], lines 276-329. *)
Definition generateBackendCode (inspirationRepo githubToken : option string) : G string :=
  context <- inspirationContext inspirationRepo githubToken ;;
  getOpenAIClient ;;;
  provider (ChatCompletion Backend) (chat_completion genv Backend context).

(** [writeFrontendFiles] and [writeBackendFiles]: the templates are not
    modelled, the writing is one operation. *)
Definition writeFiles (part : role) (dir code : string) : G unit :=
  file_system (WriteFiles part dir) (write_files genv part dir code).

(** [createGitHubRepo], lines 1113-1130. *)
Definition createGitHubRepo (customerName githubToken : string) : G string :=
  let repoName := ("segment-demo-" ++ slug_of customerName)%string in
  gtry (provider (CreateRepo repoName githubToken)
                 (repos_create genv repoName githubToken))
       (fun _ => gthrow "Failed to create GitHub repository").

(** The [commands] of [initializeGitAndPush], lines 1133-1140. *)
Definition git_commands (githubRepoUrl githubToken : string)
  : list (string * list string) :=
  [ ("git", ["init"]);
    ("git", ["add"; "."]);
    ("git", ["commit"; "-m"; "Initial commit - Segment demo generated"]);
    ("git", ["branch"; "-M"; "main"]);
    ("git", ["remote"; "add"; "origin";
             replace "https://" ("https://" ++ githubToken ++ "@") githubRepoUrl]);
    ("git", ["push"; "-u"; "origin"; "main"]) ].

(** The loop of lines 1142-1154. *)
Fixpoint run_commands (commands : list (string * list string)) (cwd : string)
  : G unit :=
  match commands with
  | [] => gret tt
  | (command, args) :: rest =>
      result <- gperform (Spawn command args cwd None)
                         (spawnSync genv command args cwd None) spawn_ok ;;
      if negb (spawn_ok result)
      then gthrow ("Git operation failed: " ++ sp_stderr result)
      else run_commands rest cwd
  end.

(** [initializeGitAndPush], lines 1132-1155. *)
Definition initializeGitAndPush (demoDir githubRepoUrl githubToken : string) : G unit :=
  run_commands (git_commands githubRepoUrl githubToken) demoDir.

(** The placeholder of [deployToVercel], lines 1164-1165 and 1233-1234. *)
Definition placeholder (projectName : string) : G string :=
  deploymentId <- gperform MathRandom (random_id genv) (fun _ => true) ;;
  gret (placeholderUrl projectName deploymentId).

(** [deployToVercel], lines 1157-1236. *)
Definition deployToVercel (projectDir projectName framework : string) : G string :=
  gtry
    (let vercelToken := VERCEL_TOKEN (deploy_config cfg) in
     let teamId := VERCEL_TEAM_ID (deploy_config cfg) in
     if negb (truthy vercelToken) then placeholder projectName
     else
       file_system (WriteVercelJson projectDir framework)
                   (write_vercel_json genv projectDir framework) ;;;
       let deployCommand :=
         (["npx"; "vercel"; "--token"; or_empty vercelToken; "--yes"; "--prod"]
          ++ (if truthy teamId then ["--scope"; or_empty teamId] else []))%list in
       result <- gperform (Spawn "npx" deployCommand projectDir
                                 (Some (cleanProjectName projectName)))
                          (spawnSync genv "npx" deployCommand projectDir
                                     (Some (cleanProjectName projectName)))
                          spawn_ok ;;
       if negb (spawn_ok result)
       then gthrow ("Vercel deployment failed: " ++ sp_stderr result)
       else
         match matchDeploymentUrl (sp_stdout result) with
         | Some url => gret url
         | None => gthrow "Could not extract deployment URL from Vercel output"
         end)
    (fun _ => placeholder projectName).

(** Lines 110-124 of [generateDemo]: the directories and the two bundles. *)
Definition generation_stage (p : demo_params) (demoDir : string) : G unit :=
  let frontendDir := (demoDir ++ "/frontend")%string in
  let backendDir := (demoDir ++ "/backend")%string in
  file_system (Mkdir demoDir) (fs_mkdirSync genv demoDir) ;;;
  file_system (Mkdir frontendDir) (fs_mkdirSync genv frontendDir) ;;;
  file_system (Mkdir backendDir) (fs_mkdirSync genv backendDir) ;;;
  frontendCode <- generateFrontendCode (inspirationRepo p) (githubToken p) ;;
  writeFiles Frontend frontendDir frontendCode ;;;
  backendCode <- generateBackendCode (inspirationRepo p) (githubToken p) ;;
  writeFiles Backend backendDir backendCode.

(** Lines 126-134: the repository, or the placeholder. *)
Definition repository_stage (p : demo_params) (demoDir : string) : G string :=
  gtry
    (githubRepoUrl <- createGitHubRepo (or_empty (customerName p))
                                       (or_empty (githubToken p)) ;;
     initializeGitAndPush demoDir githubRepoUrl (or_empty (githubToken p)) ;;;
     gret githubRepoUrl)
    (fun _ => gret placeholderRepoUrl).

(** Lines 136-147: the two deployments, or the two placeholders. *)
Definition deployment_stage (p : demo_params) (demoDir : string) : G (string * string) :=
  let slug := slug_of (or_empty (customerName p)) in
  gtry
    (frontendUrl <- deployToVercel (demoDir ++ "/frontend")
                                   (projectNameFor slug Frontend) "nextjs" ;;
     backendUrl <- deployToVercel (demoDir ++ "/backend")
                                  (projectNameFor slug Backend) "node" ;;
     gret (frontendUrl, backendUrl))
    (fun _ =>
       timestamp <- gperform DateNow (now_id genv) (fun _ => true) ;;
       gret (placeholderUrl (projectNameFor slug Frontend) timestamp,
             placeholderUrl (projectNameFor slug Backend) timestamp)).

(** Lines 159-165: the [finally] block. *)
Definition cleanup (demoDir : string) : G unit :=
  gtry (file_system (Rm demoDir) (fs_rmSync genv demoDir)) (fun _ => gret tt).

(** [generateDemo], lines 102-166. *)
Definition generateDemo (p : demo_params) : G demo_result :=
  demoId <- gperform Uuid (uuidv4 genv) (fun _ => true) ;;
  let demoDir := ("/tmp/demo-" ++ demoId)%string in
  gfinally
    (gtry
       (generation_stage p demoDir ;;;
        githubRepoUrl <- repository_stage p demoDir ;;
        urls <- deployment_stage p demoDir ;;
        gret {| frontendUrl := fst urls; backendUrl := snd urls;
                githubRepoUrl := githubRepoUrl |})
       (fun e => gthrow e))
    (cleanup demoDir).

End Generate.

(** *** Reading a capture of the generator *)

Definition is_cleanup (e : gevent) : bool :=
  match g_call e with Rm _ => true | _ => false end.

(** The calls of the generation stage: nothing is created outside the
    temporary directory. *)
Definition local_call (e : gevent) : bool :=
  match g_call e with
  | Uuid | Mkdir _ | FetchContext _ _ | ChatCompletion _ | WriteFiles _ _ => true
  | _ => false
  end.

(** The calls of one deployment. *)
Definition deploy_call (e : gevent) : bool :=
  match g_call e with
  | WriteVercelJson _ _ | Spawn "npx" _ _ _ | MathRandom => true
  | _ => false
  end.

(** The calls of the repository stage. *)
Definition repo_call (e : gevent) : bool :=
  match g_call e with
  | CreateRepo _ _ | Spawn "git" _ _ None => true
  | _ => false
  end.

(** The [deployCommand] of [deployToVercel], lines 1196-1203. *)
Definition deployCommand (cfg : gen_config) : list string :=
  (["npx"; "vercel"; "--token"; or_empty (VERCEL_TOKEN (deploy_config cfg));
    "--yes"; "--prod"]
   ++ (if truthy (VERCEL_TEAM_ID (deploy_config cfg))
       then ["--scope"; or_empty (VERCEL_TEAM_ID (deploy_config cfg))]
       else []))%list.

Definition missing_key_message : string :=
  "OPENAI_API_KEY environment variable is not set".

(** The state [generateDemo] is in once it has its id. *)
Definition with_id {W} (genv : GenEnv W) (st : gstate W) : gstate W :=
  {| g_world := snd (uuidv4 genv (g_world st)); g_client := g_client st;
     g_calls := (g_calls st ++ [{| g_call := Uuid; g_ok := true |}])%list |}.

(** The temporary directory of a run. *)
Definition demo_dir {W} (genv : GenEnv W) (st : gstate W) : string :=
  ("/tmp/demo-" ++ fst (uuidv4 genv (g_world st)))%string.

(** The calls of the body of [generateDemo], before the cleanup. *)
Definition body_call (e : gevent) : bool :=
  local_call e || repo_call e || deploy_call e.

Definition failed_mkdir (e : gevent) : bool :=
  match g_call e with Mkdir _ => negb (g_ok e) | _ => false end.

Definition is_chat (e : gevent) : bool :=
  match g_call e with ChatCompletion _ => true | _ => false end.

Definition is_spawn (e : gevent) : bool :=
  match g_call e with Spawn _ _ _ _ => true | _ => false end.

Definition is_now (e : gevent) : bool :=
  match g_call e with DateNow => true | _ => false end.

(** The capture of a git command that was run. *)
Definition git_event (cwd : string) (ok : bool) (c : string * list string) : gevent :=
  {| g_call := Spawn (fst c) (snd c) cwd None; g_ok := ok |}.

Definition gthrown {A} (o : outcome A) : bool :=
  match o with Throw _ => true | Ret _ => false end.

(** The calls a computation adds all satisfy [good]. *)
Definition gemits {W A} (good : gevent -> bool) (m : @G W A) : Prop :=
  forall st, exists evs,
    g_calls (snd (m st)) = (g_calls st ++ evs)%list
    /\ forallb good evs = true.

(** A computation that never throws. *)
Definition greturns {W A} (m : @G W A) : Prop :=
  forall st, gthrown (fst (m st)) = false.

End Generator.

(* ------------------------------------------------------------------ *)
(** ** Further scenes, and a test double of the generator's collaborators *)

Module Scenes.
Import Js Resolver Server Capture Sim Generator.

(** A record whose repository URL is in the ssh form, which the regular
    expression of [deleteGitHubRepo] does not match. *)
Definition ssh_demo : demo :=
  mk_demo "d2" (Some (deployUrl acme_front)) (Some (deployUrl acme_back))
          (Some "git@github.com:octo/segment-demo-acme.git").

Definition ssh_scene : world :=
  {| rows := [ssh_demo]; team := "team_1"; team_projects := [];
     personal_projects := acme_projects;
     repos := [("octo", "segment-demo-acme")];
     next_row := 3; generator := None; faulty := no_faults |}.

(** A record whose result URLs are on a custom domain. *)
Definition custom_domain_demo : demo :=
  mk_demo "d3" (Some "https://demo.acme.example/") (Some "https://api.acme.example/")
          (Some "https://github.com/octo/segment-demo-acme").

Definition custom_domain_scene : world :=
  {| rows := [custom_domain_demo]; team := "team_1"; team_projects := [];
     personal_projects := acme_projects;
     repos := [("octo", "segment-demo-acme")];
     next_row := 4; generator := None; faulty := no_faults |}.

(** A request of [/generate-demo] without the customer name. *)
Definition anonymous_params : demo_params :=
  {| customerName := None; logoUrl := None; writeKey := Some "wk";
     profileToken := Some "pt"; unifySpaceId := Some "sp";
     githubToken := Some "gh-token"; supabaseUserId := Some "user-1";
     inspirationRepo := None |}.

(** The world of the generator's test double: the calls that are made to
    fail.  The double answers every call with a fixed value. *)
Definition gworld : Type := gcall -> bool.

Definition gen_double : GenEnv gworld := {|
  uuidv4 := fun w : gworld => ("0b5e", w);
  fs_mkdirSync := fun (dir : string) (w : gworld) =>
    (if w (Mkdir dir) then Some "EACCES: permission denied" else None, w);
  repository_summary := fun (repoFullName token : string) (w : gworld) =>
    (if w (FetchContext repoFullName token) then inr "Not Found"
     else inl "README of the inspiration repository", w);
  chat_completion := fun (part : role) (context : string) (w : gworld) =>
    (if w (ChatCompletion part) then inr "OpenAI request failed"
     else inl "generated code", w);
  write_files := fun (part : role) (dir code : string) (w : gworld) =>
    (if w (WriteFiles part dir) then Some "ENOSPC: no space left on device"
     else None, w);
  repos_create := fun (name token : string) (w : gworld) =>
    (if w (CreateRepo name token) then inr "Bad credentials"
     else inl ("https://github.com/octo/" ++ name)%string, w);
  spawnSync := fun (command : string) (args : list string) (cwd : string)
                   (projectNameVar : option string) (w : gworld) =>
    (if w (Spawn command args cwd projectNameVar)
     then {| sp_status := Some 1; sp_stdout := EmptyString;
             sp_stderr := "command failed" |}
     else {| sp_status := Some 0;
             sp_stdout := match projectNameVar with
                          | Some n => ("Production: https://" ++ n ++ ".vercel.app [2s]")%string
                          | None => EmptyString
                          end;
             sp_stderr := EmptyString |}, w);
  write_vercel_json := fun (dir framework : string) (w : gworld) =>
    (if w (WriteVercelJson dir framework) then Some "EACCES: permission denied"
     else None, w);
  random_id := fun w : gworld => ("k3x9a", w);
  now_id := fun w : gworld => ("lq1z8f0a", w);
  fs_rmSync := fun (dir : string) (w : gworld) =>
    (if w (Rm dir) then Some "EBUSY: resource busy" else None, w)
|}.

Definition all_well : gworld := fun _ => false.

(** The chat completions fail. *)
Definition chat_down : gworld :=
  fun c => match c with ChatCompletion _ => true | _ => false end.

(** The push to the new repository is refused. *)
Definition push_refused : gworld :=
  fun c => match c with
           | Spawn "git" ("push" :: _) _ _ => true
           | _ => false
           end.

Definition full_config : gen_config :=
  {| OPENAI_API_KEY := Some "sk-test"; deploy_config := token_only |}.

Definition no_key : gen_config :=
  {| OPENAI_API_KEY := None; deploy_config := token_only |}.

Definition no_deploy_token : gen_config :=
  {| OPENAI_API_KEY := Some "sk-test"; deploy_config := no_token |}.

(** A stand-in for [slugify(customerName).toLowerCase()], right on names
    made of letters and digits. *)
Definition plain_slug (customerName : string) : string := toLowerCase customerName.

Definition fresh (w : gworld) : gstate gworld :=
  {| g_world := w; g_client := false; g_calls := [] |}.

End Scenes.

(* ------------------------------------------------------------------ *)
(** ** Properties of the string primitives *)

Module JsFacts.
Import Js.

Lemma strip_prefix_app (p s : string) : strip_prefix p (p ++ s) = Some s.
Proof.
  induction p as [|a p IH]; simpl; [reflexivity|].
  rewrite Ascii.eqb_refl. exact IH.
Qed.

Lemma starts_with_app (p s : string) : starts_with p (p ++ s) = true.
Proof. unfold starts_with. now rewrite strip_prefix_app. Qed.

Lemma append_assoc (a b c : string) : ((a ++ b) ++ c = a ++ (b ++ c))%string.
Proof. induction a as [|x a IH]; simpl; [reflexivity | now rewrite IH]. Qed.

Lemma append_nil_r (a : string) : (a ++ EmptyString)%string = a.
Proof. induction a as [|x a IH]; simpl; [reflexivity | now rewrite IH]. Qed.

Lemma all_chars_app (ok : ascii -> bool) (a b : string) :
  all_chars ok (a ++ b) = all_chars ok a && all_chars ok b.
Proof.
  unfold all_chars. induction a as [|x a IH]; simpl; [reflexivity|].
  rewrite IH. now rewrite andb_assoc.
Qed.

Lemma all_chars_weaken (ok ok' : ascii -> bool) (s : string) :
  (forall a, ok a = true -> ok' a = true) ->
  all_chars ok s = true -> all_chars ok' s = true.
Proof.
  intros Himp. unfold all_chars.
  induction s as [|x s IH]; simpl; [reflexivity|].
  intros H. apply andb_true_iff in H as [Hx Hs].
  rewrite (Himp _ Hx). simpl. auto.
Qed.

(** A greedy class stops at the first character outside of it. *)
Lemma span_stop (ok : ascii -> bool) (run : string) (c : ascii) (rest : string) :
  all_chars ok run = true -> ok c = false ->
  span ok (run ++ String c rest) = (run, String c rest).
Proof.
  intros Hrun Hc. unfold all_chars in Hrun.
  induction run as [|x run IH]; simpl in *.
  - now rewrite Hc.
  - apply andb_true_iff in Hrun as [Hx Hr]. rewrite Hx, (IH Hr). reflexivity.
Qed.

(** What a greedy class consumed lies inside the class. *)
Lemma span_run_ok (ok : ascii -> bool) (s : string) :
  all_chars ok (fst (span ok s)) = true.
Proof.
  unfold all_chars. induction s as [|x s IH]; simpl; [reflexivity|].
  destruct (ok x) eqn:Hx; [|reflexivity].
  destruct (span ok s) as [run rest]. simpl in *. now rewrite Hx.
Qed.

Lemma search_here {A} (at_pos : string -> option A) (s : string) (a : A) :
  at_pos s = Some a -> search at_pos s = Some a.
Proof. intros H. destruct s; simpl; now rewrite H. Qed.

Lemma search_found {A} (at_pos : string -> option A) (P : A -> Prop) :
  (forall s a, at_pos s = Some a -> P a) ->
  forall s a, search at_pos s = Some a -> P a.
Proof.
  intros Hat s. induction s as [|x s IH]; simpl; intros a.
  - destruct (at_pos EmptyString) eqn:E; [|discriminate].
    intros [= <-]. eauto.
  - destruct (at_pos (String x s)) eqn:E.
    + intros [= <-]. eauto.
    + apply IH.
Qed.

Lemma split_not_nil (c : ascii) (s : string) : split c s <> [].
Proof.
  induction s as [|x s IH]; simpl; [discriminate|].
  destruct (Ascii.eqb x c); [discriminate|].
  destruct (split c s); [contradiction | discriminate].
Qed.

(** Splitting at a separator splits both sides. *)
Lemma split_app (c : ascii) (s t : string) :
  split c (s ++ String c t) = (split c s ++ split c t)%list.
Proof.
  induction s as [|x s IH]; simpl.
  - now rewrite Ascii.eqb_refl.
  - destruct (Ascii.eqb x c); [now rewrite IH|].
    rewrite IH. pose proof (split_not_nil c s) as Hne.
    destruct (split c s) as [|h r]; [contradiction | reflexivity].
Qed.

Lemma split_free (c : ascii) (s : string) :
  all_chars (fun a => negb (Ascii.eqb a c)) s = true -> split c s = [s].
Proof.
  unfold all_chars. induction s as [|x s IH]; simpl; [reflexivity|].
  intros H. apply andb_true_iff in H as [Hx Hs].
  apply negb_true_iff in Hx. rewrite Hx, (IH Hs). reflexivity.
Qed.

(** [s.split(c).join(c)] is [s]. *)
Lemma join_split (c : ascii) (s : string) :
  join (String c EmptyString) (split c s) = s.
Proof.
  unfold join. induction s as [|x s IH]; simpl; [reflexivity|].
  pose proof (split_not_nil c s) as Hne.
  destruct (Ascii.eqb x c) eqn:E.
  - apply Ascii.eqb_eq in E. subst x.
    destruct (split c s) as [|h r]; [contradiction|].
    simpl. simpl in IH. now rewrite IH.
  - destruct (split c s) as [|h r]; [contradiction|].
    destruct r as [|h' r]; simpl in *; now rewrite <- IH.
Qed.

(** [slice(2, -2)] drops two elements at each end. *)
Lemma slice_2_m2 {A} (a b x y : A) (l : list A) :
  slice 2 (-2) (a :: b :: l ++ [x; y]) = l.
Proof.
  unfold slice, rel_index. cbn [Z.ltb Z.compare].
  replace (length (a :: b :: l ++ [x; y])) with (length l + 4)%nat
    by (simpl; rewrite length_app; simpl; lia).
  replace (Z.to_nat (Z.max (Z.of_nat (length l + 4) + -2) 0))
    with (length l + 2)%nat by lia.
  replace (Nat.min (Z.to_nat 2) (length l + 4)) with 2%nat by lia.
  replace (length l + 2 - 2)%nat with (length l + 0)%nat by lia.
  cbn [skipn]. rewrite firstn_app_2. simpl. apply app_nil_r.
Qed.

(** *** Prefixes, occurrences and segments *)

Lemma strip_prefix_inv (p s r : string) :
  strip_prefix p s = Some r -> s = (p ++ r)%string.
Proof.
  revert s. induction p as [|a p IH]; intros s; simpl.
  - now intros [= ->].
  - destruct s as [|b s]; [discriminate|].
    destruct (Ascii.eqb a b) eqn:E; [|discriminate].
    apply Ascii.eqb_eq in E. subst b. intros H. now rewrite (IH _ H).
Qed.

Lemma starts_with_inv (p s : string) :
  starts_with p s = true -> exists t, s = (p ++ t)%string.
Proof.
  unfold starts_with. destruct (strip_prefix p s) as [t|] eqn:E; [|discriminate].
  intros _. exists t. now apply strip_prefix_inv.
Qed.

Lemma includes_middle (pre x post : string) :
  includes (pre ++ x ++ post) x = true.
Proof.
  induction pre as [|a pre IH]; simpl.
  - destruct x as [|b x]; simpl; [destruct post; reflexivity|].
    unfold starts_with. simpl. now rewrite Ascii.eqb_refl, strip_prefix_app.
  - rewrite IH. apply orb_true_r.
Qed.

Lemma split_segments (c : ascii) (s seg : string) :
  In seg (split c s) -> all_chars (fun a => negb (Ascii.eqb a c)) seg = true.
Proof.
  revert seg. induction s as [|x s IH]; simpl; intros seg.
  - intros [<-|[]]. reflexivity.
  - destruct (Ascii.eqb x c) eqn:E.
    + intros [<-|H]; [reflexivity | now apply IH].
    + pose proof (split_not_nil c s) as Hne.
      destruct (split c s) as [|h r]; [contradiction|].
      intros [<-|H].
      * unfold all_chars. simpl. rewrite E. simpl.
        apply (IH h). now left.
      * apply IH. now right.
Qed.

Lemma join_cons (sep a : string) (l : list string) :
  l <> [] -> join sep (a :: l) = a ++ sep ++ join sep l.
Proof. destruct l; [contradiction | reflexivity]. Qed.

Lemma join_snoc2 (sep : string) (mid : list string) (r s : string) :
  mid <> [] ->
  join sep (mid ++ [r; s]) = join sep mid ++ sep ++ r ++ sep ++ s.
Proof.
  induction mid as [|m mid IH]; [contradiction|]. intros _.
  destruct mid as [|m' mid].
  - simpl. reflexivity.
  - change ((m :: m' :: mid) ++ [r; s])%list with (m :: ((m' :: mid) ++ [r; s]))%list.
    rewrite join_cons by discriminate. rewrite IH by discriminate.
    rewrite (join_cons sep m (m' :: mid)) by discriminate.
    now rewrite !append_assoc.
Qed.

Lemma ends_apart {A} (l : list A) :
  4 <= length l -> exists a b mid r s, l = (a :: b :: mid ++ [r; s])%list.
Proof.
  intros Hlen. destruct l as [|a [|b rest]]; simpl in Hlen; try lia.
  assert (Hr : rest <> []) by (destruct rest; simpl in Hlen; [lia | discriminate]).
  destruct (exists_last Hr) as (rest' & s & ->).
  rewrite length_app in Hlen. simpl in Hlen.
  assert (Hr' : rest' <> []) by (destruct rest'; simpl in Hlen; [lia | discriminate]).
  destruct (exists_last Hr') as (mid & r & ->).
  exists a, b, mid, r, s. now rewrite <- app_assoc.
Qed.

Lemma slice_short {A} (l : list A) : length l < 4 -> slice 2 (-2) l = [].
Proof.
  intros Hlen. unfold slice, rel_index. cbn [Z.ltb Z.compare].
  replace (Z.to_nat (Z.max (Z.of_nat (length l) + -2) 0)
           - Nat.min (Z.to_nat 2) (length l))%nat with 0%nat by lia.
  reflexivity.
Qed.

End JsFacts.

(* ------------------------------------------------------------------ *)
(** ** The resolver *)

Module ResolverFacts.
Import Js Resolver JsFacts.

Lemma base36_not_dot (a : ascii) : base36_digit a = true -> not_dot a = true.
Proof.
  unfold base36_digit, not_dot. intros H.
  destruct (Ascii.eqb a ".") eqn:E; [|reflexivity].
  apply Ascii.eqb_eq in E. subst a. discriminate H.
Qed.

Lemma base36_not_dash (a : ascii) : base36_digit a = true -> not_dash a = true.
Proof.
  unfold base36_digit, not_dash. intros H.
  destruct (Ascii.eqb a "-") eqn:E; [|reflexivity].
  apply Ascii.eqb_eq in E. subst a. discriminate H.
Qed.

Lemma role_token_dot_free (r : role) : dot_free (role_token r) = true.
Proof. destruct r; reflexivity. Qed.

Lemma role_token_dash_free (r : role) : dash_free (role_token r) = true.
Proof. destruct r; reflexivity. Qed.

Lemma placeholderUrl_deployUrl (slug : string) (r : role) (suffix : string) :
  placeholderUrl (projectNameFor slug r) suffix
  = deployUrl (generatedName slug r suffix).
Proof.
  unfold placeholderUrl, deployUrl, generatedName.
  now rewrite !append_assoc.
Qed.

Lemma generatedName_dot_free (slug : string) (r : role) (suffix : string) :
  dot_free slug = true -> dot_free suffix = true ->
  dot_free (generatedName slug r suffix) = true.
Proof.
  intros Hs Hx. unfold dot_free, generatedName, projectNameFor in *.
  rewrite !all_chars_app, Hs, Hx.
  change (all_chars not_dot (role_token r)) with (dot_free (role_token r)).
  now rewrite role_token_dot_free.
Qed.

(** The regular expression on a well-shaped URL whose name has no dot. *)
Lemma extract_deployUrl (name : string) :
  name <> EmptyString -> dot_free name = true ->
  extractProjectNameFromUrl (deployUrl name) = Some name.
Proof.
  intros Hne Hfree. unfold extractProjectNameFromUrl.
  apply search_here. unfold vercel_at, deployUrl.
  rewrite strip_prefix_app.
  change ".vercel.app" with (String "." "vercel.app") at 1.
  rewrite span_stop by (assumption || reflexivity).
  destruct name; [contradiction | reflexivity].
Qed.

(** A resolved name never holds a dot. *)
Lemma extract_dot_free (url name : string) :
  extractProjectNameFromUrl url = Some name -> dot_free name = true.
Proof.
  unfold extractProjectNameFromUrl. revert url name.
  apply search_found. intros s a. unfold vercel_at.
  destruct (strip_prefix "https://" s) as [r|]; [|discriminate].
  pose proof (span_run_ok not_dot r) as Hrun.
  destruct (span not_dot r) as [run rest]. simpl in Hrun.
  destruct (negb (is_empty run) && starts_with ".vercel.app" rest);
    [|discriminate].
  now intros [= <-].
Qed.

Lemma generatedName_segments (slug : string) (r : role) (suffix : string) :
  dash_free suffix = true ->
  split "-" (generatedName slug r suffix)
  = ("segment" :: "demo" :: split "-" slug ++ [role_token r; suffix])%list.
Proof.
  intros Hx. unfold generatedName, projectNameFor.
  replace (("segment-demo-" ++ slug ++ "-" ++ role_token r) ++ "-" ++ suffix)
    with ("segment" ++ String "-" ("demo" ++ String "-"
            (slug ++ String "-" (role_token r ++ String "-" suffix))))
    by (simpl; now rewrite !append_assoc).
  rewrite !split_app.
  rewrite (split_free "-" suffix) by exact Hx.
  rewrite (split_free "-" (role_token r)) by apply role_token_dash_free.
  reflexivity.
Qed.

Lemma customerNameOf_generated (slug : string) (r : role) (suffix : string) :
  dash_free suffix = true ->
  customerNameOf (generatedName slug r suffix) = slug.
Proof.
  intros Hx. unfold customerNameOf.
  rewrite generatedName_segments by exact Hx.
  rewrite slice_2_m2. apply join_split.
Qed.

(** *** The searches against the matchers of the policy *)

Lemma includes_occurs (hay needle : string) :
  includes hay needle = true <-> occurs_in needle hay.
Proof.
  split.
  - induction hay as [|a hay IH]; simpl.
    + rewrite orb_false_r. intros H. apply starts_with_inv in H as (t & ->).
      now exists EmptyString, t.
    + intros H. apply orb_true_iff in H as [H|H].
      * apply starts_with_inv in H as (t & ->). now exists EmptyString, t.
      * destruct (IH H) as (pre & post & ->). now exists (String a pre), post.
  - intros (pre & post & ->). apply includes_middle.
Qed.

Lemma customerNameOf_stripped (a b slug r s : string) :
  dash_free a = true -> dash_free b = true ->
  dash_free r = true -> dash_free s = true ->
  customerNameOf (a ++ "-" ++ b ++ "-" ++ slug ++ "-" ++ r ++ "-" ++ s) = slug.
Proof.
  intros Ha Hb Hr Hs. unfold customerNameOf.
  replace (a ++ "-" ++ b ++ "-" ++ slug ++ "-" ++ r ++ "-" ++ s)
    with (a ++ String "-" (b ++ String "-" (slug ++ String "-" (r ++ String "-" s))))
    by reflexivity.
  rewrite !split_app.
  rewrite (split_free "-" a) by exact Ha.
  rewrite (split_free "-" b) by exact Hb.
  rewrite (split_free "-" r) by exact Hr.
  rewrite (split_free "-" s) by exact Hs.
  cbn [app]. rewrite slice_2_m2. apply join_split.
Qed.

Lemma recovered_slug_code (target slug : string) :
  recovered_slug target slug
  <-> customerNameOf target = slug /\ slug <> EmptyString.
Proof.
  split.
  - intros (Hne & a & b & r & s & Ha & Hb & Hr & Hs & ->).
    split; [now apply customerNameOf_stripped | exact Hne].
  - intros (Hkey & Hne). split; [exact Hne|].
    unfold customerNameOf in Hkey.
    pose proof (join_split "-" target) as Hjoin.
    pose proof (split_segments "-" target) as Hfree.
    destruct (Nat.lt_ge_cases (length (split "-" target)) 4) as [Hshort|Hlong].
    + rewrite slice_short in Hkey by exact Hshort. now subst slug.
    + destruct (ends_apart _ Hlong) as (a & b & mid & r & s & Hsegs).
      rewrite Hsegs in Hkey, Hjoin, Hfree. rewrite slice_2_m2 in Hkey.
      assert (Hmid : mid <> []) by (intros ->; now subst slug).
      exists a, b, r, s.
      split; [apply Hfree; now left|].
      split; [apply Hfree; right; now left|].
      split; [apply Hfree; right; right; apply in_or_app; right; now left|].
      split; [apply Hfree; right; right; apply in_or_app; right; right; now left|].
      rewrite <- Hjoin, <- Hkey.
      rewrite join_cons by discriminate.
      rewrite join_cons by (destruct mid; [contradiction | discriminate]).
      rewrite join_snoc2 by exact Hmid. reflexivity.
Qed.

Lemma find_first {A} (pred : A -> bool) (P : A -> Prop) (l : list A) :
  (forall x, pred x = true <-> P x) ->
  match find pred l with
  | Some p => exists before after,
                l = (before ++ p :: after)%list /\ P p
                /\ forall q, In q before -> ~ P q
  | None => forall q, In q l -> ~ P q
  end.
Proof.
  intros Hiff. unfold find. induction l as [|x l IH]; simpl.
  - intros q [].
  - destruct (pred x) eqn:E.
    + exists [], l. split; [reflexivity|]. split; [now apply Hiff|]. intros q [].
    + assert (Hx : ~ P x) by (intros HP; apply Hiff in HP; congruence).
      destruct (List.find pred l) as [p|].
      * destruct IH as (before & after & -> & HP & Hbefore).
        exists (x :: before), after. split; [reflexivity|]. split; [exact HP|].
        intros q [<-|Hq]; [exact Hx | now apply Hbefore].
      * intros q [<-|Hq]; [exact Hx | now apply IH].
Qed.

Lemma exact_test_matches (target : string) (q : project) :
  String.eqb (p_name q) target = true <-> matches ExactMatch target q.
Proof. apply String.eqb_eq. Qed.

Lemma partial_test_matches (target : string) (q : project) :
  includes (p_name q) target || includes target (p_name q) = true
  <-> matches SubstringMatch target q.
Proof.
  cbn [matches]. rewrite orb_true_iff, !includes_occurs. reflexivity.
Qed.

Lemma customer_test_matches (target : string) (q : project) :
  customerNameOf target <> EmptyString ->
  includes (p_name q) (customerNameOf target) = true
  <-> matches SlugHeuristicMatch target q.
Proof.
  intros Hne. cbn [matches]. rewrite includes_occurs. split.
  - intros H. exists (customerNameOf target). split; [|exact H].
    apply recovered_slug_code. now split.
  - intros (slug & Hslug & H). apply recovered_slug_code in Hslug as [<- _]. exact H.
Qed.

Lemma truthy_nonempty (s : string) : truthy (Some s) = true <-> s <> EmptyString.
Proof. destruct s; simpl; split; congruence. Qed.

Lemma findProjectFuzzy_by_policy (target : string) (listing : list project) :
  policy_result matching_policy target listing (findProjectFuzzy target listing).
Proof.
  unfold findProjectFuzzy, exact_pass, partial_pass, customer_pass.
  pose proof (find_first _ _ listing (exact_test_matches target)) as H1.
  destruct (find (fun p => String.eqb (p_name p) target) listing) as [p|].
  { exists [], ExactMatch, [SubstringMatch; SlugHeuristicMatch].
    split; [reflexivity|]. split; [intros m' []|]. exact H1. }
  pose proof (find_first _ _ listing (partial_test_matches target)) as H2.
  destruct (find (fun p => includes (p_name p) target || includes target (p_name p))
                 listing) as [p|].
  { exists [ExactMatch], SubstringMatch, [SlugHeuristicMatch].
    split; [reflexivity|]. split; [|exact H2].
    intros m' [<-|[]]. exact H1. }
  destruct (truthy (Some (customerNameOf target))) eqn:Hkey.
  - apply truthy_nonempty in Hkey.
    pose proof (find_first _ _ listing
                  (fun q => customer_test_matches target q Hkey)) as H3.
    destruct (find (fun p => includes (p_name p) (customerNameOf target)) listing)
      as [p|].
    + exists [ExactMatch; SubstringMatch], SlugHeuristicMatch, [].
      split; [reflexivity|]. split; [|exact H3].
      intros m' [<-|[<-|[]]]; assumption.
    + intros m [<-|[<-|[<-|[]]]]; assumption.
  - intros m [<-|[<-|[<-|[]]]]; try assumption.
    intros q _ (slug & Hslug & _).
    apply recovered_slug_code in Hslug as [Hcode Hne].
    rewrite <- Hcode in Hne. apply truthy_nonempty in Hne. congruence.
Qed.

Lemma exact_pass_present (target : string) (listing : list project) (p : project) :
  In p listing -> p_name p = target ->
  exists q, exact_pass target listing = Some q /\ p_name q = target.
Proof.
  intros Hin Hname. unfold exact_pass, find.
  destruct (List.find (fun p0 => String.eqb (p_name p0) target) listing)
    as [q|] eqn:E.
  - exists q. split; [reflexivity|].
    apply find_some in E as [_ E]. now apply String.eqb_eq in E.
  - apply (find_none _ _ E) in Hin. simpl in Hin.
    rewrite Hname, String.eqb_refl in Hin. discriminate.
Qed.

Lemma findProjectFuzzy_nil (target : string) : findProjectFuzzy target [] = None.
Proof.
  unfold findProjectFuzzy, exact_pass, partial_pass, customer_pass, find. simpl.
  destruct (customerNameOf target); reflexivity.
Qed.

End ResolverFacts.

(* ------------------------------------------------------------------ *)
(** ** The helpers of the deletion routes, over any environment *)

Module HelperFacts.
Import Js Resolver Server Capture JsFacts ResolverFacts.

(** One step of symbolic execution: case analysis on the innermost
    scrutinee of the goal. *)
Ltac case_step :=
  match goal with
  | |- context [match ?x with _ => _ end] =>
      lazymatch x with
      | context [match _ with _ => _ end] => fail
      | _ => destruct x eqn:?
      end
  | |- context [if ?x then _ else _] =>
      lazymatch x with
      | context [if _ then _ else _] => fail
      | _ => destruct x eqn:?
      end
  end.

Ltac unfold_monad :=
  cbv beta iota zeta delta
    [bind try_catch ret throw reply perform fetch_projects fetch_delete
     supabase_single supabase_delete supabase_insert].

(** The same for a route: the helpers stay folded. *)
Ltac unfold_route :=
  cbv beta iota zeta delta
    [bind try_catch ret throw reply perform supabase_single supabase_insert];
  cbn [is_some negb andb fst snd app].

(** Closes a goal [exists evs, tr' = tr ++ evs /\ ...] on a finished run. *)
Ltac bool_cases :=
  repeat match goal with
         | b : bool |- _ => destruct b
         end;
  cbn in *; try reflexivity; try discriminate; try congruence.

Ltac close_capture :=
  eexists; split;
  [ cbn [fst snd]; rewrite <- ?app_assoc; cbn [app]; reflexivity
  | cbn; repeat split; try reflexivity; try discriminate; bool_cases ].

Section Helpers.
Context {W : Type}.
Variable env : Env W.
Variable cfg : process_env.

(** [deleteVercelProject] issues deploy-host calls only, at least one, and
    throws exactly when one of them is a fatal failure. *)
Lemma deleteVercelProject_capture (name token : string) (s : @state W) :
  exists evs,
    snd (snd (deleteVercelProject env cfg name token s)) = (snd s ++ evs)%list
    /\ forallb deploy_host_event evs = true
    /\ is_throw (fst (deleteVercelProject env cfg name token s)) = existsb fatal evs
    /\ evs <> [].
Proof.
  destruct s as [w tr]. unfold deleteVercelProject. unfold_monad.
  repeat (cbn [fst snd]; case_step); close_capture.
Qed.

Lemma captures_ret {A} (good : event -> bool) (a : A) :
  captures (W:=W) good (ret a).
Proof. intros s. exists []. cbn. now rewrite app_nil_r. Qed.

Lemma captures_bind {A B} (good : event -> bool) (m : @M W A) (k : A -> @M W B) :
  captures good m -> (forall a, captures good (k a)) ->
  captures good (bind m k).
Proof.
  intros Hm Hk s. unfold bind.
  destruct (Hm s) as (evs1 & Htr1 & Hgood1 & Hthrow1).
  destruct (m s) as [[a|e] s1]; cbn [fst snd] in *.
  - destruct (Hk a s1) as (evs2 & Htr2 & Hgood2 & Hthrow2).
    exists (evs1 ++ evs2)%list. repeat split.
    + now rewrite Htr2, Htr1, app_assoc.
    + now rewrite forallb_app, Hgood1, Hgood2.
    + now rewrite existsb_app, <- Hthrow1, <- Hthrow2.
  - exists evs1. auto.
Qed.

Lemma captures_rethrow {A} (good : event -> bool) (m : @M W A) :
  captures good m -> captures good (try_catch m (fun e => throw e)).
Proof.
  intros Hm s. unfold try_catch, throw.
  destruct (Hm s) as (evs & Htr & Hgood & Hthrow).
  destruct (m s) as [[a|e] s1]; exists evs; auto.
Qed.

Lemma deleteVercelProject_captures (name token : string) :
  captures deploy_host_event (deleteVercelProject env cfg name token).
Proof.
  intros s. destruct (deleteVercelProject_capture name token s)
    as (evs & H1 & H2 & H3 & _).
  exists evs. auto.
Qed.

Lemma deleteVercelDeployments_captures (d : demo) :
  captures deploy_host_event (deleteVercelDeployments env cfg d).
Proof.
  unfold deleteVercelDeployments.
  destruct (negb (truthy (VERCEL_TOKEN cfg))); [apply captures_ret|].
  apply captures_rethrow.
  apply captures_bind;
    [destruct (truthy (project_of_url (frontend_url (demo_cols d))));
       [apply deleteVercelProject_captures | apply captures_ret]|].
  intros _. apply captures_bind;
    [destruct (truthy (project_of_url (backend_url (demo_cols d))));
       [apply deleteVercelProject_captures | apply captures_ret]|].
  intros _. apply captures_ret.
Qed.

(** A resolved project name is not empty. *)
Lemma extract_truthy (url name : string) :
  extractProjectNameFromUrl url = Some name -> truthy (Some name) = true.
Proof.
  unfold extractProjectNameFromUrl. revert url name.
  apply search_found. intros s a. unfold vercel_at.
  destruct (strip_prefix "https://" s) as [r|]; [|discriminate].
  destruct (span not_dot r) as [run rest].
  destruct run; simpl; [discriminate|].
  destruct (starts_with ".vercel.app" rest); [|discriminate].
  now intros [= <-].
Qed.

Lemma project_of_url_truthy (url : option string) (name : string) :
  project_of_url url = Some name -> truthy (Some name) = true.
Proof.
  unfold project_of_url. destruct (truthy url); [|discriminate].
  apply extract_truthy.
Qed.

(** The repository step never throws, and issues code-host calls only:
    none when the URL or the credential is missing, one deletion of the
    repository the URL names otherwise. *)
Lemma github_step_capture (d : demo) (githubToken : option string) (s : @state W) :
  fst (github_step env d githubToken s) = Ret tt
  /\ exists evs,
       snd (snd (github_step env d githubToken s)) = (snd s ++ evs)%list
       /\ forallb code_host_event evs = true
       /\ (truthy (github_repo_url (demo_cols d)) && truthy githubToken = false ->
           evs = [])
       /\ (forall owner repo,
             truthy (github_repo_url (demo_cols d)) && truthy githubToken = true ->
             matchGitHubRepoUrl (or_empty (github_repo_url (demo_cols d)))
             = Some (owner, repo) ->
             exists ok, evs = [{| ev_call := GitHubDelete owner repo; ev_ok := ok |}]).
Proof.
  destruct s as [w tr]. unfold github_step, deleteGitHubRepo.
  destruct (truthy (github_repo_url (demo_cols d)) && truthy githubToken).
  - unfold_monad.
    destruct (matchGitHubRepoUrl (or_empty (github_repo_url (demo_cols d))))
      as [[owner repo]|].
    + destruct (octokit_repos_delete env owner repo (or_empty githubToken) w)
        as [[m|] w'] eqn:E; cbn [fst snd]; (split; [reflexivity|]);
        (eexists; split; [reflexivity|]); cbn;
        (repeat split; try discriminate);
        intros o r _ [= <- <-]; eexists; reflexivity.
    + cbn. split; [reflexivity|]. exists []. rewrite app_nil_r.
      repeat split; try discriminate.
  - cbn. split; [reflexivity|]. exists []. rewrite app_nil_r.
    repeat split; try discriminate.
Qed.

(** The deploy-host step never throws and issues deploy-host calls only. *)
Lemma vercel_step_capture (d : demo) (s : @state W) :
  fst (vercel_step env cfg d s) = Ret tt
  /\ exists evs,
       snd (snd (vercel_step env cfg d s)) = (snd s ++ evs)%list
       /\ forallb deploy_host_event evs = true.
Proof.
  unfold vercel_step.
  destruct (truthy (frontend_url (demo_cols d)) || truthy (backend_url (demo_cols d))).
  - unfold try_catch, ret.
    destruct (deleteVercelDeployments_captures d s) as (vs & Htr & Hgood & _).
    destruct (deleteVercelDeployments env cfg d s) as [[[]|e] s1];
      (split; [reflexivity|]); exists vs; auto.
  - split; [reflexivity|]. exists []. cbn. now rewrite app_nil_r.
Qed.

(** The record delete issues exactly one call and throws exactly when the
    record store reports an error. *)
Lemma delete_record_capture (demoId : string) (s : @state W) :
  exists b,
    snd (snd (delete_record env demoId s))
    = (snd s ++ [{| ev_call := DbDelete demoId; ev_ok := b |}])%list
    /\ is_throw (fst (delete_record env demoId s)) = negb b
    /\ (b = true ->
        db_delete_eq env demoId (fst s)
        = (None, fst (snd (delete_record env demoId s)))).
Proof.
  destruct s as [w tr]. unfold delete_record. unfold_monad.
  destruct (db_delete_eq env demoId w) as [[m|] w'] eqn:E; cbn.
  - exists false. split; [reflexivity|]. split; [reflexivity | discriminate].
  - exists true. split; [reflexivity|]. split; [reflexivity|].
    intros _. exact E.
Qed.

(** The record delete as a run: one call of the record store, on the world
    it is given; it throws the store's error object when there is one. *)
Lemma delete_record_run (demoId : string) (s : @state W) :
  delete_record env demoId s
  = (match fst (db_delete_eq env demoId (fst s)) with
     | Some m => Throw (PlainObject m)
     | None => Ret tt
     end,
     (snd (db_delete_eq env demoId (fst s)),
      (snd s ++ [{| ev_call := DbDelete demoId;
                    ev_ok := negb (is_some (fst (db_delete_eq env demoId (fst s)))) |}])%list)).
Proof.
  destruct s as [w tr]. unfold delete_record. unfold_monad. cbn [fst snd].
  destruct (db_delete_eq env demoId w) as [[m|] w']; reflexivity.
Qed.

End Helpers.
End HelperFacts.

(* ------------------------------------------------------------------ *)
(** ** Lists of staged calls *)

Module StageFacts.
Import Server Capture.

Lemma staged_app (l1 l2 : list event) :
  staged l1 -> staged l2 ->
  (forall a b, In a l1 -> In b l2 -> stage_le a b) ->
  staged (l1 ++ l2).
Proof.
  induction 1 as [|a l Hal Hl IH]; intros H2 Hcross; simpl; [assumption|].
  constructor.
  - apply Forall_app. split; [assumption|].
    apply Forall_forall. intros b Hb. apply Hcross; [now left | assumption].
  - apply IH; [assumption|]. intros x y Hx Hy. apply Hcross; [now right | assumption].
Qed.

Lemma staged_uniform (k : nat) (l : list event) :
  (forall e, In e l -> stage (ev_call e) = k) -> staged l.
Proof.
  induction l as [|a l IH]; intros H; constructor.
  - apply Forall_forall. intros b Hb. unfold stage_le.
    rewrite (H a), (H b); [lia | now right | now left].
  - apply IH. intros e He. apply H. now right.
Qed.

Lemma staged_nth (l : list event) :
  staged l ->
  forall i j a b, nth_error l i = Some a -> nth_error l j = Some b ->
                  i < j -> stage_le a b.
Proof.
  induction 1 as [|x l Hx Hl IH]; intros i j a b Hi Hj Hlt.
  - destruct i; discriminate.
  - destruct j as [|j]; [lia|]. simpl in Hj.
    destruct i as [|i]; simpl in Hi.
    + injection Hi as <-. apply nth_error_In in Hj.
      rewrite Forall_forall in Hx. now apply Hx.
    + apply (IH i j); [assumption | assumption | lia].
Qed.

(** In a staged capture a call of an earlier stage comes strictly before
    any call of a later stage. *)
Lemma staged_before (l : list event) :
  staged l ->
  forall i j a b, nth_error l i = Some a -> nth_error l j = Some b ->
                  stage (ev_call a) < stage (ev_call b) -> i < j.
Proof.
  intros Hl i j a b Hi Hj Hlt.
  destruct (Nat.lt_trichotomy i j) as [H|[H|H]]; [assumption| |].
  - subst j. rewrite Hi in Hj. injection Hj as <-. lia.
  - pose proof (staged_nth l Hl j i b a Hj Hi H) as Hle.
    unfold stage_le in Hle. lia.
Qed.

Lemma forallb_stage (good : event -> bool) (k : nat) (l : list event) :
  (forall e, good e = true -> stage (ev_call e) = k) ->
  forallb good l = true -> forall e, In e l -> stage (ev_call e) = k.
Proof.
  intros Hgood Hall e He. rewrite forallb_forall in Hall. auto.
Qed.

Lemma deploy_host_stage (e : event) :
  deploy_host_event e = true -> stage (ev_call e) = 1.
Proof. unfold deploy_host_event. destruct (ev_call e); simpl; congruence. Qed.

Lemma code_host_stage (e : event) :
  code_host_event e = true -> stage (ev_call e) = 2.
Proof. unfold code_host_event. destruct (ev_call e); simpl; congruence. Qed.

(** Lookup, then deploy-host calls, then code-host calls, then the record
    delete: a staged capture. *)
Lemma staged_phases (f : event) (vs gs : list event) (dl : event) :
  stage (ev_call f) = 0 ->
  forallb deploy_host_event vs = true ->
  forallb code_host_event gs = true ->
  stage (ev_call dl) = 3 ->
  staged ([f] ++ vs ++ gs ++ [dl]).
Proof.
  intros Hf Hvs Hgs Hd.
  pose proof (forallb_stage _ 1 vs deploy_host_stage Hvs) as Sv.
  pose proof (forallb_stage _ 2 gs code_host_stage Hgs) as Sg.
  apply staged_app.
  - apply (staged_uniform 0). intros e [<-|[]]. assumption.
  - apply staged_app.
    + apply (staged_uniform 1). assumption.
    + apply staged_app.
      * apply (staged_uniform 2). assumption.
      * apply (staged_uniform 3). intros e [<-|[]]. assumption.
      * intros a b Ha [<-|[]]. unfold stage_le. rewrite (Sg a Ha), Hd. lia.
    + intros a b Ha Hb. unfold stage_le. rewrite (Sv a Ha).
      apply in_app_or in Hb as [Hb|[<-|[]]]; [rewrite (Sg b Hb) | rewrite Hd]; lia.
  - intros a b [<-|[]] Hb. unfold stage_le. rewrite Hf. lia.
Qed.

End StageFacts.

(* ------------------------------------------------------------------ *)
(** ** The routes, over any environment *)

Module RouteFacts.
Import Js Resolver Server Capture JsFacts ResolverFacts HelperFacts StageFacts.

Section Routes.
Context {W : Type}.
Variable env : Env W.
Variable cfg : process_env.

(** After a successful lookup [/delete-demo-data] runs the repository step
    and then the record delete, whose outcome alone decides the status. *)
Lemma delete_demo_data_run (demoId githubToken : option string)
      (d : demo) (w w1 : W) :
  truthy demoId = true ->
  db_select_single env (or_empty demoId) w = ((Some d, None), w1) ->
  let r := run (delete_demo_data_route env demoId githubToken) w in
  exists gh b,
    calls_of r = ([fetched demoId true] ++ gh ++ [record_deleted demoId b])%list
    /\ snd (snd (github_step env d githubToken (w1, [fetched demoId true])))
       = ([fetched demoId true] ++ gh)%list
    /\ forallb code_host_event gh = true
    /\ status_of (value_of r) = Some (if b then 200 else 500)
    /\ (b = true -> exists w2, db_delete_eq env (or_empty demoId) w2
                               = (None, world_of r)).
Proof.
  intros Hid Hsel. unfold run, calls_of, value_of, world_of,
    delete_demo_data_route.
  rewrite Hid. cbn [negb]. unfold_route. rewrite Hsel. unfold_route.
  fold (fetched demoId true).
  destruct (github_step_capture env d githubToken (w1, [fetched demoId true]))
    as (Hret & gh & Htr & Hgh & _).
  destruct (github_step env d githubToken (w1, [fetched demoId true]))
    as [o s1]. cbn [fst snd] in *. subst o.
  destruct (delete_record_capture env (or_empty demoId) s1)
    as (b & Htr2 & Hthrow & Hdel).
  destruct (delete_record env (or_empty demoId) s1) as [[u|e] s2];
    cbn [fst snd is_throw] in *; exists gh, b;
    rewrite Htr2, Htr; destruct b; try discriminate;
    repeat split; try (now rewrite <- app_assoc); try discriminate;
    try assumption.
  intros _. exists (fst s1). now apply Hdel.
Qed.

Lemma lookup_failed_flag (r : option demo * option string) :
  lookup_failed r -> is_some (fst r) && negb (is_some (snd r)) = false.
Proof. destruct r as [[d|] [e|]]; simpl; tauto. Qed.

(** After a successful lookup [/delete-demo] runs the deploy-host step, the
    repository step and the record delete, in this order. *)
Lemma delete_demo_run (demoId githubToken : option string)
      (d : demo) (w w1 : W) :
  truthy demoId = true -> truthy githubToken = true ->
  db_select_single env (or_empty demoId) w = ((Some d, None), w1) ->
  let r := run (delete_demo_route env cfg demoId githubToken) w in
  exists vs gh b,
    calls_of r
    = ([fetched demoId true] ++ vs ++ gh ++ [record_deleted demoId b])%list
    /\ forallb deploy_host_event vs = true
    /\ forallb code_host_event gh = true
    /\ (forall owner repo,
          truthy (github_repo_url (demo_cols d)) = true ->
          matchGitHubRepoUrl (or_empty (github_repo_url (demo_cols d)))
          = Some (owner, repo) ->
          exists ok, gh = [{| ev_call := GitHubDelete owner repo; ev_ok := ok |}])
    /\ status_of (value_of r) = Some (if b then 200 else 500)
    /\ (b = true -> exists w2, db_delete_eq env (or_empty demoId) w2
                               = (None, world_of r)).
Proof.
  intros Hid Htok Hsel. unfold run, calls_of, value_of, world_of,
    delete_demo_route.
  rewrite Hid, Htok. cbn [negb orb]. unfold_route. rewrite Hsel. unfold_route.
  fold (fetched demoId true).
  destruct (vercel_step_capture env cfg d (w1, [fetched demoId true]))
    as (Hret1 & vs & Htr1 & Hvs).
  destruct (vercel_step env cfg d (w1, [fetched demoId true])) as [o1 s1].
  cbn [fst snd] in *. subst o1.
  destruct (github_step_capture env d githubToken s1)
    as (Hret & gh & Htr2 & Hgh & _ & Hrepo).
  destruct (github_step env d githubToken s1) as [o s2].
  cbn [fst snd] in *. subst o.
  destruct (delete_record_capture env (or_empty demoId) s2)
    as (b & Htr3 & Hthrow & Hdel).
  destruct (delete_record env (or_empty demoId) s2) as [[u|e] s3];
    cbn [fst snd is_throw] in *; exists vs, gh, b;
    rewrite Htr3, Htr2, Htr1; destruct b; try discriminate;
    (split; [now rewrite <- !app_assoc|]);
    (split; [assumption|]); (split; [assumption|]);
    (split; [intros owner repo Hurl; apply Hrepo; now rewrite Hurl, Htok|]);
    (split; [reflexivity|]); try discriminate.
  intros _. exists (fst s2). now apply Hdel.
Qed.

(** Whatever the request and the collaborators, the capture of
    [/delete-demo] is staged. *)
Lemma delete_demo_staged (demoId githubToken : option string) (w : W) :
  staged (calls_of (run (delete_demo_route env cfg demoId githubToken) w)).
Proof.
  destruct (truthy demoId) eqn:Hid; [destruct (truthy githubToken) eqn:Htok|].
  - destruct (db_select_single env (or_empty demoId) w) as [[o e] w1] eqn:Hsel.
    destruct o as [d|]; [destruct e as [e|]|].
    3: { unfold run, calls_of, delete_demo_route. rewrite Hid, Htok.
         cbn [negb orb]. unfold_route. rewrite Hsel. unfold_route.
         apply (staged_uniform 0). now intros x [<-|[]]. }
    1: { unfold run, calls_of, delete_demo_route. rewrite Hid, Htok.
         cbn [negb orb]. unfold_route. rewrite Hsel. unfold_route.
         apply (staged_uniform 0). now intros x [<-|[]]. }
    destruct (delete_demo_run demoId githubToken d w w1 Hid Htok Hsel)
      as (vs & gh & b & -> & Hvs & Hgh & _).
    now apply staged_phases.
  - unfold run, calls_of, delete_demo_route. rewrite Hid, Htok.
    cbn. constructor.
  - unfold run, calls_of, delete_demo_route. rewrite Hid.
    cbn. constructor.
Qed.

(** After a successful lookup [/delete-vercel-deployments] answers 500 when
    a fatal deploy-host failure was captured, and 200 otherwise. *)
Lemma delete_vercel_deployments_run (demoId : option string)
      (d : demo) (w w1 : W) :
  truthy demoId = true ->
  db_select_single env (or_empty demoId) w = ((Some d, None), w1) ->
  let r := run (delete_vercel_deployments_route env cfg demoId) w in
  exists vs,
    calls_of r = ([fetched demoId true] ++ vs)%list
    /\ forallb deploy_host_event vs = true
    /\ status_of (value_of r) = Some (if existsb fatal vs then 500 else 200)
    /\ (truthy (VERCEL_TOKEN cfg) = false -> vs = [] /\ world_of r = w1).
Proof.
  intros Hid Hsel. unfold run, calls_of, value_of, world_of,
    delete_vercel_deployments_route.
  rewrite Hid. cbn [negb]. unfold_route. rewrite Hsel. unfold_route.
  fold (fetched demoId true).
  set (s0 := (w1, [fetched demoId true])).
  destruct (truthy (frontend_url (demo_cols d)) || truthy (backend_url (demo_cols d))).
  - destruct (deleteVercelDeployments_captures env cfg d s0)
      as (vs & Htr & Hgood & Hthrow).
    assert (Hskip : truthy (VERCEL_TOKEN cfg) = false ->
                    deleteVercelDeployments env cfg d s0 = (Ret tt, s0)).
    { intros Hno. unfold deleteVercelDeployments. now rewrite Hno. }
    destruct (deleteVercelDeployments env cfg d s0) as [[[]|e] s1];
      cbn [fst snd is_throw] in *; exists vs; rewrite <- Hthrow;
      (split; [assumption|]); (split; [assumption|]); (split; [reflexivity|]);
      intros Hno; specialize (Hskip Hno); try discriminate.
    injection Hskip as ->. subst s0. cbn in Htr. split; [|reflexivity].
    destruct vs; [reflexivity|]. apply (f_equal (@length _)) in Htr.
    cbn in Htr. lia.
  - exists []. cbn. repeat split.
Qed.

Lemma fetched_not_fatal (demoId : option string) (ok : bool) :
  fatal (fetched demoId ok) = false.
Proof. unfold fatal, fetched. cbn. apply andb_false_r. Qed.

(** A failed lookup ends the deletion routes with 404 after that single
    call. *)
Lemma delete_demo_data_not_found (demoId githubToken : option string)
      (r : option demo * option string) (w w1 : W) :
  truthy demoId = true ->
  db_select_single env (or_empty demoId) w = (r, w1) -> lookup_failed r ->
  run (delete_demo_data_route env demoId githubToken) w
  = (Ret {| status := 404; json := JError "Demo not found" None |},
     (w1, [fetched demoId false])).
Proof.
  intros Hid Hsel Hfail. unfold run, delete_demo_data_route.
  rewrite Hid. cbn [negb]. unfold_route. rewrite Hsel.
  destruct r as [[d|] [e|]]; try contradiction; reflexivity.
Qed.

Lemma delete_demo_not_found (demoId githubToken : option string)
      (r : option demo * option string) (w w1 : W) :
  truthy demoId = true -> truthy githubToken = true ->
  db_select_single env (or_empty demoId) w = (r, w1) -> lookup_failed r ->
  run (delete_demo_route env cfg demoId githubToken) w
  = (Ret {| status := 404; json := JError "Demo not found" None |},
     (w1, [fetched demoId false])).
Proof.
  intros Hid Htok Hsel Hfail. unfold run, delete_demo_route.
  rewrite Hid, Htok. cbn [negb orb]. unfold_route. rewrite Hsel.
  destruct r as [[d|] [e|]]; try contradiction; reflexivity.
Qed.

(** A status 200 of a deletion route that ends with the record delete
    tells that the world it leaves is the one a successful record delete
    produced. *)
Lemma delete_demo_data_200 (demoId githubToken : option string) (w : W) :
  status_of (value_of (run (delete_demo_data_route env demoId githubToken) w))
  = Some 200 ->
  truthy demoId = true
  /\ exists w2, db_delete_eq env (or_empty demoId) w2
                = (None, world_of (run (delete_demo_data_route env demoId githubToken) w)).
Proof.
  intros H200. destruct (truthy demoId) eqn:Hid.
  - split; [reflexivity|].
    destruct (db_select_single env (or_empty demoId) w) as [r w1] eqn:Hsel.
    destruct r as [[d|] [e|]].
    2: { destruct (delete_demo_data_run demoId githubToken d w w1 Hid Hsel)
           as (gh & b & _ & _ & _ & Hstatus & Hdel).
         cbv zeta in Hstatus, Hdel. rewrite Hstatus in H200.
         destruct b; [auto | discriminate]. }
    all: rewrite (delete_demo_data_not_found demoId githubToken _ w w1 Hid Hsel I)
      in H200; discriminate.
  - unfold run, delete_demo_data_route in H200. rewrite Hid in H200.
    discriminate.
Qed.

Lemma delete_demo_200 (demoId githubToken : option string) (w : W) :
  status_of (value_of (run (delete_demo_route env cfg demoId githubToken) w))
  = Some 200 ->
  truthy demoId = true /\ truthy githubToken = true
  /\ exists w2, db_delete_eq env (or_empty demoId) w2
                = (None, world_of (run (delete_demo_route env cfg demoId githubToken) w)).
Proof.
  intros H200.
  destruct (truthy demoId) eqn:Hid; [destruct (truthy githubToken) eqn:Htok|].
  - split; [reflexivity|]. split; [reflexivity|].
    destruct (db_select_single env (or_empty demoId) w) as [r w1] eqn:Hsel.
    destruct r as [[d|] [e|]].
    2: { destruct (delete_demo_run demoId githubToken d w w1 Hid Htok Hsel)
           as (vs & gh & b & _ & _ & _ & _ & Hstatus & Hdel).
         cbv zeta in Hstatus, Hdel. rewrite Hstatus in H200.
         destruct b; [auto | discriminate]. }
    all: rewrite (delete_demo_not_found demoId githubToken _ w w1 Hid Htok Hsel I)
      in H200; discriminate.
  - unfold run, delete_demo_route in H200. rewrite Hid, Htok in H200.
    discriminate.
  - unfold run, delete_demo_route in H200. rewrite Hid in H200.
    discriminate.
Qed.

(** C1 (amended).  With the deploy-host credential configured and both
    result URLs resolving to project names, [deleteVercelDeployments]
    deletes the two projects in sequence: when the deletion of the frontend
    project throws, the error is rethrown at once and nothing is attempted
    for the backend project; when it returns, the deletion of the backend
    project runs next.  In [/delete-demo] the repository named by the
    record is deleted whatever the deploy-host step did. *)
Theorem deployments_deleted_in_sequence
        (d : demo) (fp bp : string) (s : @state W) :
  truthy (VERCEL_TOKEN cfg) = true ->
  project_of_url (frontend_url (demo_cols d)) = Some fp ->
  project_of_url (backend_url (demo_cols d)) = Some bp ->
  (forall e s1,
      deleteVercelProject env cfg fp (or_empty (VERCEL_TOKEN cfg)) s = (Throw e, s1) ->
      deleteVercelDeployments env cfg d s = (Throw e, s1))
  /\ (forall s1,
         deleteVercelProject env cfg fp (or_empty (VERCEL_TOKEN cfg)) s = (Ret tt, s1) ->
         deleteVercelDeployments env cfg d s
         = deleteVercelProject env cfg bp (or_empty (VERCEL_TOKEN cfg)) s1)
  /\ (forall demoId githubToken w w1 owner repo,
         truthy demoId = true -> truthy githubToken = true ->
         db_select_single env (or_empty demoId) w = ((Some d, None), w1) ->
         truthy (github_repo_url (demo_cols d)) = true ->
         matchGitHubRepoUrl (or_empty (github_repo_url (demo_cols d)))
         = Some (owner, repo) ->
         exists ok,
           In {| ev_call := GitHubDelete owner repo; ev_ok := ok |}
              (calls_of (run (delete_demo_route env cfg demoId githubToken) w))).
Proof.
  intros Htok Hf Hb.
  pose proof (project_of_url_truthy _ _ Hf) as Tf.
  pose proof (project_of_url_truthy _ _ Hb) as Tb.
  repeat split.
  - intros e s1 Hrun. unfold deleteVercelDeployments.
    rewrite Htok, Hf, Hb, Tf, Tb. cbn [negb or_empty].
    unfold try_catch, bind, throw. now rewrite Hrun.
  - intros s1 Hrun. unfold deleteVercelDeployments.
    rewrite Htok, Hf, Hb, Tf, Tb. cbn [negb or_empty].
    unfold try_catch, bind, throw, ret. rewrite Hrun.
    now destruct (deleteVercelProject env cfg bp (or_empty (VERCEL_TOKEN cfg)) s1)
      as [[[]|e] s2].
  - intros demoId githubToken w w1 owner repo Hid Hgt Hsel Hurl Hrepo.
    destruct (delete_demo_run demoId githubToken d w w1 Hid Hgt Hsel)
      as (vs & gh & b & Hcalls & _ & _ & Hgh & _).
    destruct (Hgh owner repo Hurl Hrepo) as (ok & ->).
    exists ok. cbv zeta in Hcalls. rewrite Hcalls.
    apply in_or_app. right. apply in_or_app. right. now left.
Qed.

(** C2 (amended).  When the record lookup succeeds,
    [/delete-vercel-deployments] answers 500 if a personal-scope listing or
    the deletion of a project found in the listing failed, and 200
    otherwise; the failures of the team-scope listing and of the direct
    deletion by name do not change the status. *)
Theorem delete_deployments_status (demoId : option string) (d : demo) (w w1 : W) :
  truthy demoId = true ->
  db_select_single env (or_empty demoId) w = ((Some d, None), w1) ->
  status_of (value_of (run (delete_vercel_deployments_route env cfg demoId) w))
  = Some (if existsb fatal
               (calls_of (run (delete_vercel_deployments_route env cfg demoId) w))
          then 500 else 200).
Proof.
  intros Hid Hsel.
  destruct (delete_vercel_deployments_run demoId d w w1 Hid Hsel)
    as (vs & Hcalls & _ & Hstatus & _).
  cbv zeta in Hcalls, Hstatus. rewrite Hstatus, Hcalls.
  rewrite existsb_app. cbn [existsb]. now rewrite fetched_not_fatal.
Qed.

(** C4.  When the record lookup succeeds, [/delete-demo-data] issues the
    lookup, then code-host calls only (whether they succeed or fail), and
    last the record delete, which is the call of the record store on the
    world the repository step left.  The answer is decided by what that
    call reports: 200 when it reports no error, 500 "Failed to delete demo
    data" when it reports one; a failure of the repository step is not
    surfaced. *)
Theorem delete_data_record_delete_last
        (demoId githubToken : option string) (d : demo) (w w1 : W) :
  truthy demoId = true ->
  db_select_single env (or_empty demoId) w = ((Some d, None), w1) ->
  exists gh w2 deleteError w3,
    snd (github_step env d githubToken (w1, [fetched demoId true]))
    = (w2, ([fetched demoId true] ++ gh)%list)
    /\ forallb code_host_event gh = true
    /\ db_delete_eq env (or_empty demoId) w2 = (deleteError, w3)
    /\ run (delete_demo_data_route env demoId githubToken) w
       = (Ret (match deleteError with
               | None => {| status := 200;
                            json := JSuccess "Demo data deleted successfully" |}
               | Some _ => {| status := 500;
                              json := JError "Failed to delete demo data"
                                             (Some "Unknown error") |}
               end),
          (w3, ([fetched demoId true] ++ gh
                ++ [record_deleted demoId (negb (is_some deleteError))])%list))
    /\ status_of (value_of (run (delete_demo_data_route env demoId githubToken) w))
       = Some (if negb (is_some deleteError) then 200 else 500).
Proof.
  intros Hid Hsel.
  destruct (github_step_capture env d githubToken (w1, [fetched demoId true]))
    as (Hret & gh & Htr & Hgh & _).
  destruct (db_delete_eq env (or_empty demoId)
              (fst (snd (github_step env d githubToken (w1, [fetched demoId true])))))
    as [deleteError w3] eqn:Hdel.
  assert (Hrun : run (delete_demo_data_route env demoId githubToken) w
                 = (Ret (match deleteError with
                         | None => {| status := 200;
                                      json := JSuccess "Demo data deleted successfully" |}
                         | Some _ => {| status := 500;
                                        json := JError "Failed to delete demo data"
                                                       (Some "Unknown error") |}
                         end),
                    (w3, ([fetched demoId true] ++ gh
                          ++ [record_deleted demoId (negb (is_some deleteError))])%list))).
  { unfold run, delete_demo_data_route. rewrite Hid. cbn [negb].
    unfold_route. rewrite Hsel. unfold_route. fold (fetched demoId true).
    destruct (github_step env d githubToken (w1, [fetched demoId true]))
      as [o [w2 tr2]]. cbn [fst snd] in *. subst o tr2.
    rewrite delete_record_run. cbn [fst snd]. rewrite Hdel. cbn [fst snd].
    unfold record_deleted. rewrite <- app_assoc.
    destruct deleteError; reflexivity. }
  exists gh, (fst (snd (github_step env d githubToken (w1, [fetched demoId true])))),
    deleteError, w3.
  split.
  { destruct (github_step env d githubToken (w1, [fetched demoId true]))
      as [o [w2 tr2]]. cbn [fst snd] in *. now subst tr2. }
  split; [exact Hgh|]. split; [exact Hdel|]. split; [exact Hrun|].
  rewrite Hrun. unfold value_of. cbn [fst status_of].
  destruct deleteError; reflexivity.
Qed.

(** C5.  In the capture of [/delete-demo] every call of an earlier stage
    (lookup, deploy host, code host, record delete) comes strictly before
    every call of a later stage; and when the lookup succeeds the capture
    is the lookup, deploy-host calls, code-host calls and the record
    delete, in this order. *)
Theorem delete_all_order (demoId githubToken : option string) (w : W) :
  (forall i j a b,
      nth_error (calls_of (run (delete_demo_route env cfg demoId githubToken) w)) i
      = Some a ->
      nth_error (calls_of (run (delete_demo_route env cfg demoId githubToken) w)) j
      = Some b ->
      stage (ev_call a) < stage (ev_call b) -> i < j)
  /\ (forall d w1,
         truthy demoId = true -> truthy githubToken = true ->
         db_select_single env (or_empty demoId) w = ((Some d, None), w1) ->
         exists vs gh b,
           calls_of (run (delete_demo_route env cfg demoId githubToken) w)
           = ([fetched demoId true] ++ vs ++ gh ++ [record_deleted demoId b])%list
           /\ forallb deploy_host_event vs = true
           /\ forallb code_host_event gh = true).
Proof.
  split.
  - apply staged_before, delete_demo_staged.
  - intros d w1 Hid Htok Hsel.
    destruct (delete_demo_run demoId githubToken d w w1 Hid Htok Hsel)
      as (vs & gh & b & Hcalls & Hvs & Hgh & _).
    exists vs, gh, b. auto.
Qed.

(** C8 (amended).  [/delete-demo-data] requires the demo id only: without
    it the request is rejected with 400 before any call.  Without the
    code-host credential the request is served: after the lookup no
    code-host call is made and the record delete decides the status.  It is
    the client-side API route that rejects a request without the
    credential, with 400 and before forwarding anything. *)
Theorem delete_data_credential_optional (demoId githubToken : option string) (w : W) :
  (truthy demoId = false ->
   run (delete_demo_data_route env demoId githubToken) w
   = (Ret {| status := 400; json := JError "Demo ID is required" None |}, (w, [])))
  /\ (forall d w1,
         truthy demoId = true -> truthy githubToken = false ->
         db_select_single env (or_empty demoId) w = ((Some d, None), w1) ->
         exists b,
           calls_of (run (delete_demo_data_route env demoId githubToken) w)
           = [fetched demoId true; record_deleted demoId b]
           /\ status_of (value_of (run (delete_demo_data_route env demoId githubToken) w))
              = Some (if b then 200 else 500))
  /\ (truthy demoId = false \/ truthy githubToken = false ->
      exists message,
        run (client_delete_demo_data env demoId githubToken) w
        = (Ret {| status := 400; json := JError message None |}, (w, []))).
Proof.
  repeat split.
  - intros Hid. unfold run, delete_demo_data_route. now rewrite Hid.
  - intros d w1 Hid Htok Hsel.
    destruct (delete_demo_data_run demoId githubToken d w w1 Hid Hsel)
      as (gh & b & Hcalls & Hstep & _ & Hstatus & _).
    destruct (github_step_capture env d githubToken (w1, [fetched demoId true]))
      as (_ & gh' & Htr & _ & Hnone & _).
    rewrite Htok, andb_false_r in Hnone. specialize (Hnone eq_refl). subst gh'.
    cbn [fst snd] in Htr. rewrite Htr in Hstep.
    apply app_inv_head in Hstep. subst gh.
    exists b. auto.
  - intros Hmiss. unfold run, client_delete_demo_data.
    destruct (truthy demoId); [|eexists; reflexivity].
    destruct Hmiss as [Hmiss|Hmiss]; [discriminate|].
    rewrite Hmiss. eexists; reflexivity.
Qed.

(** C9.  When the request is complete and [generateDemo] returns, the
    answer of [/generate-demo] is 200 with the generated URLs, whether the
    insert of the Demo Record succeeds or reports an error. *)
Theorem insert_failure_not_surfaced (p : demo_params) (result : demo_result) (w w1 : W) :
  truthy (customerName p) = true -> truthy (writeKey p) = true ->
  truthy (profileToken p) = true -> truthy (unifySpaceId p) = true ->
  truthy (githubToken p) = true -> truthy (supabaseUserId p) = true ->
  run_generateDemo env p w = (inl result, w1) ->
  value_of (run (generate_demo_route env p) w)
  = Ret {| status := 200; json := JData result |}
  /\ exists row ok,
       calls_of (run (generate_demo_route env p) w)
       = [ {| ev_call := GenerateDemo p; ev_ok := true |};
           {| ev_call := DbInsert row; ev_ok := ok |} ]
       /\ frontend_url row = Some (frontendUrl result)
       /\ backend_url row = Some (backendUrl result)
       /\ github_repo_url row = Some (githubRepoUrl result)
       /\ ok = negb (is_some (fst (db_insert env row w1))).
Proof.
  intros H1 H2 H3 H4 H5 H6 Hgen.
  unfold run, value_of, calls_of, generate_demo_route.
  rewrite H1, H2, H3, H4, H5, H6. cbn [negb orb]. unfold_route.
  rewrite Hgen. unfold_route.
  match goal with
  | |- context [db_insert env ?r w1] =>
      destruct (db_insert env r w1) as [e w2] eqn:Hins
  end.
  cbn [fst snd]. split; [reflexivity|].
  eexists. eexists. split; [reflexivity|].
  cbn. repeat split. now rewrite Hins.
Qed.

(** C10.  Without [VERCEL_TOKEN], for a record found by the lookup with a
    frontend or a backend URL, [/delete-vercel-deployments] answers 200
    with the message "Vercel deployments deleted successfully"; the only
    call is the lookup and the world is the one the lookup left. *)
Theorem missing_token_reports_success (demoId : option string) (d : demo) (w w1 : W) :
  truthy (VERCEL_TOKEN cfg) = false ->
  truthy demoId = true ->
  db_select_single env (or_empty demoId) w = ((Some d, None), w1) ->
  truthy (frontend_url (demo_cols d)) || truthy (backend_url (demo_cols d)) = true ->
  run (delete_vercel_deployments_route env cfg demoId) w
  = (Ret {| status := 200;
            json := JSuccess "Vercel deployments deleted successfully" |},
     (w1, [fetched demoId true])).
Proof.
  intros Hno Hid Hsel Hurl.
  unfold run, delete_vercel_deployments_route.
  rewrite Hid. cbn [negb]. unfold_route. rewrite Hsel. unfold_route.
  rewrite Hurl. unfold deleteVercelDeployments. rewrite Hno. reflexivity.
Qed.

End Routes.
End RouteFacts.

(* ------------------------------------------------------------------ *)
(** ** Names and their resolution: the claims *)

Module NameFacts.
Import Js Resolver JsFacts ResolverFacts.

(** The examples of DEMO_DELETION_PROCESS.md. *)
Example extract_documented :
  extractProjectNameFromUrl
    "https://segment-demo-acme-corp-frontend-1754399725595-lwmbog.vercel.app"
  = Some "segment-demo-acme-corp-frontend-1754399725595-lwmbog".
Proof. reflexivity. Qed.

Example github_documented :
  matchGitHubRepoUrl
    "https://github.com/username/segment-demo-acme-corp-1754399725595-lwmbog"
  = Some ("username", "segment-demo-acme-corp-1754399725595-lwmbog").
Proof. reflexivity. Qed.

Example extract_other_host :
  extractProjectNameFromUrl "https://github.com/your-username/segment-demo-placeholder"
  = None.
Proof. reflexivity. Qed.

Example customer_of_generated :
  customerNameOf (generatedName "acme-corp" Frontend "k3x9a") = "acme-corp".
Proof. reflexivity. Qed.

(** A partial match is taken only when no listed name equals the target. *)
Example partial_when_no_exact :
  findProjectFuzzy "shop"
    [ {| p_name := "shop-v2"; p_id := "prj_1" |};
      {| p_name := "blog"; p_id := "prj_3" |} ]
  = Some {| p_name := "shop-v2"; p_id := "prj_1" |}.
Proof. reflexivity. Qed.

(** C6.  The project search of [deleteVercelProject] is the ordered policy
    exact match, substring match in either direction, customer-name
    heuristic: its result is the first listed project accepted by the first
    of these matchers that accepts any listed project, and nothing when all
    three reject every listed project.  On a name made by the generator the
    heuristic key is the slug of the display name: the [segment-demo]
    prefix, the role token and the uniqueness suffix are stripped.  A
    listing that holds a project named exactly as the target yields the
    first such project, whatever else would match more loosely. *)
Theorem findProjectFuzzy_policy :
  (forall target listing,
      policy_result matching_policy target listing (findProjectFuzzy target listing))
  /\ (forall slug r suffix,
         base36 suffix = true ->
         customerNameOf (generatedName slug r suffix) = slug
         /\ (slug <> EmptyString -> recovered_slug (generatedName slug r suffix) slug))
  /\ (forall target listing p,
         In p listing -> p_name p = target ->
         exists q,
           findProjectFuzzy target listing = Some q
           /\ p_name q = target
           /\ find (fun x => String.eqb (p_name x) target) listing = Some q).
Proof.
  split; [exact findProjectFuzzy_by_policy|]. split.
  - intros slug r suffix H36.
    assert (Hkey : customerNameOf (generatedName slug r suffix) = slug).
    { apply customerNameOf_generated.
      exact (all_chars_weaken _ _ _ base36_not_dash H36). }
    split; [exact Hkey|]. intros Hne. apply recovered_slug_code. now split.
  - intros target listing p Hin Hname.
    destruct (exact_pass_present target listing p Hin Hname) as (q & Hq & Hn).
    exists q. unfold findProjectFuzzy. rewrite Hq. auto.
Qed.

(** C7 (amended).  For a name made by the generator whose slug holds no
    dot, resolving the URL built from it returns exactly that name.  A name
    that holds a dot cannot be recovered: what the resolver returns never
    holds one. *)
Theorem resolve_roundtrip_dot_free :
  (forall slug r suffix,
      dot_free slug = true -> base36 suffix = true ->
      extractProjectNameFromUrl (placeholderUrl (projectNameFor slug r) suffix)
      = Some (generatedName slug r suffix))
  /\ (forall url name,
         extractProjectNameFromUrl url = Some name -> dot_free name = true).
Proof.
  split; [|exact extract_dot_free].
  intros slug r suffix Hslug H36.
  rewrite placeholderUrl_deployUrl. apply extract_deployUrl.
  - unfold generatedName, projectNameFor. discriminate.
  - apply generatedName_dot_free; [assumption|].
    exact (all_chars_weaken _ _ _ base36_not_dot H36).
Qed.

(** C7, as stated, fails on a display name with a dot: the customer
    "acme.inc" keeps its dot through [slugify], and the URL made for its
    frontend project resolves to nothing. *)
Lemma dotted_name_not_resolved :
  extractProjectNameFromUrl (placeholderUrl (projectNameFor "acme.inc" Frontend) "k3x9a")
  = None
  /\ extractProjectNameFromUrl (placeholderUrl (projectNameFor "acme.inc" Frontend) "k3x9a")
     <> Some (generatedName "acme.inc" Frontend "k3x9a").
Proof. split; [reflexivity | discriminate]. Qed.

Lemma findProjectFuzzy_policy_witness :
  policy_result matching_policy "shop"
    [ {| p_name := "blog"; p_id := "prj_3" |};
      {| p_name := "shop-v2"; p_id := "prj_1" |} ]
    (Some {| p_name := "shop-v2"; p_id := "prj_1" |})
  /\ policy_result matching_policy (generatedName "acme-corp" Frontend "k3x9a")
       [ {| p_name := "blog"; p_id := "prj_3" |};
         {| p_name := generatedName "acme-corp" Backend "zz000"; p_id := "prj_4" |} ]
       (Some {| p_name := generatedName "acme-corp" Backend "zz000"; p_id := "prj_4" |})
  /\ policy_result matching_policy "shop"
       [ {| p_name := "blog"; p_id := "prj_3" |} ] None
  /\ base36 "k3x9a" = true
  /\ customerNameOf (generatedName "acme-corp" Frontend "k3x9a") = "acme-corp"
  /\ "acme-corp" <> EmptyString
  /\ recovered_slug (generatedName "acme-corp" Frontend "k3x9a") "acme-corp"
  /\ In {| p_name := "shop"; p_id := "prj_2" |}
        [ {| p_name := "shop-v2"; p_id := "prj_1" |};
          {| p_name := "shop"; p_id := "prj_2" |} ]
  /\ exists q,
       findProjectFuzzy "shop"
         [ {| p_name := "shop-v2"; p_id := "prj_1" |};
           {| p_name := "shop"; p_id := "prj_2" |} ] = Some q
       /\ p_name q = "shop"
       /\ find (fun x => String.eqb (p_name x) "shop")
            [ {| p_name := "shop-v2"; p_id := "prj_1" |};
              {| p_name := "shop"; p_id := "prj_2" |} ] = Some q.
Proof.
  split; [exact (proj1 findProjectFuzzy_policy "shop" _)|].
  split; [exact (proj1 findProjectFuzzy_policy
                   (generatedName "acme-corp" Frontend "k3x9a") _)|].
  split; [exact (proj1 findProjectFuzzy_policy "shop" _)|].
  split; [reflexivity|].
  split; [apply (proj1 (proj2 findProjectFuzzy_policy)); reflexivity|].
  split; [discriminate|].
  split; [apply (proj1 (proj2 findProjectFuzzy_policy)); [reflexivity | discriminate]|].
  split; [right; left; reflexivity|].
  apply (proj2 (proj2 findProjectFuzzy_policy) "shop" _
               {| p_name := "shop"; p_id := "prj_2" |}).
  - right. left. reflexivity.
  - reflexivity.
Defined.

Lemma resolve_roundtrip_dot_free_witness :
  dot_free "acme-corp" = true /\ base36 "k3x9a" = true
  /\ extractProjectNameFromUrl
       (placeholderUrl (projectNameFor "acme-corp" Backend) "k3x9a")
     = Some (generatedName "acme-corp" Backend "k3x9a")
  /\ extractProjectNameFromUrl "https://shop.vercel.app" = Some "shop"
  /\ dot_free "shop" = true.
Proof.
  split; [reflexivity|]. split; [reflexivity|]. split; [|split].
  - apply (proj1 resolve_roundtrip_dot_free); reflexivity.
  - reflexivity.
  - apply (proj2 resolve_roundtrip_dot_free "https://shop.vercel.app").
    reflexivity.
Defined.

End NameFacts.

(* ------------------------------------------------------------------ *)
(** ** Repeated calls, on the test double *)

Module SimFacts.
Import Js Resolver Server Capture Sim JsFacts ResolverFacts HelperFacts RouteFacts.

(** Once a record delete went through, the lookup of the same id fails. *)
Lemma select_after_delete (demoId : string) (w2 w' : world) :
  sim_delete demoId w2 = (None, w') ->
  exists r, sim_select demoId w' = (r, w') /\ lookup_failed r.
Proof.
  unfold sim_delete. destruct (faulty w2 (RqDelete demoId)); [discriminate|].
  intros [= <-]. unfold sim_select, with_rows; cbn.
  destruct (faulty w2 (RqSelect demoId)); [eexists; split; [reflexivity | exact I]|].
  assert (Hnone : filter (has_id demoId)
                    (filter (fun d => negb (has_id demoId d)) (rows w2)) = []).
  { induction (rows w2) as [|d l IH]; [reflexivity|]. cbn.
    destruct (has_id demoId d) eqn:E; cbn; [assumption|].
    now rewrite E. }
  rewrite Hnone. eexists; split; [reflexivity | exact I].
Qed.

Lemma quiet_ret (w : world) {A} (a : A) : quiet w (ret a).
Proof. intros tr. exists a, []. cbn. now rewrite app_nil_r. Qed.

Lemma quiet_bind (w : world) {A B} (m : @M world A) (k : A -> @M world B) :
  quiet w m -> (forall a, quiet w (k a)) -> quiet w (bind m k).
Proof.
  intros Hm Hk tr. unfold bind.
  destruct (Hm tr) as (a & evs1 & -> & H1).
  destruct (Hk a (tr ++ evs1)%list) as (b & evs2 & -> & H2).
  exists b, (evs1 ++ evs2)%list. split; [now rewrite app_assoc|].
  now rewrite forallb_app, H1, H2.
Qed.

Lemma quiet_try (w : world) {A} (m : @M world A) (h : thrown -> @M world A) :
  quiet w m -> quiet w (try_catch m h).
Proof.
  intros Hm tr. unfold try_catch.
  destruct (Hm tr) as (a & evs & -> & H). now exists a, evs.
Qed.

Section Cleared.
Variable cfg : process_env.
Variable w : world.
Hypothesis team_cleared : team_projects w = [].
Hypothesis personal_cleared : personal_projects w = [].
Hypothesis listing_answers : faulty w (RqList Personal) = false.

(** On a cleared listing [deleteVercelProject] finds nothing, tries the
    deletion by name, and returns, whatever the deploy host answers. *)
Lemma deleteVercelProject_cleared (name token : string) :
  quiet w (deleteVercelProject sim_env cfg name token).
Proof.
  intros tr. unfold deleteVercelProject, delete_scope. unfold_monad.
  cbn [vercel_get_projects vercel_delete_project sim_env].
  unfold sim_list, sim_delete_project.
  repeat (cbn [fst snd length Nat.eqb existsb andb];
          rewrite ?listing_answers, ?team_cleared, ?personal_cleared,
            ?findProjectFuzzy_nil, ?andb_false_r;
          case_step);
    try discriminate;
    eexists; eexists;
    (split; [rewrite <- ?app_assoc; cbn [app]; reflexivity | reflexivity]).
Qed.

Lemma deleteVercelDeployments_cleared (d : demo) :
  quiet w (deleteVercelDeployments sim_env cfg d).
Proof.
  unfold deleteVercelDeployments.
  destruct (negb (truthy (VERCEL_TOKEN cfg))); [apply quiet_ret|].
  apply quiet_try.
  apply quiet_bind;
    [destruct (truthy (project_of_url (frontend_url (demo_cols d))));
       [apply deleteVercelProject_cleared | apply quiet_ret]|].
  intros _. apply quiet_bind;
    [destruct (truthy (project_of_url (backend_url (demo_cols d))));
       [apply deleteVercelProject_cleared | apply quiet_ret]|].
  intros _. apply quiet_ret.
Qed.

Lemma delete_deployments_cleared (demoId : option string) (d : demo) :
  truthy demoId = true ->
  sim_select (or_empty demoId) w = ((Some d, None), w) ->
  exists body evs,
    run (delete_vercel_deployments_route sim_env cfg demoId) w
    = (Ret {| status := 200; json := body |}, (w, fetched demoId true :: evs))
    /\ forallb not_by_id evs = true.
Proof.
  intros Hid Hsel. unfold run, delete_vercel_deployments_route.
  rewrite Hid. cbn [negb]. unfold_route.
  cbn [db_select_single sim_env]. rewrite Hsel. unfold_route.
  fold (fetched demoId true).
  destruct (truthy (frontend_url (demo_cols d)) || truthy (backend_url (demo_cols d))).
  - destruct (deleteVercelDeployments_cleared d [fetched demoId true])
      as ([] & evs & -> & Hevs).
    eexists; exists evs. split; [reflexivity | assumption].
  - eexists; exists []. split; reflexivity.
Qed.

End Cleared.

(** [/test-vercel] lists, and leaves the world as it is. *)
Lemma test_vercel_reads_only (cfg : process_env) (w : world) :
  world_of (run (test_vercel_route sim_env cfg) w) = w
  /\ forallb listing_event (calls_of (run (test_vercel_route sim_env cfg) w)) = true.
Proof.
  unfold run, world_of, calls_of, test_vercel_route. unfold_monad.
  cbn [vercel_get_projects sim_env]. unfold sim_list.
  repeat (cbn [fst snd]; case_step); split; reflexivity.
Qed.

(** C3 (amended).  On the test double: [/delete-demo-data] and
    [/delete-demo] are not idempotent, a second call right after a call
    that answered 200 answers 404 "Demo not found", having made the lookup
    only.  [/delete-vercel-deployments] on a found record whose project
    listings are cleared, the personal-scope listing answering, deletes
    nothing by id, leaves the world as it is and answers 200, so a second
    call does the same.  [/test-vercel] only lists and leaves the world as
    it is, so a second call answers as the first. *)
Theorem repeated_deprovisioning
        (cfg : process_env) (w : world) (demoId githubToken : option string) :
  (status_of (value_of (run (delete_demo_data_route sim_env demoId githubToken) w))
   = Some 200 ->
   exists w',
     run (delete_demo_data_route sim_env demoId githubToken)
         (world_of (run (delete_demo_data_route sim_env demoId githubToken) w))
     = (Ret {| status := 404; json := JError "Demo not found" None |},
        (w', [fetched demoId false])))
  /\ (status_of (value_of (run (delete_demo_route sim_env cfg demoId githubToken) w))
      = Some 200 ->
      exists w',
        run (delete_demo_route sim_env cfg demoId githubToken)
            (world_of (run (delete_demo_route sim_env cfg demoId githubToken) w))
        = (Ret {| status := 404; json := JError "Demo not found" None |},
           (w', [fetched demoId false])))
  /\ (forall d,
         team_projects w = [] -> personal_projects w = [] ->
         faulty w (RqList Personal) = false ->
         truthy demoId = true ->
         sim_select (or_empty demoId) w = ((Some d, None), w) ->
         status_of (value_of (run (delete_vercel_deployments_route sim_env cfg demoId) w))
         = Some 200
         /\ world_of (run (delete_vercel_deployments_route sim_env cfg demoId) w) = w
         /\ forallb not_by_id
              (calls_of (run (delete_vercel_deployments_route sim_env cfg demoId) w))
            = true
         /\ status_of
              (value_of
                 (run (delete_vercel_deployments_route sim_env cfg demoId)
                      (world_of (run (delete_vercel_deployments_route sim_env cfg demoId) w))))
            = Some 200)
  /\ (world_of (run (test_vercel_route sim_env cfg) w) = w
      /\ forallb listing_event (calls_of (run (test_vercel_route sim_env cfg) w)) = true
      /\ run (test_vercel_route sim_env cfg)
             (world_of (run (test_vercel_route sim_env cfg) w))
         = run (test_vercel_route sim_env cfg) w).
Proof.
  split; [|split; [|split]].
  - intros H200.
    destruct (delete_demo_data_200 sim_env demoId githubToken w H200)
      as (Hid & w2 & Hdel).
    destruct (select_after_delete _ _ _ Hdel) as (r & Hsel & Hfail).
    eexists. exact (delete_demo_data_not_found sim_env demoId githubToken r _ _
                                               Hid Hsel Hfail).
  - intros H200.
    destruct (delete_demo_200 sim_env cfg demoId githubToken w H200)
      as (Hid & Htok & w2 & Hdel).
    destruct (select_after_delete _ _ _ Hdel) as (r & Hsel & Hfail).
    eexists. exact (delete_demo_not_found sim_env cfg demoId githubToken r _ _
                                          Hid Htok Hsel Hfail).
  - intros d Hteam Hpers Hlist Hid Hsel.
    destruct (delete_deployments_cleared cfg w Hteam Hpers Hlist demoId d Hid Hsel)
      as (body & evs & Hrun & Hevs).
    rewrite Hrun. cbn [value_of world_of calls_of fst snd status_of status].
    rewrite Hrun. cbn. auto.
  - destruct (test_vercel_reads_only cfg w) as (Hw & Hl).
    split; [assumption|]. split; [assumption|]. now rewrite Hw.
Qed.

End SimFacts.

(* ------------------------------------------------------------------ *)
(** ** Scenarios on the test double *)

Module Scenarios.
Import Js Resolver Server Capture Sim RouteFacts SimFacts.

(** C1, as stated, fails: both result URLs are set, the deletion of the
    frontend project is refused, and the capture ends there; no call is
    made for the backend project, which stays deployed. *)
Lemma frontend_failure_blocks_backend :
  truthy (frontend_url (demo_cols acme)) = true
  /\ truthy (backend_url (demo_cols acme)) = true
  /\ calls_of (run (delete_vercel_deployments_route sim_env token_only (Some "d1"))
                   (scene front_delete_refused))
     = [ {| ev_call := DbFetch "d1"; ev_ok := true |};
         {| ev_call := VercelList Personal; ev_ok := true |};
         {| ev_call := VercelDeleteById Personal "prj_front"; ev_ok := false |} ]
  /\ personal_projects
       (world_of (run (delete_vercel_deployments_route sim_env token_only (Some "d1"))
                      (scene front_delete_refused)))
     = acme_projects.
Proof. repeat split; vm_compute; reflexivity. Qed.

(** C2, as stated, fails: the lookup succeeds, the deploy host refuses to
    delete the frontend project, and the answer is a 500. *)
Lemma deploy_host_failure_is_500 :
  sim_select "d1" (scene front_delete_refused)
  = ((Some acme, None), scene front_delete_refused)
  /\ value_of (run (delete_vercel_deployments_route sim_env token_only (Some "d1"))
                   (scene front_delete_refused))
     = Ret {| status := 500;
              json := JError "Failed to delete Vercel deployments"
                        (Some "Failed to delete Vercel project: 403 Forbidden") |}.
Proof. split; vm_compute; reflexivity. Qed.

(** C3, as stated, fails: the first [/delete-demo-data] answers 200, and
    the second call right after it answers 404. *)
Lemma delete_data_twice_not_found :
  value_of (run (delete_demo_data_route sim_env (Some "d1") (Some "gh-token"))
                (scene no_faults))
  = Ret {| status := 200; json := JSuccess "Demo data deleted successfully" |}
  /\ value_of
       (run (delete_demo_data_route sim_env (Some "d1") (Some "gh-token"))
            (world_of (run (delete_demo_data_route sim_env (Some "d1") (Some "gh-token"))
                           (scene no_faults))))
     = Ret {| status := 404; json := JError "Demo not found" None |}.
Proof. split; vm_compute; reflexivity. Qed.

(** C8, as stated, fails: without the code-host credential the request is
    served; the record store is called twice and the record is gone. *)
Lemma delete_data_without_credential :
  value_of (run (delete_demo_data_route sim_env (Some "d1") None) (scene no_faults))
  = Ret {| status := 200; json := JSuccess "Demo data deleted successfully" |}
  /\ calls_of (run (delete_demo_data_route sim_env (Some "d1") None) (scene no_faults))
     = [ {| ev_call := DbFetch "d1"; ev_ok := true |};
         {| ev_call := DbDelete "d1"; ev_ok := true |} ]
  /\ rows (world_of (run (delete_demo_data_route sim_env (Some "d1") None)
                         (scene no_faults)))
     = [].
Proof. repeat split; vm_compute; reflexivity. Qed.

Lemma deployments_deleted_in_sequence_witness :
  truthy (VERCEL_TOKEN token_only) = true
  /\ project_of_url (frontend_url (demo_cols acme)) = Some acme_front
  /\ project_of_url (backend_url (demo_cols acme)) = Some acme_back
  /\ deleteVercelProject sim_env token_only acme_front "vercel-token"
       (scene front_delete_refused, [])
     = (Throw "Failed to delete Vercel project: 403 Forbidden",
        snd (deleteVercelProject sim_env token_only acme_front "vercel-token"
               (scene front_delete_refused, [])))
  /\ deleteVercelDeployments sim_env token_only acme (scene front_delete_refused, [])
     = (Throw "Failed to delete Vercel project: 403 Forbidden",
        snd (deleteVercelProject sim_env token_only acme_front "vercel-token"
               (scene front_delete_refused, [])))
  /\ exists ok,
       In {| ev_call := GitHubDelete "octo" "segment-demo-acme"; ev_ok := ok |}
          (calls_of (run (delete_demo_route sim_env token_only (Some "d1") (Some "gh-token"))
                         (scene front_delete_refused))).
Proof.
  split; [reflexivity|]. split; [vm_compute; reflexivity|].
  split; [vm_compute; reflexivity|]. split; [vm_compute; reflexivity|].
  split.
  - apply (proj1 (deployments_deleted_in_sequence sim_env token_only acme
                    acme_front acme_back (scene front_delete_refused, [])
                    eq_refl eq_refl eq_refl)).
    vm_compute; reflexivity.
  - apply (proj2 (proj2 (deployments_deleted_in_sequence sim_env token_only acme
                           acme_front acme_back (scene front_delete_refused, [])
                           eq_refl eq_refl eq_refl))
                 (Some "d1") (Some "gh-token") (scene front_delete_refused)
                 (scene front_delete_refused) "octo" "segment-demo-acme");
      vm_compute; reflexivity.
Defined.

Lemma delete_deployments_status_witness :
  truthy (Some "d1") = true
  /\ db_select_single sim_env "d1" (scene front_delete_refused)
     = ((Some acme, None), scene front_delete_refused)
  /\ status_of (value_of (run (delete_vercel_deployments_route sim_env token_only (Some "d1"))
                              (scene front_delete_refused)))
     = Some (if existsb fatal
                  (calls_of (run (delete_vercel_deployments_route sim_env token_only (Some "d1"))
                                 (scene front_delete_refused)))
             then 500 else 200).
Proof.
  split; [reflexivity|]. split; [vm_compute; reflexivity|].
  apply (delete_deployments_status sim_env token_only (Some "d1") acme
           (scene front_delete_refused) (scene front_delete_refused));
    vm_compute; reflexivity.
Defined.

Lemma repeated_deprovisioning_witness :
  (status_of (value_of (run (delete_demo_data_route sim_env (Some "d1") (Some "gh-token"))
                            (scene no_faults)))
   = Some 200
   /\ exists w',
        run (delete_demo_data_route sim_env (Some "d1") (Some "gh-token"))
            (world_of (run (delete_demo_data_route sim_env (Some "d1") (Some "gh-token"))
                           (scene no_faults)))
        = (Ret {| status := 404; json := JError "Demo not found" None |},
           (w', [fetched (Some "d1") false])))
  /\ (status_of (value_of (run (delete_demo_route sim_env token_only (Some "d1") (Some "gh-token"))
                               (scene no_faults)))
      = Some 200
      /\ exists w',
           run (delete_demo_route sim_env token_only (Some "d1") (Some "gh-token"))
               (world_of (run (delete_demo_route sim_env token_only (Some "d1") (Some "gh-token"))
                              (scene no_faults)))
           = (Ret {| status := 404; json := JError "Demo not found" None |},
              (w', [fetched (Some "d1") false])))
  /\ (team_projects cleared_scene = [] /\ personal_projects cleared_scene = []
      /\ faulty cleared_scene (RqList Personal) = false
      /\ truthy (Some "d1") = true
      /\ sim_select "d1" cleared_scene = ((Some acme, None), cleared_scene)
      /\ status_of (value_of (run (delete_vercel_deployments_route sim_env token_only (Some "d1"))
                                  cleared_scene))
         = Some 200
      /\ world_of (run (delete_vercel_deployments_route sim_env token_only (Some "d1"))
                       cleared_scene)
         = cleared_scene).
Proof.
  split; [|split].
  - split; [vm_compute; reflexivity|].
    apply (proj1 (repeated_deprovisioning token_only (scene no_faults)
                    (Some "d1") (Some "gh-token"))).
    vm_compute; reflexivity.
  - split; [vm_compute; reflexivity|].
    apply (proj1 (proj2 (repeated_deprovisioning token_only (scene no_faults)
                           (Some "d1") (Some "gh-token")))).
    vm_compute; reflexivity.
  - split; [reflexivity|]. split; [reflexivity|]. split; [reflexivity|].
    split; [reflexivity|]. split; [vm_compute; reflexivity|].
    pose proof (proj1 (proj2 (proj2 (repeated_deprovisioning token_only cleared_scene
                                       (Some "d1") None)))
                      acme eq_refl eq_refl eq_refl eq_refl eq_refl) as H.
    split; [exact (proj1 H) | exact (proj1 (proj2 H))].
Defined.

Lemma delete_data_record_delete_last_witness :
  truthy (Some "d1") = true
  /\ db_select_single sim_env "d1" (scene repo_delete_refused)
     = ((Some acme, None), scene repo_delete_refused)
  /\ exists gh w2 deleteError w3,
       snd (github_step sim_env acme (Some "gh-token")
              (scene repo_delete_refused, [fetched (Some "d1") true]))
       = (w2, ([fetched (Some "d1") true] ++ gh)%list)
       /\ forallb code_host_event gh = true
       /\ db_delete_eq sim_env "d1" w2 = (deleteError, w3)
       /\ run (delete_demo_data_route sim_env (Some "d1") (Some "gh-token"))
              (scene repo_delete_refused)
          = (Ret (match deleteError with
                  | None => {| status := 200;
                               json := JSuccess "Demo data deleted successfully" |}
                  | Some _ => {| status := 500;
                                 json := JError "Failed to delete demo data"
                                                (Some "Unknown error") |}
                  end),
             (w3, ([fetched (Some "d1") true] ++ gh
                   ++ [record_deleted (Some "d1") (negb (is_some deleteError))])%list))
       /\ status_of (value_of (run (delete_demo_data_route sim_env (Some "d1")
                                      (Some "gh-token"))
                                   (scene repo_delete_refused)))
          = Some (if negb (is_some deleteError) then 200 else 500).
Proof.
  split; [reflexivity|]. split; [vm_compute; reflexivity|].
  apply (delete_data_record_delete_last sim_env (Some "d1") (Some "gh-token") acme
           (scene repo_delete_refused) (scene repo_delete_refused));
    vm_compute; reflexivity.
Defined.

Lemma delete_all_order_witness :
  nth_error (calls_of (run (delete_demo_route sim_env token_only (Some "d1") (Some "gh-token"))
                           (scene no_faults))) 4
  = Some {| ev_call := VercelDeleteById Personal "prj_back"; ev_ok := true |}
  /\ nth_error (calls_of (run (delete_demo_route sim_env token_only (Some "d1") (Some "gh-token"))
                              (scene no_faults))) 5
     = Some {| ev_call := GitHubDelete "octo" "segment-demo-acme"; ev_ok := true |}
  /\ stage (VercelDeleteById Personal "prj_back")
     < stage (GitHubDelete "octo" "segment-demo-acme")
  /\ 4 < 5
  /\ truthy (Some "d1") = true /\ truthy (Some "gh-token") = true
  /\ db_select_single sim_env "d1" (scene no_faults) = ((Some acme, None), scene no_faults)
  /\ exists vs gh b,
       calls_of (run (delete_demo_route sim_env token_only (Some "d1") (Some "gh-token"))
                     (scene no_faults))
       = ([fetched (Some "d1") true] ++ vs ++ gh ++ [record_deleted (Some "d1") b])%list
       /\ forallb deploy_host_event vs = true
       /\ forallb code_host_event gh = true.
Proof.
  split; [vm_compute; reflexivity|]. split; [vm_compute; reflexivity|].
  split; [vm_compute; lia|]. split.
  - apply (proj1 (delete_all_order sim_env token_only (Some "d1") (Some "gh-token")
                    (scene no_faults)) 4 5
                 {| ev_call := VercelDeleteById Personal "prj_back"; ev_ok := true |}
                 {| ev_call := GitHubDelete "octo" "segment-demo-acme"; ev_ok := true |});
      [vm_compute; reflexivity | vm_compute; reflexivity | vm_compute; lia].
  - split; [reflexivity|]. split; [reflexivity|]. split; [vm_compute; reflexivity|].
    apply (proj2 (delete_all_order sim_env token_only (Some "d1") (Some "gh-token")
                    (scene no_faults)) acme (scene no_faults));
      vm_compute; reflexivity.
Defined.

Lemma delete_data_credential_optional_witness :
  (truthy None = false
   /\ run (delete_demo_data_route sim_env None None) (scene no_faults)
      = (Ret {| status := 400; json := JError "Demo ID is required" None |},
         (scene no_faults, [])))
  /\ (truthy (Some "d1") = true /\ truthy None = false
      /\ db_select_single sim_env "d1" (scene no_faults)
         = ((Some acme, None), scene no_faults)
      /\ exists b,
           calls_of (run (delete_demo_data_route sim_env (Some "d1") None) (scene no_faults))
           = [fetched (Some "d1") true; record_deleted (Some "d1") b]
           /\ status_of (value_of (run (delete_demo_data_route sim_env (Some "d1") None)
                                       (scene no_faults)))
              = Some (if b then 200 else 500))
  /\ exists message,
       run (client_delete_demo_data sim_env (Some "d1") None) (scene no_faults)
       = (Ret {| status := 400; json := JError message None |}, (scene no_faults, [])).
Proof.
  split; [|split].
  - split; [reflexivity|].
    apply (proj1 (delete_data_credential_optional sim_env None None (scene no_faults))).
    reflexivity.
  - split; [reflexivity|]. split; [reflexivity|]. split; [vm_compute; reflexivity|].
    apply (proj1 (proj2 (delete_data_credential_optional sim_env (Some "d1") None
                           (scene no_faults))) acme (scene no_faults));
      vm_compute; reflexivity.
  - apply (proj2 (proj2 (delete_data_credential_optional sim_env (Some "d1") None
                           (scene no_faults)))).
    right. reflexivity.
Defined.

Lemma insert_failure_not_surfaced_witness :
  truthy (customerName acme_params) = true /\ truthy (writeKey acme_params) = true
  /\ truthy (profileToken acme_params) = true /\ truthy (unifySpaceId acme_params) = true
  /\ truthy (githubToken acme_params) = true /\ truthy (supabaseUserId acme_params) = true
  /\ run_generateDemo sim_env acme_params generating = (inl acme_result, generating)
  /\ fst (db_insert sim_env
            {| user_id := "user-1"; customer_name := "Acme"; logo_url := None;
               segment_write_key := "wk"; segment_profile_token := "pt";
               segment_unify_space_id := "sp";
               frontend_url := Some (frontendUrl acme_result);
               backend_url := Some (backendUrl acme_result);
               github_repo_url := Some (githubRepoUrl acme_result) |} generating)
     = Some "record store unavailable"
  /\ value_of (run (generate_demo_route sim_env acme_params) generating)
     = Ret {| status := 200; json := JData acme_result |}.
Proof.
  repeat (split; [vm_compute; reflexivity|]).
  apply (insert_failure_not_surfaced sim_env acme_params acme_result
           generating generating); vm_compute; reflexivity.
Defined.

Lemma missing_token_reports_success_witness :
  truthy (VERCEL_TOKEN no_token) = false
  /\ truthy (Some "d1") = true
  /\ db_select_single sim_env "d1" (scene no_faults) = ((Some acme, None), scene no_faults)
  /\ truthy (frontend_url (demo_cols acme)) || truthy (backend_url (demo_cols acme)) = true
  /\ run (delete_vercel_deployments_route sim_env no_token (Some "d1")) (scene no_faults)
     = (Ret {| status := 200;
               json := JSuccess "Vercel deployments deleted successfully" |},
        (scene no_faults, [fetched (Some "d1") true])).
Proof.
  split; [reflexivity|]. split; [reflexivity|]. split; [vm_compute; reflexivity|].
  split; [vm_compute; reflexivity|].
  apply (missing_token_reports_success sim_env no_token (Some "d1") acme
           (scene no_faults) (scene no_faults)); vm_compute; reflexivity.
Defined.

(** Why the listing has to be cleared for a repeated
    [/delete-vercel-deployments] to delete nothing: with the project of
    another demo of the same customer still listed, the first call deletes
    the two projects of the record and the second call, through the
    customer-name pass, deletes the other demo's project. *)
Lemma second_call_deletes_sibling :
  personal_projects
    (world_of (run (delete_vercel_deployments_route sim_env token_only (Some "d1"))
                   crowded_scene))
  = [sibling]
  /\ personal_projects
       (world_of
          (run (delete_vercel_deployments_route sim_env token_only (Some "d1"))
               (world_of (run (delete_vercel_deployments_route sim_env token_only (Some "d1"))
                              crowded_scene))))
     = []
  /\ value_of
       (run (delete_vercel_deployments_route sim_env token_only (Some "d1"))
            (world_of (run (delete_vercel_deployments_route sim_env token_only (Some "d1"))
                           crowded_scene)))
     = Ret {| status := 200;
              json := JSuccess "Vercel deployments deleted successfully" |}.
Proof. repeat split; vm_compute; reflexivity. Qed.

End Scenarios.

(* ------------------------------------------------------------------ *)
(** ** More on the resolver and on the project search *)

Module SearchFacts.
Import Js Resolver Shape JsFacts ResolverFacts.

Lemma span_inv (ok : ascii -> bool) (s : string) :
  s = (fst (span ok s) ++ snd (span ok s))%string.
Proof.
  induction s as [|a s IH]; simpl; [reflexivity|].
  destruct (ok a); [|reflexivity].
  destruct (span ok s) as [run rest]. simpl in *. now rewrite <- IH.
Qed.

(** A greedy class that meets no other character consumes everything. *)
Lemma span_all (ok : ascii -> bool) (s : string) :
  all_chars ok s = true -> span ok s = (s, EmptyString).
Proof.
  unfold all_chars. induction s as [|a s IH]; simpl; [reflexivity|].
  intros H. apply andb_true_iff in H as [Ha Hs]. now rewrite Ha, (IH Hs).
Qed.

(** A successful search names the position of its match. *)
Lemma search_position {A} (at_pos : string -> option A) (s : string) (a : A) :
  search at_pos s = Some a ->
  exists pre suf, s = (pre ++ suf)%string /\ at_pos suf = Some a.
Proof.
  induction s as [|x s IH]; simpl.
  - destruct (at_pos EmptyString) eqn:E; [|discriminate].
    intros [= <-]. now exists EmptyString, EmptyString.
  - destruct (at_pos (String x s)) eqn:E.
    + intros [= <-]. now exists EmptyString, (String x s).
    + intros H. destruct (IH H) as (pre & suf & -> & Hat).
      now exists (String x pre), suf.
Qed.

(** A match at some position makes the search succeed. *)
Lemma search_some {A} (at_pos : string -> option A) (pre s : string) :
  at_pos s <> None -> search at_pos (pre ++ s) <> None.
Proof.
  intros Hat. induction pre as [|x pre IH]; simpl.
  - destruct s; simpl; destruct (at_pos _); congruence.
  - destruct (at_pos (String x (pre ++ s))); [discriminate | exact IH].
Qed.

Lemma vercel_at_shape (s name : string) :
  vercel_at s = Some name ->
  name <> EmptyString
  /\ exists post, s = ("https://" ++ name ++ ".vercel.app" ++ post)%string.
Proof.
  unfold vercel_at.
  destruct (strip_prefix "https://" s) as [r|] eqn:Hp; [|discriminate].
  pose proof (span_inv not_dot r) as Hr.
  destruct (span not_dot r) as [run rest]. cbn [fst snd] in Hr.
  destruct (negb (is_empty run)) eqn:Hne; [|discriminate]. cbn [andb].
  destruct (starts_with ".vercel.app" rest) eqn:Hs; [|discriminate].
  intros [= <-]. split.
  - destruct run; [discriminate | discriminate].
  - apply starts_with_inv in Hs as (post & ->).
    exists post. apply strip_prefix_inv in Hp. now rewrite Hp, Hr.
Qed.

(** X1.  What [extractProjectNameFromUrl] returns is never empty and
    stands in the URL between [https://] and [.vercel.app]. *)
Theorem extract_sound (url name : string) :
  extractProjectNameFromUrl url = Some name ->
  name <> EmptyString
  /\ exists pre post,
       url = (pre ++ "https://" ++ name ++ ".vercel.app" ++ post)%string.
Proof.
  unfold extractProjectNameFromUrl. intros H.
  apply search_position in H as (pre & suf & -> & Hat).
  apply vercel_at_shape in Hat as (Hne & post & ->).
  split; [assumption|]. now exists pre, post.
Qed.

Lemma vercel_at_accepts (name rest : string) :
  name <> EmptyString -> dot_free name = true ->
  vercel_at ("https://" ++ name ++ ".vercel.app" ++ rest) = Some name.
Proof.
  intros Hne Hfree. unfold vercel_at. rewrite strip_prefix_app.
  change (".vercel.app" ++ rest)%string
    with (String "." ("vercel.app" ++ rest)%string).
  rewrite span_stop by (assumption || reflexivity).
  destruct name; [contradiction|].
  change (String "." ("vercel.app" ++ rest)%string)
    with (".vercel.app" ++ rest)%string.
  now rewrite starts_with_app.
Qed.

(** X2.  A URL that starts with [https://{name}.vercel.app], the name not
    empty and without a dot, resolves to that name whatever follows (a
    path, a query); and a URL that holds such a part anywhere resolves to
    some name. *)
Theorem extract_accepts (name : string) :
  name <> EmptyString -> dot_free name = true ->
  (forall rest,
      extractProjectNameFromUrl ("https://" ++ name ++ ".vercel.app" ++ rest)
      = Some name)
  /\ (forall pre rest,
         extractProjectNameFromUrl
           (pre ++ "https://" ++ name ++ ".vercel.app" ++ rest) <> None).
Proof.
  intros Hne Hfree. split.
  - intros rest. apply search_here. now apply vercel_at_accepts.
  - intros pre rest. unfold extractProjectNameFromUrl. apply search_some.
    now rewrite vercel_at_accepts.
Qed.

Lemma github_at_shape (s owner repo : string) :
  github_at s = Some (owner, repo) ->
  owner <> EmptyString /\ repo <> EmptyString
  /\ slash_free owner = true /\ slash_free repo = true
  /\ exists post,
       s = ("https://github.com/" ++ owner ++ "/" ++ repo ++ post)%string.
Proof.
  unfold github_at.
  destruct (strip_prefix "https://github.com/" s) as [r|] eqn:Hp; [|discriminate].
  pose proof (span_inv not_slash r) as Hr.
  pose proof (span_run_ok not_slash r) as Ho.
  destruct (span not_slash r) as [o rest]. cbn [fst snd] in Hr, Ho.
  destruct rest as [|c rest']; [discriminate|].
  destruct c as [[] [] [] [] [] [] [] []]; try discriminate.
  pose proof (span_inv not_slash rest') as Hr'.
  pose proof (span_run_ok not_slash rest') as Hrp.
  destruct (span not_slash rest') as [rp post]. cbn [fst snd] in Hr', Hrp.
  destruct o as [|a o]; [discriminate|].
  destruct rp as [|b rp]; [discriminate|].
  cbn [is_empty negb andb]. intros [= <- <-].
  repeat split; try discriminate; try assumption.
  exists post. apply strip_prefix_inv in Hp. rewrite Hp, Hr, Hr'.
  reflexivity.
Qed.

(** X3.  What the regular expression of [deleteGitHubRepo] extracts: an
    owner and a repository name, both not empty and without a slash, that
    stand in the URL after [https://github.com/], separated by a slash. *)
Theorem github_match_sound (url owner repo : string) :
  matchGitHubRepoUrl url = Some (owner, repo) ->
  owner <> EmptyString /\ repo <> EmptyString
  /\ slash_free owner = true /\ slash_free repo = true
  /\ exists pre post,
       url = (pre ++ "https://github.com/" ++ owner ++ "/" ++ repo ++ post)%string.
Proof.
  unfold matchGitHubRepoUrl. intros H.
  apply search_position in H as (pre & suf & -> & Hat).
  apply github_at_shape in Hat as (Ho & Hr & So & Sr & post & ->).
  repeat split; try assumption. now exists pre, post.
Qed.

(** X4.  The URL [https://github.com/{owner}/{repo}] of a repository, as it
    is or followed by a path, is taken apart into exactly that owner and
    that name, both not empty and without a slash. *)
Theorem github_match_roundtrip (owner repo : string) :
  owner <> EmptyString -> repo <> EmptyString ->
  slash_free owner = true -> slash_free repo = true ->
  matchGitHubRepoUrl ("https://github.com/" ++ owner ++ "/" ++ repo)
  = Some (owner, repo)
  /\ forall path,
       matchGitHubRepoUrl ("https://github.com/" ++ owner ++ "/" ++ repo ++ "/" ++ path)
       = Some (owner, repo).
Proof.
  intros Ho Hr So Sr. unfold matchGitHubRepoUrl. split.
  - apply search_here. unfold github_at. rewrite strip_prefix_app.
    change ("/" ++ repo)%string with (String "/" repo).
    rewrite span_stop by (assumption || reflexivity).
    rewrite span_all by assumption.
    destruct owner; [contradiction|]. destruct repo; [contradiction|].
    reflexivity.
  - intros path. apply search_here. unfold github_at. rewrite strip_prefix_app.
    change ("/" ++ repo ++ "/" ++ path)%string
      with (String "/" (repo ++ String "/" path)).
    rewrite span_stop by (assumption || reflexivity).
    rewrite span_stop by (assumption || reflexivity).
    destruct owner; [contradiction|]. destruct repo; [contradiction|].
    reflexivity.
Qed.

Lemma find_some_test {A} (f : A -> bool) (l : list A) (a : A) :
  find f l = Some a -> In a l /\ f a = true.
Proof. apply find_some. Qed.

Lemma fuzzy_tests (target : string) (listing : list project) :
  (forall p, findProjectFuzzy target listing = Some p ->
             In p listing /\ any_test target p = true)
  /\ (findProjectFuzzy target listing = None <->
      forall p, In p listing -> any_test target p = false).
Proof.
  unfold findProjectFuzzy, any_test.
  destruct (exact_pass target listing) as [q|] eqn:E1.
  { apply find_some_test in E1 as [Hin Ht]. split.
    - intros p [= <-]. split; [assumption|].
      unfold exact_test. now rewrite Ht.
    - split; [discriminate|]. intros H. specialize (H q Hin).
      unfold exact_test in H. rewrite Ht in H. discriminate. }
  destruct (partial_pass target listing) as [q|] eqn:E2.
  { apply find_some_test in E2 as [Hin Ht]. split.
    - intros p [= <-]. split; [assumption|].
      unfold partial_test. rewrite Ht. now rewrite orb_true_r.
    - split; [discriminate|]. intros H. specialize (H q Hin).
      unfold partial_test in H. rewrite Ht, orb_true_r in H. discriminate. }
  unfold customer_pass, customer_test.
  destruct (truthy (Some (customerNameOf target))) eqn:Hc.
  - destruct (find (fun p => includes (p_name p) (customerNameOf target)) listing)
      as [q|] eqn:E3.
    + apply find_some_test in E3 as [Hin Ht]. split.
      * intros p [= <-]. split; [assumption|]. rewrite Ht. now rewrite orb_true_r.
      * split; [discriminate|]. intros H. specialize (H q Hin).
        rewrite Ht, orb_true_r in H. discriminate.
    + split; [discriminate|]. split; [|reflexivity]. intros _ p Hin.
      pose proof (find_none _ _ E1 p Hin) as H1.
      pose proof (find_none _ _ E2 p Hin) as H2.
      pose proof (find_none _ _ E3 p Hin) as H3.
      cbn beta in H1, H2, H3. unfold exact_test, partial_test.
      now rewrite H1, H2, H3.
  - split; [discriminate|]. split; [|reflexivity]. intros _ p Hin.
    pose proof (find_none _ _ E1 p Hin) as H1.
    pose proof (find_none _ _ E2 p Hin) as H2.
    cbn beta in H1, H2. unfold exact_test, partial_test.
    now rewrite H1, H2.
Qed.

(** X5.  The project search returns only a project of the listing that
    passes one of its three tests, and it returns one whenever a listed
    project passes a test. *)
Theorem findProjectFuzzy_sound_complete (target : string) (listing : list project) :
  (forall p, findProjectFuzzy target listing = Some p ->
             In p listing /\ any_test target p = true)
  /\ (findProjectFuzzy target listing = None <->
      forall p, In p listing -> any_test target p = false).
Proof. exact (fuzzy_tests target listing). Qed.

(** X6.  The search crosses demos: looking for a generated name of a
    customer in a listing that holds only the project of another demo of
    the same customer (same slug, any role, any suffix) selects that other
    project. *)
Theorem search_selects_other_demo
        (slug : string) (r r' : role) (suffix suffix' projectId : string) :
  slug <> EmptyString -> base36 suffix = true ->
  findProjectFuzzy (generatedName slug r suffix)
    [ {| p_name := generatedName slug r' suffix'; p_id := projectId |} ]
  = Some {| p_name := generatedName slug r' suffix'; p_id := projectId |}.
Proof.
  intros Hslug H36.
  set (other := {| p_name := generatedName slug r' suffix'; p_id := projectId |}).
  assert (Hkey : customerNameOf (generatedName slug r suffix) = slug).
  { apply customerNameOf_generated.
    exact (all_chars_weaken _ _ _ base36_not_dash H36). }
  assert (Htest : any_test (generatedName slug r suffix) other = true).
  { unfold any_test, customer_test. rewrite Hkey.
    replace (truthy (Some slug)) with true
      by (destruct slug; [contradiction | reflexivity]).
    unfold other, generatedName, projectNameFor. cbn [p_name andb].
    rewrite !append_assoc.
    rewrite (includes_middle "segment-demo-" slug). apply orb_true_r. }
  destruct (findProjectFuzzy (generatedName slug r suffix) [other]) as [p|] eqn:E.
  - apply (proj1 (fuzzy_tests _ _)) in E as [[<-|[]] _].
    reflexivity.
  - pose proof (proj1 (proj2 (fuzzy_tests _ _)) E other (or_introl eq_refl)) as Hno.
    congruence.
Qed.

End SearchFacts.

(* ------------------------------------------------------------------ *)
(** ** More on the deletion helpers *)

Module MoreHelperFacts.
Import Js Resolver Server Capture Shape JsFacts ResolverFacts HelperFacts.

Ltac by_reply :=
  repeat match goal with
         | H : ?op = (_, _) |- context [?op] => rewrite H
         end;
  cbn [fst snd list_ok delete_ok]; reflexivity.

Ltac close_tied pre :=
  split; [reflexivity|]; split; [discriminate|]; split; [cbn; lia|];
  split; [reflexivity|];
  first [ left; split; reflexivity
        | right; exists pre; do 5 eexists;
          split; [reflexivity|];
          split; [first [ left; split; reflexivity
                        | right; eexists; eexists; split; [reflexivity | by_reply] ]|];
          split; [eassumption|];
          first [ left; split; [eassumption | by_reply]
                | right; eexists; split; [eassumption | by_reply] ] ].

Ltac split_tied :=
  match goal with
  | |- exists ls ds, (_ ++ [?a])%list = _ /\ _ =>
      first [ solve [exists [a], []; close_tied (@nil event)] ]
  | |- exists ls ds, (_ ++ [?a; ?b])%list = _ /\ _ =>
      first [ solve [exists [a; b], []; close_tied [a]]
            | solve [exists [a], [b]; close_tied (@nil event)] ]
  | |- exists ls ds, (_ ++ [?a; ?b; ?c])%list = _ /\ _ =>
      first [ solve [exists [a; b; c], []; close_tied [a; b]]
            | solve [exists [a; b], [c]; close_tied [a]] ]
  end.

Section Helpers.
Context {W : Type}.
Variable env : Env W.
Variable cfg : process_env.

(** X7.  One run of [deleteVercelProject] issues one or two listing calls
    and then at most one deletion.  Without a deletion the run has thrown.
    A deletion comes directly after the last listing, which succeeded, and
    goes to the scope of that listing, in the world that listing left: by
    the id of the project the search finds among the listed projects, or,
    when it finds none, by the literal project name; its flag is what the
    deploy host answers to that call. *)
Theorem project_deletion_calls (name token : string) (s : @state W) :
  exists ls ds,
    snd (snd (deleteVercelProject env cfg name token s)) = (snd s ++ ls ++ ds)%list
    /\ ls <> [] /\ length ls <= 2 /\ forallb listing_event ls = true
    /\ ((ds = [] /\ is_throw (fst (deleteVercelProject env cfg name token s)) = true)
        \/ exists pre sc w0 line ps w1,
             ls = (pre ++ [{| ev_call := VercelList sc; ev_ok := true |}])%list
             /\ ((pre = [] /\ w0 = fst s)
                 \/ exists first_scope first_ok,
                      pre = [{| ev_call := VercelList first_scope; ev_ok := first_ok |}]
                      /\ w0 = snd (vercel_get_projects env first_scope token (fst s)))
             /\ vercel_get_projects env sc token w0 = (ListResponse true line ps, w1)
             /\ ((findProjectFuzzy name ps = None
                  /\ ds = [{| ev_call := VercelDeleteByName sc name;
                              ev_ok := delete_ok (fst (vercel_delete_project
                                                         env sc name token w1)) |}])
                 \/ exists project,
                      findProjectFuzzy name ps = Some project
                      /\ ds = [{| ev_call := VercelDeleteById sc (p_id project);
                                  ev_ok := delete_ok (fst (vercel_delete_project
                                                             env sc (p_id project)
                                                             token w1)) |}])).
Proof.
  destruct s as [w tr]. unfold deleteVercelProject, delete_scope. unfold_monad.
  repeat (cbn [fst snd]; case_step).
  all: cbn [fst snd is_throw list_ok delete_ok].
  all: repeat match goal with b : bool |- _ => destruct b end; try discriminate.
  all: rewrite <- ?app_assoc; cbn [app].
  all: split_tied.
Qed.

Lemma deleteVercelProject_scopes (name token : string) (s : @state W) :
  exists evs,
    snd (snd (deleteVercelProject env cfg name token s)) = (snd s ++ evs)%list
    /\ Forall (configured_scope cfg) evs.
Proof.
  destruct s as [w tr]. unfold deleteVercelProject, delete_scope. unfold_monad.
  repeat (cbn [fst snd]; case_step);
    (eexists; split;
     [ cbn [fst snd]; rewrite <- ?app_assoc; cbn [app]; reflexivity
     | repeat (apply Forall_cons;
               [ unfold configured_scope; cbn;
                 first [ left; reflexivity
                       | right; split; [assumption | reflexivity] ] | ]);
       apply Forall_nil ]).
Qed.

(** X8.  Every call of [deleteVercelProject] is addressed to the personal
    scope or to the team of [VERCEL_TEAM_ID]; without a team id, to the
    personal scope only. *)
Theorem project_deletion_scopes (name token : string) (s : @state W) :
  exists evs,
    snd (snd (deleteVercelProject env cfg name token s)) = (snd s ++ evs)%list
    /\ Forall (configured_scope cfg) evs
    /\ (truthy (VERCEL_TEAM_ID cfg) = false -> forallb personal_event evs = true).
Proof.
  destruct (deleteVercelProject_scopes name token s) as (evs & Htr & Hsc).
  exists evs. split; [assumption|]. split; [assumption|].
  intros Hno. apply forallb_forall. intros e He.
  rewrite Forall_forall in Hsc. destruct (Hsc e He) as [Hp|[Ht _]].
  - unfold personal_event. now rewrite Hp.
  - congruence.
Qed.

(** A personal listing whose request rejects: the error thrown on names
    the rejection as [`${error}`] prints it, e.g. [TypeError: fetch
    failed]. *)
Lemma personal_listing_rejected (name token : string) (e : thrown)
      (w w1 : W) (tr : list event) :
  truthy (VERCEL_TEAM_ID cfg) = false ->
  vercel_get_projects env Personal token w = (ListRejected e, w1) ->
  deleteVercelProject env cfg name token (w, tr)
  = (Throw (new_Error ("Failed to fetch Vercel projects: " ++ render_error e)),
     (w1, (tr ++ [{| ev_call := VercelList Personal; ev_ok := false |}])%list)).
Proof.
  intros Hteam Hlist. unfold deleteVercelProject. unfold_monad.
  rewrite Hteam. cbn [length Nat.eqb fst snd]. rewrite Hlist. reflexivity.
Qed.

(** The repository step makes no call for a URL that the regular
    expression does not match. *)
Lemma github_step_no_match (d : demo) (githubToken : option string) (s : @state W) :
  matchGitHubRepoUrl (or_empty (github_repo_url (demo_cols d))) = None ->
  github_step env d githubToken s = (Ret tt, s).
Proof.
  intros Hno. destruct s as [w tr]. unfold github_step, deleteGitHubRepo.
  destruct (truthy (github_repo_url (demo_cols d)) && truthy githubToken);
    [|reflexivity].
  unfold_monad. now rewrite Hno.
Qed.

Lemma github_step_skipped (d : demo) (githubToken : option string) (s : @state W) :
  truthy (github_repo_url (demo_cols d)) && truthy githubToken = false ->
  github_step env d githubToken s = (Ret tt, s).
Proof. intros Hno. unfold github_step. now rewrite Hno. Qed.

(** Without a project name on either side [deleteVercelDeployments]
    returns at once. *)
Lemma deleteVercelDeployments_no_names (d : demo) (s : @state W) :
  project_of_url (frontend_url (demo_cols d)) = None ->
  project_of_url (backend_url (demo_cols d)) = None ->
  deleteVercelDeployments env cfg d s = (Ret tt, s).
Proof.
  intros Hf Hb. unfold deleteVercelDeployments.
  destruct (negb (truthy (VERCEL_TOKEN cfg))); [reflexivity|].
  now rewrite Hf, Hb.
Qed.

End Helpers.
End MoreHelperFacts.

(* ------------------------------------------------------------------ *)
(** ** More on the routes, over any environment *)

Module MoreRouteFacts.
Import Js Resolver Server Capture Shape JsFacts ResolverFacts HelperFacts
       RouteFacts MoreHelperFacts.

Section Routes.
Context {W : Type}.
Variable env : Env W.
Variable cfg : process_env.

Lemma status_of_answers (r : outcome response * @state W) (n : nat) :
  status_of (fst r) = Some n -> known_status n = true -> answers r.
Proof.
  destruct r as [[resp|e] s]; cbn; [|discriminate].
  intros [= <-] Hk. now exists resp.
Qed.

Lemma delete_vercel_deployments_not_found (demoId : option string)
      (r : option demo * option string) (w w1 : W) :
  truthy demoId = true ->
  db_select_single env (or_empty demoId) w = (r, w1) -> lookup_failed r ->
  run (delete_vercel_deployments_route env cfg demoId) w
  = (Ret {| status := 404; json := JError "Demo not found" None |},
     (w1, [fetched demoId false])).
Proof.
  intros Hid Hsel Hfail. unfold run, delete_vercel_deployments_route.
  rewrite Hid. cbn [negb]. unfold_route. rewrite Hsel.
  destruct r as [[d|] [e|]]; try contradiction; reflexivity.
Qed.

(** The three outcomes of the lookup. *)
Lemma lookup_cases (r : option demo * option string) :
  (exists d, r = (Some d, None)) \/ lookup_failed r.
Proof. destruct r as [[d|] [e|]]; cbn; eauto. Qed.

Lemma delete_vercel_deployments_answers (demoId : option string) (w : W) :
  answers (run (delete_vercel_deployments_route env cfg demoId) w)
  /\ forallb (fun e => lookup_event e || deploy_host_event e)
       (calls_of (run (delete_vercel_deployments_route env cfg demoId) w)) = true.
Proof.
  destruct (truthy demoId) eqn:Hid.
  - destruct (db_select_single env (or_empty demoId) w) as [r w1] eqn:Hsel.
    destruct (lookup_cases r) as [[d ->]|Hfail].
    + destruct (delete_vercel_deployments_run env cfg demoId d w w1 Hid Hsel)
        as (vs & Hcalls & Hvs & Hstatus & _).
      cbv zeta in Hcalls, Hstatus. split.
      * apply (status_of_answers _ _ Hstatus). now destruct (existsb fatal vs).
      * rewrite Hcalls, forallb_app. cbn [forallb fetched lookup_event ev_call orb andb].
        apply forallb_forall. intros e He.
        rewrite forallb_forall in Hvs. rewrite (Hvs e He). apply orb_true_r.
    + rewrite (delete_vercel_deployments_not_found demoId r w w1 Hid Hsel Hfail).
      split; [eexists; split; reflexivity | reflexivity].
  - unfold run, delete_vercel_deployments_route. rewrite Hid.
    split; [eexists; split; reflexivity | reflexivity].
Qed.

Lemma delete_demo_data_answers (demoId githubToken : option string) (w : W) :
  answers (run (delete_demo_data_route env demoId githubToken) w)
  /\ forallb (fun e => negb (deploy_host_event e))
       (calls_of (run (delete_demo_data_route env demoId githubToken) w)) = true.
Proof.
  destruct (truthy demoId) eqn:Hid.
  - destruct (db_select_single env (or_empty demoId) w) as [r w1] eqn:Hsel.
    destruct (lookup_cases r) as [[d ->]|Hfail].
    + destruct (delete_demo_data_run env demoId githubToken d w w1 Hid Hsel)
        as (gh & b & Hcalls & _ & Hgh & Hstatus & _).
      cbv zeta in Hcalls, Hstatus. split.
      * apply (status_of_answers _ _ Hstatus). now destruct b.
      * rewrite Hcalls, !forallb_app. cbn. rewrite andb_true_r.
        apply forallb_forall. intros e He.
        rewrite forallb_forall in Hgh. specialize (Hgh e He).
        unfold code_host_event, deploy_host_event in *.
        destruct (ev_call e); cbn in *; congruence.
    + rewrite (delete_demo_data_not_found env demoId githubToken r w w1 Hid Hsel Hfail).
      split; [eexists; split; reflexivity | reflexivity].
  - unfold run, delete_demo_data_route. rewrite Hid.
    split; [eexists; split; reflexivity | reflexivity].
Qed.

Lemma delete_demo_answers (demoId githubToken : option string) (w : W) :
  answers (run (delete_demo_route env cfg demoId githubToken) w).
Proof.
  destruct (truthy demoId) eqn:Hid; [destruct (truthy githubToken) eqn:Htok|].
  - destruct (db_select_single env (or_empty demoId) w) as [r w1] eqn:Hsel.
    destruct (lookup_cases r) as [[d ->]|Hfail].
    + destruct (delete_demo_run env cfg demoId githubToken d w w1 Hid Htok Hsel)
        as (vs & gh & b & _ & _ & _ & _ & Hstatus & _).
      cbv zeta in Hstatus.
      apply (status_of_answers _ _ Hstatus). now destruct b.
    + rewrite (delete_demo_not_found env cfg demoId githubToken r w w1
                 Hid Htok Hsel Hfail).
      eexists; split; reflexivity.
  - unfold run, delete_demo_route. rewrite Hid, Htok.
    eexists; split; reflexivity.
  - unfold run, delete_demo_route. rewrite Hid.
    eexists; split; reflexivity.
Qed.

Lemma generate_demo_answers (p : demo_params) (w : W) :
  answers (run (generate_demo_route env p) w).
Proof.
  unfold run, generate_demo_route. unfold_route.
  repeat (cbn [fst snd]; case_step); eexists; split; reflexivity.
Qed.

(** What [/test-vercel] answers once the credential is configured. *)
Lemma test_vercel_run (w : W) :
  truthy (VERCEL_TOKEN cfg) = true ->
  exists used ps,
    value_of (run (test_vercel_route env cfg) w)
    = Ret {| status := 200;
             json := JTest (0 <? length ps)%nat used (length ps) ps |}
    /\ endpoint_name used
    /\ (ps <> [] -> used <> EmptyString)
    /\ (truthy (VERCEL_TEAM_ID cfg) = false -> used <> "team")
    /\ forallb listing_event (calls_of (run (test_vercel_route env cfg) w)) = true
    /\ 1 <= length (calls_of (run (test_vercel_route env cfg) w)) <= 2.
Proof.
  intros Htok. unfold run, value_of, calls_of, test_vercel_route, endpoint_name.
  rewrite Htok. cbn [negb]. unfold_monad.
  repeat (cbn [fst snd length Nat.eqb]; case_step);
    (eexists; eexists; split; [reflexivity|]);
    cbn [fst snd app length forallb listing_event listing_call ev_call andb];
    (split; [tauto|]);
    (split; [intros Hne; first [discriminate | congruence]|]);
    (split; [intros Hne; first [discriminate | congruence]|]);
    (split; [reflexivity | lia]).
Qed.

Lemma test_vercel_answers (w : W) :
  answers (run (test_vercel_route env cfg) w).
Proof.
  destruct (truthy (VERCEL_TOKEN cfg)) eqn:Htok.
  - destruct (test_vercel_run w Htok) as (used & ps & Hval & _).
    unfold value_of in Hval. eexists. split; [exact Hval | reflexivity].
  - unfold run, test_vercel_route. rewrite Htok.
    eexists; split; reflexivity.
Qed.

Lemma client_delete_demo_data_run (demoId githubToken : option string) (w : W) :
  truthy demoId = true -> truthy githubToken = true ->
  exists resp,
    value_of (run (delete_demo_data_route env demoId githubToken) w) = Ret resp
    /\ run (client_delete_demo_data env demoId githubToken) w
       = (Ret {| status := status resp;
                 json := if (status resp =? 200)%nat then json resp
                         else JError (error_or (json resp) "Failed to delete demo data")
                                     None |},
          snd (run (delete_demo_data_route env demoId githubToken) w)).
Proof.
  intros Hid Htok.
  destruct (delete_demo_data_answers demoId githubToken w)
    as ((resp & Hret & Hknown) & _).
  exists resp. split; [exact Hret|].
  unfold run in *. unfold client_delete_demo_data. rewrite Hid, Htok.
  cbn [negb]. unfold_route.
  destruct (delete_demo_data_route env demoId githubToken (w, [])) as [o s1].
  cbn [fst snd] in *. subst o. unfold response_ok.
  unfold known_status in Hknown.
  destruct (status resp =? 200)%nat eqn:E200.
  - apply Nat.eqb_eq in E200. rewrite E200. reflexivity.
  - cbn [orb] in Hknown.
    destruct (status resp =? 400)%nat eqn:E400;
      [apply Nat.eqb_eq in E400; rewrite E400; reflexivity|].
    destruct (status resp =? 404)%nat eqn:E404;
      [apply Nat.eqb_eq in E404; rewrite E404; reflexivity|].
    cbn [orb] in Hknown. apply Nat.eqb_eq in Hknown. rewrite Hknown. reflexivity.
Qed.

(** X9.  No exception escapes a route of the server: each of the five
    routes returns a response, with status 200, 400, 404 or 500, whatever
    the request and whatever the collaborators do. *)
Theorem routes_always_answer
        (demoId githubToken : option string) (p : demo_params) (w : W) :
  answers (run (delete_vercel_deployments_route env cfg demoId) w)
  /\ answers (run (delete_demo_data_route env demoId githubToken) w)
  /\ answers (run (delete_demo_route env cfg demoId githubToken) w)
  /\ answers (run (test_vercel_route env cfg) w)
  /\ answers (run (generate_demo_route env p) w).
Proof.
  split; [apply delete_vercel_deployments_answers|].
  split; [apply delete_demo_data_answers|].
  split; [apply delete_demo_answers|].
  split; [apply test_vercel_answers | apply generate_demo_answers].
Qed.

(** X10.  Validation comes before any call: a request without its required
    inputs is answered 400 with an empty capture and an untouched world, by
    [/delete-vercel-deployments] (demo id), [/delete-demo] (demo id and
    code-host credential), [/generate-demo] (the six required fields) and
    [/test-vercel] (the deploy-host credential of the process). *)
Theorem validation_before_any_call
        (demoId githubToken : option string) (p : demo_params) (w : W) :
  (truthy demoId = false ->
   run (delete_vercel_deployments_route env cfg demoId) w
   = (Ret {| status := 400; json := JError "Demo ID is required" None |}, (w, [])))
  /\ (truthy demoId = false \/ truthy githubToken = false ->
      run (delete_demo_route env cfg demoId githubToken) w
      = (Ret {| status := 400;
                json := JError "Demo ID and GitHub token are required" None |},
         (w, [])))
  /\ (truthy (customerName p) = false \/ truthy (writeKey p) = false
      \/ truthy (profileToken p) = false \/ truthy (unifySpaceId p) = false
      \/ truthy (Server.githubToken p) = false \/ truthy (supabaseUserId p) = false ->
      exists message,
        run (generate_demo_route env p) w
        = (Ret {| status := 400; json := JError message None |}, (w, [])))
  /\ (truthy (VERCEL_TOKEN cfg) = false ->
      run (test_vercel_route env cfg) w
      = (Ret {| status := 400; json := JError "VERCEL_TOKEN not set" None |},
         (w, []))).
Proof.
  split; [|split; [|split]].
  - intros Hid. unfold run, delete_vercel_deployments_route. now rewrite Hid.
  - intros Hmiss. unfold run, delete_demo_route.
    destruct Hmiss as [H|H]; rewrite H; [reflexivity|].
    now rewrite orb_true_r.
  - intros Hmiss. unfold run, generate_demo_route. eexists.
    destruct Hmiss as [H|[H|[H|[H|[H|H]]]]]; rewrite H; cbn [negb];
      rewrite ?orb_true_r; reflexivity.
  - intros Hno. unfold run, test_vercel_route. now rewrite Hno.
Qed.

(** X11.  A demo id that the lookup does not find (no row, or an error of
    the record store) is answered 404 "Demo not found" by the three deletion
    routes, the lookup being the only call. *)
Theorem unknown_demo_is_404
        (demoId githubToken : option string)
        (r : option demo * option string) (w w1 : W) :
  truthy demoId = true ->
  db_select_single env (or_empty demoId) w = (r, w1) -> lookup_failed r ->
  run (delete_vercel_deployments_route env cfg demoId) w
  = (Ret {| status := 404; json := JError "Demo not found" None |},
     (w1, [fetched demoId false]))
  /\ run (delete_demo_data_route env demoId githubToken) w
     = (Ret {| status := 404; json := JError "Demo not found" None |},
        (w1, [fetched demoId false]))
  /\ (truthy githubToken = true ->
      run (delete_demo_route env cfg demoId githubToken) w
      = (Ret {| status := 404; json := JError "Demo not found" None |},
         (w1, [fetched demoId false]))).
Proof.
  intros Hid Hsel Hfail. split; [|split].
  - exact (delete_vercel_deployments_not_found demoId r w w1 Hid Hsel Hfail).
  - exact (delete_demo_data_not_found env demoId githubToken r w w1 Hid Hsel Hfail).
  - intros Htok.
    exact (delete_demo_not_found env cfg demoId githubToken r w w1 Hid Htok Hsel Hfail).
Qed.

(** X12.  The two separate deletions keep apart: whatever the request,
    [/delete-vercel-deployments] issues the lookup and deploy-host calls
    only (never a code-host call, never a record delete), and
    [/delete-demo-data] never issues a deploy-host call. *)
Theorem separate_deletions_keep_apart (demoId githubToken : option string) (w : W) :
  forallb (fun e => lookup_event e || deploy_host_event e)
    (calls_of (run (delete_vercel_deployments_route env cfg demoId) w)) = true
  /\ forallb (fun e => negb (deploy_host_event e))
       (calls_of (run (delete_demo_data_route env demoId githubToken) w)) = true.
Proof.
  split.
  - apply delete_vercel_deployments_answers.
  - apply delete_demo_data_answers.
Qed.

(** X13.  A repository URL that the regular expression of
    [deleteGitHubRepo] does not match, like a missing URL, costs no
    code-host call: after the lookup [/delete-demo-data] goes straight to
    the record delete, which decides the status. *)
Theorem unmatched_repository_url_skipped
        (demoId githubToken : option string) (d : demo) (w w1 : W) :
  truthy demoId = true ->
  db_select_single env (or_empty demoId) w = ((Some d, None), w1) ->
  truthy (github_repo_url (demo_cols d)) = false
  \/ matchGitHubRepoUrl (or_empty (github_repo_url (demo_cols d))) = None ->
  exists b,
    calls_of (run (delete_demo_data_route env demoId githubToken) w)
    = [fetched demoId true; record_deleted demoId b]
    /\ status_of (value_of (run (delete_demo_data_route env demoId githubToken) w))
       = Some (if b then 200 else 500).
Proof.
  intros Hid Hsel Hurl.
  destruct (delete_demo_data_run env demoId githubToken d w w1 Hid Hsel)
    as (gh & b & Hcalls & Hstep & _ & Hstatus & _).
  assert (Hskip : github_step env d githubToken (w1, [fetched demoId true])
                  = (Ret tt, (w1, [fetched demoId true]))).
  { destruct Hurl as [Hno|Hno].
    - apply github_step_skipped. now rewrite Hno.
    - now apply github_step_no_match. }
  rewrite Hskip in Hstep. cbn [fst snd] in Hstep.
  rewrite <- (app_nil_r [fetched demoId true]) in Hstep at 1.
  apply app_inv_head in Hstep. subst gh.
  exists b. auto.
Qed.

(** X14.  When [generateDemo] throws, [/generate-demo] answers 500 with
    the message of the error as details, and the Demo Record is not
    inserted: the generation is the only call. *)
Theorem generation_failure_is_500 (p : demo_params) (message : string) (w w1 : W) :
  truthy (customerName p) = true -> truthy (writeKey p) = true ->
  truthy (profileToken p) = true -> truthy (unifySpaceId p) = true ->
  truthy (Server.githubToken p) = true -> truthy (supabaseUserId p) = true ->
  run_generateDemo env p w = (inr message, w1) ->
  run (generate_demo_route env p) w
  = (Ret {| status := 500;
            json := JError "Failed to generate demo" (Some message) |},
     (w1, [{| ev_call := GenerateDemo p; ev_ok := false |}])).
Proof.
  intros H1 H2 H3 H4 H5 H6 Hgen. unfold run, generate_demo_route.
  rewrite H1, H2, H3, H4, H5, H6. cbn [negb orb]. unfold_route.
  now rewrite Hgen.
Qed.

(** X15.  With the credential configured [/test-vercel] answers 200; the
    project count is the length of the project list and [success] tells
    whether it is positive; [endpointUsed] is empty, "team" or "personal",
    not empty when projects are listed and never "team" without a team id;
    the route issues one or two calls, listings only. *)
Theorem test_vercel_report (w : W) :
  truthy (VERCEL_TOKEN cfg) = true ->
  exists used ps,
    value_of (run (test_vercel_route env cfg) w)
    = Ret {| status := 200;
             json := JTest (0 <? length ps)%nat used (length ps) ps |}
    /\ endpoint_name used
    /\ (ps <> [] -> used <> EmptyString)
    /\ (truthy (VERCEL_TEAM_ID cfg) = false -> used <> "team")
    /\ forallb listing_event (calls_of (run (test_vercel_route env cfg) w)) = true
    /\ 1 <= length (calls_of (run (test_vercel_route env cfg) w)) <= 2.
Proof. exact (test_vercel_run w). Qed.

(** X16.  The client-side route of delete-data, given both parameters,
    forwards the request and answers with the status of the server; on
    200 it passes the body on, otherwise it answers with the server's
    error message alone (the details are dropped).  The calls are those of
    the server route. *)
Theorem client_route_forwards (demoId githubToken : option string) (w : W) :
  truthy demoId = true -> truthy githubToken = true ->
  exists resp,
    value_of (run (delete_demo_data_route env demoId githubToken) w) = Ret resp
    /\ run (client_delete_demo_data env demoId githubToken) w
       = (Ret {| status := status resp;
                 json := if (status resp =? 200)%nat then json resp
                         else JError (error_or (json resp) "Failed to delete demo data")
                                     None |},
          snd (run (delete_demo_data_route env demoId githubToken) w)).
Proof. exact (client_delete_demo_data_run demoId githubToken w). Qed.

(** X17.  In [/delete-demo], after a successful lookup, the record delete
    is the last call: the call of the record store on the world the
    deploy-host and code-host steps left.  What it reports alone decides
    the answer: 200 when it reports no error, 500 "Failed to delete demo"
    when it reports one, whatever the calls before it did. *)
Theorem delete_all_status (demoId githubToken : option string) (d : demo) (w w1 : W) :
  truthy demoId = true -> truthy githubToken = true ->
  db_select_single env (or_empty demoId) w = ((Some d, None), w1) ->
  exists before w2 deleteError w3,
    snd (github_step env d githubToken
           (snd (vercel_step env cfg d (w1, [fetched demoId true]))))
    = (w2, before)
    /\ forallb (fun e => negb (record_delete_event e)) before = true
    /\ db_delete_eq env (or_empty demoId) w2 = (deleteError, w3)
    /\ run (delete_demo_route env cfg demoId githubToken) w
       = (Ret (match deleteError with
               | None => {| status := 200;
                            json := JSuccess "Demo deleted successfully" |}
               | Some _ => {| status := 500;
                              json := JError "Failed to delete demo"
                                             (Some "Unknown error") |}
               end),
          (w3, (before ++ [record_deleted demoId (negb (is_some deleteError))])%list))
    /\ status_of (value_of (run (delete_demo_route env cfg demoId githubToken) w))
       = Some (if negb (is_some deleteError) then 200 else 500).
Proof.
  intros Hid Htok Hsel.
  destruct (vercel_step_capture env cfg d (w1, [fetched demoId true]))
    as (Hret1 & vs & Htr1 & Hvs).
  destruct (vercel_step env cfg d (w1, [fetched demoId true])) as [o1 s1] eqn:Hstep1.
  cbn [fst snd] in *. subst o1.
  destruct (github_step_capture env d githubToken s1)
    as (Hret2 & gh & Htr2 & Hgh & _).
  destruct (github_step env d githubToken s1) as [o2 [w2 before]] eqn:Hstep2.
  cbn [fst snd] in *. subst o2.
  destruct (db_delete_eq env (or_empty demoId) w2) as [deleteError w3] eqn:Hdel.
  assert (Hrun : run (delete_demo_route env cfg demoId githubToken) w
                 = (Ret (match deleteError with
                         | None => {| status := 200;
                                      json := JSuccess "Demo deleted successfully" |}
                         | Some _ => {| status := 500;
                                        json := JError "Failed to delete demo"
                                                       (Some "Unknown error") |}
                         end),
                    (w3, (before
                          ++ [record_deleted demoId (negb (is_some deleteError))])%list))).
  { unfold run, delete_demo_route. rewrite Hid, Htok. cbn [negb orb].
    unfold_route. rewrite Hsel. unfold_route. fold (fetched demoId true).
    rewrite Hstep1, Hstep2. rewrite delete_record_run. cbn [fst snd].
    rewrite Hdel. cbn [fst snd]. unfold record_deleted.
    destruct deleteError; reflexivity. }
  exists before, w2, deleteError, w3.
  split; [reflexivity|]. split.
  { rewrite Htr2, Htr1. rewrite !forallb_app.
    cbn [forallb fetched record_delete_event ev_call negb andb].
    apply andb_true_iff. split; apply forallb_forall; intros e He.
    - rewrite forallb_forall in Hvs. specialize (Hvs e He).
      unfold deploy_host_event, record_delete_event in *.
      destruct (ev_call e); cbn in *; congruence.
    - rewrite forallb_forall in Hgh. specialize (Hgh e He).
      unfold code_host_event, record_delete_event in *.
      destruct (ev_call e); cbn in *; congruence. }
  split; [exact Hdel|]. split; [exact Hrun|].
  rewrite Hrun. unfold value_of. cbn [fst status_of].
  destruct deleteError; reflexivity.
Qed.

(** X18.  A record whose result URLs do not resolve to a project name (no
    [https://{name}.vercel.app] in them) costs no deploy-host call:
    [/delete-vercel-deployments] answers 200 "Vercel deployments deleted
    successfully" after the lookup alone, with or without the credential. *)
Theorem unresolved_urls_report_success (demoId : option string) (d : demo) (w w1 : W) :
  truthy demoId = true ->
  db_select_single env (or_empty demoId) w = ((Some d, None), w1) ->
  truthy (frontend_url (demo_cols d)) || truthy (backend_url (demo_cols d)) = true ->
  project_of_url (frontend_url (demo_cols d)) = None ->
  project_of_url (backend_url (demo_cols d)) = None ->
  run (delete_vercel_deployments_route env cfg demoId) w
  = (Ret {| status := 200;
            json := JSuccess "Vercel deployments deleted successfully" |},
     (w1, [fetched demoId true])).
Proof.
  intros Hid Hsel Hurl Hf Hb. unfold run, delete_vercel_deployments_route.
  rewrite Hid. cbn [negb]. unfold_route. rewrite Hsel. unfold_route.
  rewrite Hurl. now rewrite (deleteVercelDeployments_no_names env cfg d _ Hf Hb).
Qed.

End Routes.
End MoreRouteFacts.

(* ------------------------------------------------------------------ *)
(** ** The generator: names, URLs and commands *)

Module GeneratorNameFacts.
Import Js Resolver Server Generator JsFacts ResolverFacts SearchFacts.

Lemma all_chars_cons (ok : ascii -> bool) (a : ascii) (s : string) :
  all_chars ok (String a s) = ok a && all_chars ok s.
Proof. reflexivity. Qed.

Lemma all_chars_map (ok : ascii -> bool) (f : ascii -> ascii) (s : string) :
  (forall a, ok (f a) = true) -> all_chars ok (map_units f s) = true.
Proof.
  intros Hf. induction s as [|a s IH]; [reflexivity|].
  cbn [map_units]. now rewrite all_chars_cons, Hf, IH.
Qed.

Lemma all_chars_collapse (ok : ascii -> bool) (s : string) :
  all_chars ok s = true -> all_chars ok (collapse_dashes s) = true.
Proof.
  induction s as [|a s IH]; [reflexivity|].
  rewrite all_chars_cons. intros H. apply andb_true_iff in H as [Ha Hs].
  cbn [collapse_dashes].
  destruct (Ascii.eqb a "-" && starts_with "-" s); [auto|].
  now rewrite all_chars_cons, Ha, IH.
Qed.

Lemma all_chars_drop_leading (ok : ascii -> bool) (s : string) :
  all_chars ok s = true -> all_chars ok (drop_leading_dash s) = true.
Proof.
  destruct s as [|a s]; [reflexivity|]. rewrite all_chars_cons.
  intros H. apply andb_true_iff in H as [Ha Hs]. unfold drop_leading_dash.
  destruct a as [[] [] [] [] [] [] [] []];
    try (rewrite all_chars_cons, Ha, Hs; reflexivity).
  exact Hs.
Qed.

Lemma all_chars_drop_trailing (ok : ascii -> bool) (s : string) :
  all_chars ok s = true -> all_chars ok (drop_trailing_dash s) = true.
Proof.
  induction s as [|a s IH]; [reflexivity|].
  rewrite all_chars_cons. intros H. apply andb_true_iff in H as [Ha Hs].
  cbn [drop_trailing_dash]. destruct s as [|b s].
  - destruct (Ascii.eqb a "-"); [reflexivity|]. now rewrite all_chars_cons, Ha.
  - now rewrite all_chars_cons, Ha, IH.
Qed.

Lemma all_chars_take (ok : ascii -> bool) (n : nat) (s : string) :
  all_chars ok s = true -> all_chars ok (take n s) = true.
Proof.
  revert s. induction n as [|n IH]; intros [|a s]; try reflexivity.
  rewrite all_chars_cons. intros H. apply andb_true_iff in H as [Ha Hs].
  cbn [take]. now rewrite all_chars_cons, Ha, IH.
Qed.

Lemma length_take (n : nat) (s : string) : String.length (take n s) <= n.
Proof.
  revert s. induction n as [|n IH]; intros [|a s]; cbn; try lia.
  specialize (IH s). lia.
Qed.

Lemma replace_foreign_units (s : string) :
  all_chars name_unit (replace_foreign s) = true.
Proof.
  apply all_chars_map. intros a. destruct (name_unit a) eqn:E; [assumption|].
  reflexivity.
Qed.

(** X19.  The name [deployToVercel] hands to the deploy command holds
    only the characters [a-z], [0-9], [.], [_] and [-], and at most 50 of
    them, whatever the project name. *)
Theorem clean_name_units (projectName : string) :
  all_chars name_unit (cleanProjectName projectName) = true
  /\ String.length (cleanProjectName projectName) <= 50.
Proof.
  unfold cleanProjectName, trim_dashes. split; [|apply length_take].
  apply all_chars_take, all_chars_drop_trailing, all_chars_drop_leading,
    all_chars_collapse, replace_foreign_units.
Qed.

Lemma starts_dash_cons (a : ascii) (s : string) :
  starts_with "-" (String a s) = Ascii.eqb "-" a.
Proof.
  unfold starts_with. cbn [strip_prefix].
  destruct (Ascii.eqb "-" a); [|reflexivity]. now destruct s.
Qed.

Lemma starts_two_dashes (a : ascii) (s : string) :
  starts_with "--" (String a s) = Ascii.eqb "-" a && starts_with "-" s.
Proof.
  unfold starts_with. cbn [strip_prefix].
  destruct (Ascii.eqb "-" a); [|reflexivity].
  destruct s as [|b s]; [reflexivity|].
  destruct (Ascii.eqb "-" b); [|reflexivity]. now destruct s.
Qed.

Lemma includes_cons (a : ascii) (s x : string) :
  includes (String a s) x = starts_with x (String a s) || includes s x.
Proof. reflexivity. Qed.

Lemma collapse_first (s : string) :
  starts_with "-" (collapse_dashes s) = starts_with "-" s.
Proof.
  induction s as [|a s IH]; [reflexivity|]. cbn [collapse_dashes].
  destruct (Ascii.eqb a "-" && starts_with "-" s) eqn:E.
  - apply andb_true_iff in E as [Ea Es]. rewrite IH, Es, starts_dash_cons.
    apply Ascii.eqb_eq in Ea. subst a. reflexivity.
  - now rewrite !starts_dash_cons.
Qed.

Lemma collapse_no_double (s : string) :
  includes (collapse_dashes s) "--" = false.
Proof.
  induction s as [|a s IH]; [reflexivity|]. cbn [collapse_dashes].
  destruct (Ascii.eqb a "-" && starts_with "-" s) eqn:E; [assumption|].
  rewrite includes_cons, IH, orb_false_r, starts_two_dashes, collapse_first.
  rewrite Ascii.eqb_sym. exact E.
Qed.

Lemma no_double_tail (a : ascii) (s : string) :
  includes (String a s) "--" = false -> includes s "--" = false.
Proof. rewrite includes_cons. intros H. now apply orb_false_iff in H. Qed.

Lemma drop_trailing_first (s : string) :
  starts_with "-" s = false -> starts_with "-" (drop_trailing_dash s) = false.
Proof.
  destruct s as [|a s]; [reflexivity|]. cbn [drop_trailing_dash].
  destruct s as [|b s].
  - destruct (Ascii.eqb a "-"); [reflexivity | auto].
  - now rewrite !starts_dash_cons.
Qed.

Lemma drop_trailing_no_double (s : string) :
  includes s "--" = false -> includes (drop_trailing_dash s) "--" = false.
Proof.
  induction s as [|a s IH]; [reflexivity|]. intros H.
  pose proof (no_double_tail _ _ H) as Ht.
  rewrite includes_cons, starts_two_dashes in H.
  apply orb_false_iff in H as [Hs _].
  cbn [drop_trailing_dash]. destruct s as [|b s].
  - destruct (Ascii.eqb a "-"); [reflexivity|].
    rewrite includes_cons, starts_two_dashes, Hs. reflexivity.
  - rewrite includes_cons, starts_two_dashes, (IH Ht), orb_false_r.
    destruct (Ascii.eqb "-" a); [|reflexivity]. cbn [andb] in *.
    now apply drop_trailing_first.
Qed.

Lemma take_first (n : nat) (s : string) :
  starts_with "-" s = false -> starts_with "-" (take n s) = false.
Proof.
  destruct n as [|n]; destruct s as [|a s]; try reflexivity.
  cbn [take]. now rewrite !starts_dash_cons.
Qed.

Lemma take_no_double (n : nat) (s : string) :
  includes s "--" = false -> includes (take n s) "--" = false.
Proof.
  revert s. induction n as [|n IH]; intros [|a s]; try reflexivity.
  intros H. pose proof (no_double_tail _ _ H) as Ht.
  rewrite includes_cons, starts_two_dashes in H.
  apply orb_false_iff in H as [Hs _].
  cbn [take]. rewrite includes_cons, starts_two_dashes, (IH _ Ht), orb_false_r.
  destruct (Ascii.eqb "-" a); [|reflexivity]. cbn [andb] in *.
  now apply take_first.
Qed.

Lemma drop_leading_shape (s : string) :
  includes s "--" = false ->
  includes (drop_leading_dash s) "--" = false
  /\ starts_with "-" (drop_leading_dash s) = false.
Proof.
  intros H. destruct s as [|a s]; [split; reflexivity|].
  pose proof (no_double_tail _ _ H) as Ht.
  rewrite includes_cons, starts_two_dashes in H.
  apply orb_false_iff in H as [Hs _].
  destruct (Ascii.eqb "-" a) eqn:E.
  - apply Ascii.eqb_eq in E. subst a. cbn [andb] in Hs. now split.
  - split.
    + replace (drop_leading_dash (String a s)) with (String a s).
      * now rewrite includes_cons, starts_two_dashes, E, Ht.
      * destruct a as [[] [] [] [] [] [] [] []]; try reflexivity. discriminate E.
    + replace (drop_leading_dash (String a s)) with (String a s).
      * now rewrite starts_dash_cons.
      * destruct a as [[] [] [] [] [] [] [] []]; try reflexivity. discriminate E.
Qed.

(** X20.  The cleaned project name never holds two dashes in a row and
    never starts with a dash. *)
Theorem clean_name_dashes (projectName : string) :
  includes (cleanProjectName projectName) "--" = false
  /\ starts_with "-" (cleanProjectName projectName) = false.
Proof.
  unfold cleanProjectName, trim_dashes.
  destruct (drop_leading_shape _
              (collapse_no_double (replace_foreign (toLowerCase projectName))))
    as [Hno Hfirst].
  split.
  - now apply take_no_double, drop_trailing_no_double.
  - now apply take_first, drop_trailing_first.
Qed.

Example clean_name_example :
  cleanProjectName "Segment Demo -- ACME, Inc.-frontend" = "segment-demo-acme-inc.-frontend".
Proof. reflexivity. Qed.

Lemma https_at_shape (s url : string) :
  https_at s = Some url ->
  exists run rest,
    url = ("https://" ++ run)%string /\ s = (url ++ rest)%string
    /\ run <> EmptyString /\ all_chars not_space run = true.
Proof.
  unfold https_at.
  destruct (strip_prefix "https://" s) as [r|] eqn:Hp; [|discriminate].
  pose proof (span_inv not_space r) as Hr.
  pose proof (span_run_ok not_space r) as Hok.
  destruct (span not_space r) as [run rest]. cbn [fst snd] in Hr, Hok.
  destruct run as [|a run]; [discriminate|]. cbn [is_empty negb].
  intros [= <-]. exists (String a run), rest.
  repeat split; try assumption; try discriminate.
  apply strip_prefix_inv in Hp. rewrite Hp, Hr. reflexivity.
Qed.

(** X21.  The deployment URL read from the output of the deploy command
    starts with [https://], goes on with at least one character, holds no
    white space, and stands in the output. *)
Theorem deployment_url_sound (output url : string) :
  matchDeploymentUrl output = Some url ->
  exists run pre post,
    url = ("https://" ++ run)%string
    /\ run <> EmptyString
    /\ all_chars not_space url = true
    /\ output = (pre ++ url ++ post)%string.
Proof.
  unfold matchDeploymentUrl. intros H.
  apply search_position in H as (pre & suf & -> & Hat).
  apply https_at_shape in Hat as (run & rest & -> & -> & Hne & Hrun).
  exists run, pre, rest.
  split; [reflexivity|]. split; [assumption|]. split; [|reflexivity].
  now rewrite all_chars_app, Hrun.
Qed.

Lemma substitution_plain (replacement matched before after : string) :
  all_chars (fun a => negb (Ascii.eqb a "$")) replacement = true ->
  substitution replacement matched before after = replacement.
Proof.
  induction replacement as [|a r IH]; [reflexivity|].
  rewrite all_chars_cons. intros H. apply andb_true_iff in H as [Ha Hr].
  apply negb_true_iff in Ha.
  destruct a as [[] [] [] [] [] [] [] []];
    try discriminate Ha; cbn [substitution]; now rewrite (IH Hr).
Qed.

Lemma first_occurrence_here (pat rest : string) :
  first_occurrence pat (pat ++ rest) = Some (EmptyString, rest).
Proof.
  destruct (pat ++ rest)%string eqn:E; cbn [first_occurrence];
    rewrite <- E, strip_prefix_app; reflexivity.
Qed.

(** X22.  The remote of [git remote add origin]: for a repository URL that
    starts with [https://] and a credential without [$], the URL with the
    credential and [@] put right after the scheme. *)
Theorem remote_url_with_token (githubToken rest : string) :
  all_chars (fun a => negb (Ascii.eqb a "$")) githubToken = true ->
  replace "https://" ("https://" ++ githubToken ++ "@") ("https://" ++ rest)
  = ("https://" ++ githubToken ++ "@" ++ rest)%string.
Proof.
  intros Hplain. unfold replace. rewrite first_occurrence_here.
  rewrite substitution_plain.
  - cbn [append]. now rewrite !append_assoc.
  - change ("https://" ++ githubToken ++ "@")%string
      with ("https://" ++ (githubToken ++ "@"))%string.
    now rewrite !all_chars_app, Hplain.
Qed.

End GeneratorNameFacts.

(* ------------------------------------------------------------------ *)
(** ** The generator: the run of [generateDemo] *)

Module GeneratorFacts.
Import Js Resolver Server Generator JsFacts ResolverFacts HelperFacts.

Ltac unfold_gen :=
  cbv beta iota zeta delta
    [gbind gtry gret gthrow gperform gfinally provider file_system placeholder].

Ltac by_answer :=
  repeat match goal with
         | H : ?op = (_, _) |- context [?op] => rewrite H
         | H : spawn_ok ?r = _ |- context [spawn_ok ?r] => rewrite H
         end;
  cbn [fst snd]; first [reflexivity | assumption].

Ltac placeholder_drawn :=
  match goal with
  | H : random_id _ ?w = _ |- _ => exists w
  end;
  split; [reflexivity|]; split; by_answer.

Section Generate.
Context {W : Type}.
Variable genv : GenEnv W.
Variable cfg : gen_config.
Variable slug_of : string -> string.

Lemma gemits_ret {A} (good : gevent -> bool) (a : A) : gemits (W:=W) good (gret a).
Proof. intros st. exists []. cbn. now rewrite app_nil_r. Qed.

Lemma gemits_throw {A} (good : gevent -> bool) (e : thrown) :
  gemits good (@gthrow W A e).
Proof. intros st. exists []. cbn. now rewrite app_nil_r. Qed.

Lemma gemits_bind {A B} (good : gevent -> bool) (m : @G W A) (k : A -> @G W B) :
  gemits good m -> (forall a, gemits good (k a)) -> gemits good (gbind m k).
Proof.
  intros Hm Hk st. unfold gbind.
  destruct (Hm st) as (evs1 & Htr1 & Hgood1).
  destruct (m st) as [[a|e] st1]; cbn [fst snd] in *.
  - destruct (Hk a st1) as (evs2 & Htr2 & Hgood2).
    exists (evs1 ++ evs2)%list. split.
    + now rewrite Htr2, Htr1, app_assoc.
    + now rewrite forallb_app, Hgood1, Hgood2.
  - exists evs1. auto.
Qed.

Lemma gemits_try {A} (good : gevent -> bool) (m : @G W A) (h : thrown -> @G W A) :
  gemits good m -> (forall e, gemits good (h e)) -> gemits good (gtry m h).
Proof.
  intros Hm Hh st. unfold gtry.
  destruct (Hm st) as (evs1 & Htr1 & Hgood1).
  destruct (m st) as [[a|e] st1]; cbn [fst snd] in *.
  - exists evs1. auto.
  - destruct (Hh e st1) as (evs2 & Htr2 & Hgood2).
    exists (evs1 ++ evs2)%list. split.
    + now rewrite Htr2, Htr1, app_assoc.
    + now rewrite forallb_app, Hgood1, Hgood2.
Qed.

Lemma gemits_perform {R} (good : gevent -> bool) (c : gcall)
      (op : W -> R * W) (ok : R -> bool) :
  (forall b, good {| g_call := c; g_ok := b |} = true) ->
  gemits good (gperform c op ok).
Proof.
  intros Hc st. unfold gperform. destruct (op (g_world st)) as [r w'].
  eexists. split; [reflexivity|]. cbn. now rewrite Hc.
Qed.

Lemma gemits_provider {A} (good : gevent -> bool) (c : gcall)
      (op : W -> (A + string) * W) :
  (forall b, good {| g_call := c; g_ok := b |} = true) ->
  gemits good (provider c op).
Proof.
  intros Hc. apply gemits_bind; [now apply gemits_perform|].
  intros [a|m]; [apply gemits_ret | apply gemits_throw].
Qed.

Lemma gemits_file_system (good : gevent -> bool) (c : gcall)
      (op : W -> option string * W) :
  (forall b, good {| g_call := c; g_ok := b |} = true) ->
  gemits good (file_system c op).
Proof.
  intros Hc. apply gemits_bind; [now apply gemits_perform|].
  intros [m|]; [apply gemits_throw | apply gemits_ret].
Qed.

Lemma gemits_weaken {A} (good good' : gevent -> bool) (m : @G W A) :
  (forall e, good e = true -> good' e = true) -> gemits good m -> gemits good' m.
Proof.
  intros Himp Hm st. destruct (Hm st) as (evs & Htr & Hgood).
  exists evs. split; [assumption|]. apply forallb_forall. intros e He.
  rewrite forallb_forall in Hgood. auto.
Qed.

Lemma getOpenAIClient_emits (good : gevent -> bool) :
  gemits (W:=W) good (getOpenAIClient cfg).
Proof.
  intros st. exists []. unfold getOpenAIClient.
  destruct (g_client st); [cbn; now rewrite app_nil_r|].
  destruct (negb (truthy (OPENAI_API_KEY cfg))); cbn; now rewrite app_nil_r.
Qed.

(** An error that passes a sequence with a part that never throws comes
    from the part before it, and the state is the one that part left. *)
Lemma gbind_thrown {A B} (m : @G W A) (k : A -> @G W B) (st : gstate W) :
  (forall a, greturns (k a)) ->
  gthrown (fst (gbind m k st)) = true ->
  gbind m k st = (Throw (match fst (m st) with Throw e => e | Ret _ => EmptyString end),
                  snd (m st))
  /\ gthrown (fst (m st)) = true.
Proof.
  intros Hk. unfold gbind. destruct (m st) as [[a|e] st1]; cbn [fst snd].
  - intros H. now rewrite (Hk a st1) in H.
  - auto.
Qed.

Lemma greturns_ret {A} (a : A) : greturns (@gret W A a).
Proof. intros st. reflexivity. Qed.

Lemma greturns_bind {A B} (m : @G W A) (k : A -> @G W B) :
  greturns m -> (forall a, greturns (k a)) -> greturns (gbind m k).
Proof.
  intros Hm Hk st. unfold gbind. specialize (Hm st).
  destruct (m st) as [[a|e] st1]; cbn in *; [apply Hk | discriminate].
Qed.

Lemma greturns_try {A} (m : @G W A) (h : thrown -> @G W A) :
  (forall e, greturns (h e)) -> greturns (gtry m h).
Proof.
  intros Hh st. unfold gtry. destruct (m st) as [[a|e] st1]; [reflexivity|].
  apply Hh.
Qed.

Lemma greturns_perform {R} (c : gcall) (op : W -> R * W) (ok : R -> bool) :
  greturns (gperform c op ok).
Proof. intros st. unfold gperform. now destruct (op (g_world st)). Qed.

Lemma placeholder_returns (projectName : string) :
  greturns (placeholder genv projectName).
Proof.
  apply greturns_bind; [apply greturns_perform | intros; apply greturns_ret].
Qed.

Lemma deployToVercel_returns (projectDir projectName framework : string) :
  greturns (deployToVercel genv cfg projectDir projectName framework).
Proof. apply greturns_try. intros _. apply placeholder_returns. Qed.

Lemma deployToVercel_emits (projectDir projectName framework : string) :
  gemits deploy_call (deployToVercel genv cfg projectDir projectName framework).
Proof.
  unfold deployToVercel, placeholder.
  apply gemits_try.
  - destruct (negb (truthy (VERCEL_TOKEN (deploy_config cfg)))).
    + apply gemits_bind; [now apply gemits_perform | intros; apply gemits_ret].
    + apply gemits_bind; [now apply gemits_file_system|]. intros _.
      apply gemits_bind; [now apply gemits_perform|]. intros result.
      destruct (negb (spawn_ok result)); [apply gemits_throw|].
      destruct (matchDeploymentUrl (sp_stdout result));
        [apply gemits_ret | apply gemits_throw].
  - intros _. apply gemits_bind; [now apply gemits_perform | intros; apply gemits_ret].
Qed.

(** What one deployment comes to. *)
Lemma deployToVercel_run (projectDir projectName framework : string) (st : gstate W) :
  exists url evs,
    fst (deployToVercel genv cfg projectDir projectName framework st) = Ret url
    /\ g_calls (snd (deployToVercel genv cfg projectDir projectName framework st))
       = (g_calls st ++ evs)%list
    /\ forallb deploy_call evs = true
    /\ 1 <= length evs <= 3
    /\ ((exists deploymentId, url = placeholderUrl projectName deploymentId)
        \/ (exists result,
              spawn_ok result = true
              /\ matchDeploymentUrl (sp_stdout result) = Some url
              /\ truthy (VERCEL_TOKEN (deploy_config cfg)) = true))
    /\ (truthy (VERCEL_TOKEN (deploy_config cfg)) = false ->
        evs = [{| g_call := MathRandom; g_ok := true |}]
        /\ exists deploymentId,
             random_id genv (g_world st)
             = (deploymentId,
                g_world (snd (deployToVercel genv cfg projectDir projectName framework st)))
             /\ url = placeholderUrl projectName deploymentId).
Proof.
  unfold deployToVercel. unfold_gen.
  repeat (cbn [fst snd g_world g_calls g_client]; case_step);
    repeat match goal with
           | H : negb _ = false |- _ => apply negb_false_iff in H
           | H : negb _ = true |- _ => apply negb_true_iff in H
           end;
    (eexists; eexists; split; [reflexivity|]);
    (split; [cbn [fst snd g_calls]; rewrite <- ?app_assoc; cbn [app]; reflexivity|]);
    (split; [reflexivity|]); (split; [cbn; lia|]);
    (split;
     [ first [ left; eexists; reflexivity
             | right;
               match goal with
               | Hm : matchDeploymentUrl (sp_stdout ?r) = Some _ |- _ => exists r
               end; auto ]
     | intros Hno; first [ congruence
                         | split; [reflexivity|]; eexists; split; reflexivity ] ]).
Qed.

(** The loop runs the commands in order and stops at the first that
    fails. *)
Lemma run_commands_run (commands : list (string * list string)) (cwd : string)
      (st : gstate W) :
  g_client (snd (run_commands genv commands cwd st)) = g_client st
  /\ ((fst (run_commands genv commands cwd st) = Ret tt
       /\ g_calls (snd (run_commands genv commands cwd st))
          = (g_calls st ++ map (git_event cwd true) commands)%list)
      \/ exists done failed rest stderr,
           commands = (done ++ failed :: rest)%list
           /\ fst (run_commands genv commands cwd st)
              = Throw ("Git operation failed: " ++ stderr)
           /\ g_calls (snd (run_commands genv commands cwd st))
              = (g_calls st ++ map (git_event cwd true) done
                 ++ [git_event cwd false failed])%list).
Proof.
  revert st. induction commands as [|[command args] commands IH]; intros st.
  - cbn. split; [reflexivity|]. left. now rewrite app_nil_r.
  - cbn [run_commands]. unfold_gen.
    destruct (spawnSync genv command args cwd None (g_world st)) as [result w1].
    destruct (spawn_ok result) eqn:Hok; cbn [negb fst snd g_client g_calls].
    + match goal with
      | |- context [run_commands genv commands cwd ?st1] =>
          destruct (IH st1) as [Hc [[Hret Hcalls]|(done & failed & rest & stderr & -> & Hthrow & Hcalls)]]
      end; cbn [g_client g_calls] in *.
      * split; [assumption|]. left. split; [assumption|].
        rewrite Hcalls, <- app_assoc. reflexivity.
      * split; [assumption|]. right.
        exists ((command, args) :: done), failed, rest, stderr.
        split; [reflexivity|]. split; [assumption|].
        rewrite Hcalls, <- app_assoc. reflexivity.
    + split; [reflexivity|]. right.
      exists [], (command, args), commands, (sp_stderr result).
      repeat split.
Qed.

Lemma git_commands_git (githubRepoUrl githubToken cwd : string) (ok : bool)
      (c : string * list string) :
  In c (git_commands githubRepoUrl githubToken) ->
  repo_call (git_event cwd ok c) = true.
Proof.
  unfold git_commands. cbn [In].
  intros [<-|[<-|[<-|[<-|[<-|[<-|[]]]]]]]; reflexivity.
Qed.

Lemma repo_call_git_events (githubRepoUrl githubToken cwd : string) (ok : bool)
      (cs : list (string * list string)) :
  incl cs (git_commands githubRepoUrl githubToken) ->
  forallb repo_call (map (git_event cwd ok) cs) = true.
Proof.
  intros Hin. apply forallb_forall. intros e He.
  apply in_map_iff in He as (c & <- & Hc).
  apply (git_commands_git githubRepoUrl githubToken). now apply Hin.
Qed.

(** What the repository stage comes to. *)
Lemma repository_stage_run (p : demo_params) (demoDir : string) (st : gstate W) :
  exists url evs,
    fst (repository_stage genv slug_of p demoDir st) = Ret url
    /\ g_calls (snd (repository_stage genv slug_of p demoDir st))
       = (g_calls st ++ evs)%list
    /\ forallb repo_call evs = true
    /\ g_client (snd (repository_stage genv slug_of p demoDir st)) = g_client st
    /\ ((exists ok rest,
           evs = {| g_call := CreateRepo ("segment-demo-" ++ slug_of (or_empty (customerName p)))
                                         (or_empty (githubToken p));
                    g_ok := ok |} :: rest
           /\ existsb (fun e => negb (g_ok e)) evs = true
           /\ url = placeholderRepoUrl)
        \/ evs = {| g_call := CreateRepo ("segment-demo-" ++ slug_of (or_empty (customerName p)))
                                         (or_empty (githubToken p));
                    g_ok := true |}
                 :: map (git_event demoDir true)
                        (git_commands url (or_empty (githubToken p)))).
Proof.
  unfold repository_stage, createGitHubRepo, initializeGitAndPush. unfold_gen.
  destruct (repos_create genv _ _ (g_world st)) as [[html|m] w1];
    cbn [fst snd is_inl g_client g_calls].
  - match goal with
    | |- context [run_commands genv ?cs demoDir ?st1] =>
        destruct (run_commands_run cs demoDir st1)
          as [Hc [[Hret Hcalls]|(done & failed & rest & stderr & Hcs & Hthrow & Hcalls)]];
        destruct (run_commands genv cs demoDir st1) as [o st2]
    end; cbn [fst snd g_client g_calls] in *; subst o;
      cbn [fst snd g_client g_calls].
    + exists html. eexists. split; [reflexivity|].
      split; [rewrite Hcalls, <- app_assoc; reflexivity|].
      split; [|split; [assumption|right; reflexivity]].
      cbn [forallb app repo_call g_call andb].
      apply (repo_call_git_events html (or_empty (githubToken p))).
      apply incl_refl.
    + exists placeholderRepoUrl. eexists. split; [reflexivity|].
      split; [rewrite Hcalls, <- app_assoc; reflexivity|].
      split; [|split; [assumption|left]].
      * cbn [forallb app repo_call g_call andb]. rewrite forallb_app.
        rewrite (repo_call_git_events html (or_empty (githubToken p)))
          by (rewrite Hcs; apply incl_appl, incl_refl).
        cbn [forallb andb].
        rewrite (git_commands_git html (or_empty (githubToken p)))
          by (rewrite Hcs; apply in_or_app; right; now left).
        reflexivity.
      * eexists. eexists. split; [reflexivity|]. split; [|reflexivity].
        cbn [existsb app g_ok negb orb]. rewrite existsb_app. cbn.
        now rewrite orb_true_r.
  - exists placeholderRepoUrl. eexists. split; [reflexivity|].
    split; [reflexivity|]. split; [reflexivity|]. split; [reflexivity|].
    left. eexists. eexists. split; [reflexivity|]. split; reflexivity.
Qed.

Lemma inspirationContext_emits (inspirationRepo githubToken : option string) :
  gemits local_call (inspirationContext genv inspirationRepo githubToken).
Proof.
  unfold inspirationContext, fetchRepositoryContext.
  destruct (truthy inspirationRepo && truthy githubToken); [|apply gemits_ret].
  apply gemits_try; [|intros; apply gemits_ret].
  apply gemits_try; [now apply gemits_provider | intros; apply gemits_ret].
Qed.

Lemma generateFrontendCode_emits (inspirationRepo githubToken : option string) :
  gemits local_call (generateFrontendCode genv cfg inspirationRepo githubToken).
Proof.
  apply gemits_bind; [apply inspirationContext_emits|]. intros context.
  apply gemits_bind; [apply getOpenAIClient_emits|]. intros _.
  now apply gemits_provider.
Qed.

Lemma generateBackendCode_emits (inspirationRepo githubToken : option string) :
  gemits local_call (generateBackendCode genv cfg inspirationRepo githubToken).
Proof.
  apply gemits_bind; [apply inspirationContext_emits|]. intros context.
  apply gemits_bind; [apply getOpenAIClient_emits|]. intros _.
  now apply gemits_provider.
Qed.

Lemma generation_stage_emits (p : demo_params) (demoDir : string) :
  gemits local_call (generation_stage genv cfg p demoDir).
Proof.
  unfold generation_stage, writeFiles.
  repeat (apply gemits_bind;
          [first [ now apply gemits_file_system
                 | apply generateFrontendCode_emits
                 | apply generateBackendCode_emits ] | intros ?]).
  now apply gemits_file_system.
Qed.

Lemma repository_stage_returns (p : demo_params) (demoDir : string) :
  greturns (repository_stage genv slug_of p demoDir).
Proof.
  intros st. destruct (repository_stage_run p demoDir st) as (url & evs & Hret & _).
  now rewrite Hret.
Qed.

Lemma repository_stage_emits (p : demo_params) (demoDir : string) :
  gemits repo_call (repository_stage genv slug_of p demoDir).
Proof.
  intros st.
  destruct (repository_stage_run p demoDir st) as (url & evs & _ & Htr & Hgood & _).
  now exists evs.
Qed.

(** A handler behind a computation that never throws is never entered. *)
Lemma gtry_returns {A} (m : @G W A) (h : thrown -> @G W A) (st : gstate W) :
  greturns m -> gtry m h st = m st.
Proof.
  intros Hm. unfold gtry. specialize (Hm st).
  destruct (m st) as [[a|e] st1]; [reflexivity | discriminate].
Qed.

Lemma deployments_return (p : demo_params) (demoDir : string) :
  greturns
    (gbind (deployToVercel genv cfg (demoDir ++ "/frontend")
              (projectNameFor (slug_of (or_empty (customerName p))) Frontend) "nextjs")
       (fun frontendUrl =>
          gbind (deployToVercel genv cfg (demoDir ++ "/backend")
                   (projectNameFor (slug_of (or_empty (customerName p))) Backend) "node")
            (fun backendUrl => gret (frontendUrl, backendUrl)))).
Proof.
  apply greturns_bind; [apply deployToVercel_returns|]. intros f.
  apply greturns_bind; [apply deployToVercel_returns|]. intros b.
  apply greturns_ret.
Qed.

Lemma deployment_stage_returns (p : demo_params) (demoDir : string) :
  greturns (deployment_stage genv cfg slug_of p demoDir).
Proof.
  intros st. unfold deployment_stage.
  rewrite gtry_returns by apply deployments_return. apply deployments_return.
Qed.

Lemma deployment_stage_emits (p : demo_params) (demoDir : string) :
  gemits deploy_call (deployment_stage genv cfg slug_of p demoDir).
Proof.
  intros st. unfold deployment_stage.
  rewrite gtry_returns by apply deployments_return.
  revert st. apply gemits_bind; [apply deployToVercel_emits|]. intros f.
  apply gemits_bind; [apply deployToVercel_emits|]. intros b. apply gemits_ret.
Qed.

Lemma cleanup_run (demoDir : string) (st : gstate W) :
  exists ok,
    fst (cleanup genv demoDir st) = Ret tt
    /\ g_calls (snd (cleanup genv demoDir st))
       = (g_calls st ++ [{| g_call := Rm demoDir; g_ok := ok |}])%list.
Proof.
  unfold cleanup. unfold_gen.
  destruct (fs_rmSync genv demoDir (g_world st)) as [[m|] w1];
    eexists; split; reflexivity.
Qed.

Lemma local_is_body (e : gevent) : local_call e = true -> body_call e = true.
Proof. unfold body_call. now intros ->. Qed.

Lemma repo_is_body (e : gevent) : repo_call e = true -> body_call e = true.
Proof. unfold body_call. intros ->. now rewrite orb_true_r. Qed.

Lemma deploy_is_body (e : gevent) : deploy_call e = true -> body_call e = true.
Proof. unfold body_call. intros ->. now rewrite orb_true_r. Qed.

(** The run of [generateDemo]: the id, the body, the cleanup. *)
Lemma generateDemo_run (p : demo_params) (st : gstate W) :
  exists body ok,
    g_calls (snd (generateDemo genv cfg slug_of p st))
    = (g_calls st ++ {| g_call := Uuid; g_ok := true |} :: body
       ++ [{| g_call := Rm ("/tmp/demo-" ++ fst (uuidv4 genv (g_world st)));
              g_ok := ok |}])%list
    /\ forallb body_call body = true
    /\ (gthrown (fst (generateDemo genv cfg slug_of p st)) = true ->
        forallb local_call body = true).
Proof.
  set (demoId := fst (uuidv4 genv (g_world st))).
  set (demoDir := ("/tmp/demo-" ++ demoId)%string).
  set (st0 := {| g_world := snd (uuidv4 genv (g_world st)); g_client := g_client st;
                 g_calls := (g_calls st ++ [{| g_call := Uuid; g_ok := true |}])%list |}).
  set (rest := fun _ : unit =>
         gbind (repository_stage genv slug_of p demoDir)
           (fun githubRepoUrl =>
              gbind (deployment_stage genv cfg slug_of p demoDir)
                (fun urls =>
                   gret {| frontendUrl := fst urls; backendUrl := snd urls;
                           githubRepoUrl := githubRepoUrl |}))).
  assert (E : generateDemo genv cfg slug_of p st
              = gfinally (gtry (gbind (generation_stage genv cfg p demoDir) rest)
                               (fun e => gthrow e))
                         (cleanup genv demoDir) st0).
  { unfold generateDemo, st0, demoDir, demoId. unfold gbind at 1. unfold gperform.
    now destruct (uuidv4 genv (g_world st)). }
  rewrite E. clear E.
  assert (Hrest_ret : forall u, greturns (rest u)).
  { intros u. apply greturns_bind; [apply repository_stage_returns|]. intros url.
    apply greturns_bind; [apply deployment_stage_returns|]. intros urls.
    apply greturns_ret. }
  assert (Hrest_emits : forall u, gemits body_call (rest u)).
  { intros u. apply gemits_bind.
    - apply (gemits_weaken repo_call); [exact repo_is_body|].
      apply repository_stage_emits.
    - intros url. apply gemits_bind.
      + apply (gemits_weaken deploy_call); [exact deploy_is_body|].
        apply deployment_stage_emits.
      + intros urls. apply gemits_ret. }
  destruct (generation_stage_emits p demoDir st0) as (evs1 & Htr1 & Hgood1).
  unfold gfinally, gtry, gbind, gthrow.
  destruct (generation_stage genv cfg p demoDir st0) as [[[]|e] st1];
    cbn [fst snd] in Htr1.
  - specialize (Hrest_ret tt st1).
    destruct (Hrest_emits tt st1) as (evs2 & Htr2 & Hgood2).
    destruct (rest tt st1) as [[result|e] st2]; cbn [fst snd gthrown] in *;
      [|discriminate].
    destruct (cleanup_run demoDir st2) as (ok & Hret & Hcl).
    destruct (cleanup genv demoDir st2) as [o st3]. cbn [fst snd] in *. subst o.
    cbn [fst snd gthrown]. exists (evs1 ++ evs2)%list, ok.
    split; [|split; [|intros Hno; discriminate Hno]].
    + rewrite Hcl, Htr2, Htr1. unfold st0. cbn [g_calls].
      rewrite <- !app_assoc. reflexivity.
    + rewrite forallb_app, Hgood2, andb_true_r.
      apply forallb_forall. intros x Hx. rewrite forallb_forall in Hgood1.
      apply local_is_body. auto.
  - destruct (cleanup_run demoDir st1) as (ok & Hret & Hcl).
    destruct (cleanup genv demoDir st1) as [o st3]. cbn [fst snd] in *. subst o.
    cbn [fst snd gthrown]. exists evs1, ok.
    split; [|split; [|intros _; assumption]].
    + rewrite Hcl, Htr1. unfold st0. cbn [g_calls].
      rewrite <- !app_assoc. reflexivity.
    + apply forallb_forall. intros x Hx. rewrite forallb_forall in Hgood1.
      apply local_is_body. auto.
Qed.

(** An error of the generation stage is the error of [generateDemo], after
    the cleanup. *)
Lemma generateDemo_thrown (p : demo_params) (st st1 : gstate W) (e : thrown) :
  generation_stage genv cfg p (demo_dir genv st) (with_id genv st) = (Throw e, st1) ->
  fst (generateDemo genv cfg slug_of p st) = Throw e
  /\ exists ok,
       g_calls (snd (generateDemo genv cfg slug_of p st))
       = (g_calls st1 ++ [{| g_call := Rm (demo_dir genv st); g_ok := ok |}])%list.
Proof.
  intros Hgen.
  assert (E : generateDemo genv cfg slug_of p st
              = (Throw e, snd (cleanup genv (demo_dir genv st) st1))).
  { unfold generateDemo. unfold gbind at 1. unfold gperform.
    unfold demo_dir, with_id in *.
    destruct (uuidv4 genv (g_world st)) as [demoId w1] eqn:Hid.
    cbn [fst snd] in *. unfold gfinally, gtry, gthrow. unfold gbind at 1.
    rewrite Hgen.
    destruct (cleanup_run ("/tmp/demo-" ++ demoId) st1) as (ok & Hret & _).
    destruct (cleanup genv ("/tmp/demo-" ++ demoId) st1) as [o st3].
    cbn [fst snd] in *. now subst o. }
  rewrite E. cbn [fst snd]. split; [reflexivity|].
  destruct (cleanup_run (demo_dir genv st) st1) as (ok & _ & Hcl).
  exists ok. exact Hcl.
Qed.

(** Without the key, and without a client made earlier, the generation
    stage throws before any chat completion. *)
Lemma generation_stage_no_key (p : demo_params) (demoDir : string) (st : gstate W) :
  g_client st = false -> truthy (OPENAI_API_KEY cfg) = false ->
  exists e evs,
    fst (generation_stage genv cfg p demoDir st) = Throw e
    /\ g_calls (snd (generation_stage genv cfg p demoDir st)) = (g_calls st ++ evs)%list
    /\ forallb (fun x => negb (is_chat x)) evs = true
    /\ (e = missing_key_message \/ existsb failed_mkdir evs = true).
Proof.
  intros Hc Hkey.
  unfold generation_stage, generateFrontendCode, inspirationContext,
    fetchRepositoryContext, getOpenAIClient, writeFiles.
  unfold_gen.
  repeat (cbn [fst snd g_world g_client g_calls negb];
          rewrite ?Hc, ?Hkey; cbn [negb]; case_step);
    (eexists; eexists; split; [reflexivity|]);
    (split; [cbn [fst snd g_calls]; rewrite <- ?app_assoc; cbn [app]; reflexivity|]);
    (split; [reflexivity|]);
    first [ left; reflexivity | right; reflexivity ].
Qed.

(** X23.  [deployToVercel] never throws: it returns a URL after one to
    three calls (the descriptor, the deploy command, the random id).  The
    URL is the placeholder of the project name with the id drawn in the
    last call of the run, or it is the first URL in the output of the
    deploy command of this run, which ran after the descriptor was written
    and exited with status 0; then the run made these two calls only. *)
Theorem deploy_always_returns
        (projectDir projectName framework : string) (st : gstate W) :
  exists url evs,
    fst (deployToVercel genv cfg projectDir projectName framework st) = Ret url
    /\ g_calls (snd (deployToVercel genv cfg projectDir projectName framework st))
       = (g_calls st ++ evs)%list
    /\ forallb deploy_call evs = true
    /\ 1 <= length evs <= 3
    /\ ((exists before w,
           evs = (before ++ [{| g_call := MathRandom; g_ok := true |}])%list
           /\ url = placeholderUrl projectName (fst (random_id genv w))
           /\ g_world (snd (deployToVercel genv cfg projectDir projectName framework st))
              = snd (random_id genv w))
        \/ (truthy (VERCEL_TOKEN (deploy_config cfg)) = true
            /\ fst (write_vercel_json genv projectDir framework (g_world st)) = None
            /\ spawn_ok (fst (spawnSync genv "npx" (deployCommand cfg) projectDir
                                (Some (cleanProjectName projectName))
                                (snd (write_vercel_json genv projectDir framework
                                        (g_world st)))))
               = true
            /\ matchDeploymentUrl
                 (sp_stdout (fst (spawnSync genv "npx" (deployCommand cfg) projectDir
                                    (Some (cleanProjectName projectName))
                                    (snd (write_vercel_json genv projectDir framework
                                            (g_world st))))))
               = Some url
            /\ evs = [ {| g_call := WriteVercelJson projectDir framework; g_ok := true |};
                       {| g_call := Spawn "npx" (deployCommand cfg) projectDir
                                          (Some (cleanProjectName projectName));
                          g_ok := true |} ])).
Proof.
  unfold deployToVercel, deployCommand. unfold_gen.
  repeat (cbn [fst snd g_world g_calls g_client]; case_step);
    repeat match goal with
           | H : negb _ = false |- _ => apply negb_false_iff in H
           | H : negb _ = true |- _ => apply negb_true_iff in H
           end;
    (eexists; eexists; split; [reflexivity|]);
    (split; [cbn [fst snd g_calls]; rewrite <- ?app_assoc; cbn [app]; reflexivity|]);
    (split; [reflexivity|]); (split; [cbn; lia|]).
  all: cbn [fst snd g_world g_calls].
  all: first
         [ solve [left; exists []; placeholder_drawn]
         | solve [left; eexists [_]; placeholder_drawn]
         | solve [left; eexists [_; _]; placeholder_drawn]
         | right; split; [assumption|]; split; [by_answer|];
           split; [by_answer|]; split; [by_answer|]; by_answer ].
Qed.

(** X24.  Without [VERCEL_TOKEN], [deployToVercel] writes nothing and runs
    no command: its only call draws the random id, and the URL is
    [https://{projectName}-{id}.vercel.app]. *)
Theorem deploy_without_token
        (projectDir projectName framework : string) (st : gstate W) :
  truthy (VERCEL_TOKEN (deploy_config cfg)) = false ->
  fst (deployToVercel genv cfg projectDir projectName framework st)
  = Ret (placeholderUrl projectName (fst (random_id genv (g_world st))))
  /\ g_calls (snd (deployToVercel genv cfg projectDir projectName framework st))
     = (g_calls st ++ [{| g_call := MathRandom; g_ok := true |}])%list.
Proof.
  intros Hno.
  destruct (deployToVercel_run projectDir projectName framework st)
    as (url & evs & H1 & H2 & _ & _ & _ & H6).
  destruct (H6 Hno) as (-> & deploymentId & Hid & ->).
  rewrite Hid. cbn [fst]. auto.
Qed.



Lemma body_not_cleanup (e : gevent) :
  body_call e = true -> negb (is_cleanup e) && negb (is_now e) = true.
Proof.
  unfold body_call, local_call, repo_call, deploy_call, is_cleanup, is_now.
  destruct (g_call e); cbn; try reflexivity; discriminate.
Qed.

(** X27.  Every run of [generateDemo] ends with the removal of its
    temporary directory [/tmp/demo-{id}], attempted exactly once, after
    everything else, whether the run returns or throws and whether the
    removal works or not. *)
Theorem cleanup_always_last (p : demo_params) (st : gstate W) :
  exists body ok,
    g_calls (snd (generateDemo genv cfg slug_of p st))
    = (g_calls st ++ {| g_call := Uuid; g_ok := true |} :: body
       ++ [{| g_call := Rm ("/tmp/demo-" ++ fst (uuidv4 genv (g_world st)));
              g_ok := ok |}])%list
    /\ forallb (fun e => negb (is_cleanup e)) body = true.
Proof.
  destruct (generateDemo_run p st) as (body & ok & Hcalls & Hbody & _).
  exists body, ok. split; [assumption|].
  apply forallb_forall. intros e He. rewrite forallb_forall in Hbody.
  pose proof (body_not_cleanup e (Hbody e He)) as H.
  now apply andb_true_iff in H.
Qed.

(** X28.  When [generateDemo] throws, nothing was created at the code
    host or at the deploy host: apart from the final cleanup, its calls are
    those of the generation stage (directories, inspiration context, chat
    completions, bundle files). *)
Theorem failure_creates_nothing (p : demo_params) (st : gstate W) :
  gthrown (fst (generateDemo genv cfg slug_of p st)) = true ->
  exists body ok,
    g_calls (snd (generateDemo genv cfg slug_of p st))
    = (g_calls st ++ {| g_call := Uuid; g_ok := true |} :: body
       ++ [{| g_call := Rm ("/tmp/demo-" ++ fst (uuidv4 genv (g_world st)));
              g_ok := ok |}])%list
    /\ forallb local_call body = true.
Proof.
  intros Hthrown.
  destruct (generateDemo_run p st) as (body & ok & Hcalls & _ & Hlocal).
  exists body, ok. auto.
Qed.

(** X29.  [generateDemo] never reads the clock: the two deployments never
    throw, so the timestamp fallback of lines 142-147 is never taken. *)
Theorem clock_never_read (p : demo_params) (st : gstate W) :
  exists evs,
    g_calls (snd (generateDemo genv cfg slug_of p st)) = (g_calls st ++ evs)%list
    /\ forallb (fun e => negb (is_now e)) evs = true.
Proof.
  destruct (generateDemo_run p st) as (body & ok & Hcalls & Hbody & _).
  eexists. split; [exact Hcalls|].
  cbn [forallb is_now g_call negb andb]. rewrite forallb_app.
  cbn [forallb is_now g_call negb andb]. rewrite andb_true_r.
  apply forallb_forall. intros e He. rewrite forallb_forall in Hbody.
  pose proof (body_not_cleanup e (Hbody e He)) as H.
  now apply andb_true_iff in H.
Qed.

(** X30.  Without [OPENAI_API_KEY] (and without a client made by an
    earlier run) [generateDemo] throws before any chat completion: the
    error is "OPENAI_API_KEY environment variable is not set", unless the
    creation of a directory failed before; the cleanup still runs. *)
Theorem missing_key_is_fatal (p : demo_params) (st : gstate W) :
  g_client st = false -> truthy (OPENAI_API_KEY cfg) = false ->
  exists e evs ok,
    fst (generateDemo genv cfg slug_of p st) = Throw e
    /\ g_calls (snd (generateDemo genv cfg slug_of p st))
       = (g_calls st ++ {| g_call := Uuid; g_ok := true |} :: evs
          ++ [{| g_call := Rm (demo_dir genv st); g_ok := ok |}])%list
    /\ forallb (fun x => negb (is_chat x)) evs = true
    /\ (e = missing_key_message \/ existsb failed_mkdir evs = true).
Proof.
  intros Hc Hkey.
  destruct (generation_stage_no_key p (demo_dir genv st) (with_id genv st) Hc Hkey)
    as (e & evs & Hthrow & Hcalls & Hchat & Hwhy).
  destruct (generation_stage genv cfg p (demo_dir genv st) (with_id genv st))
    as [o st1] eqn:Hgen.
  cbn [fst snd] in *. subst o.
  destruct (generateDemo_thrown p st st1 e Hgen) as (Hfst & ok & Hend).
  exists e, evs, ok. split; [assumption|]. split; [|auto].
  rewrite Hend, Hcalls. unfold with_id. cbn [g_calls].
  now rewrite <- !app_assoc.
Qed.

End Generate.
End GeneratorFacts.

(* ------------------------------------------------------------------ *)
(** ** Further scenarios *)

Module MoreScenarios.
Import Js Resolver Server Capture Sim Shape Generator Scenes.
Import SearchFacts MoreHelperFacts MoreRouteFacts GeneratorNameFacts GeneratorFacts.

Lemma extract_sound_witness :
  extractProjectNameFromUrl (deployUrl acme_front) = Some acme_front
  /\ acme_front <> EmptyString
  /\ exists pre post,
       deployUrl acme_front
       = (pre ++ "https://" ++ acme_front ++ ".vercel.app" ++ post)%string.
Proof.
  split; [vm_compute; reflexivity|].
  apply (extract_sound (deployUrl acme_front) acme_front). vm_compute; reflexivity.
Defined.

Lemma extract_accepts_witness :
  "acme-demo" <> EmptyString /\ dot_free "acme-demo" = true
  /\ (forall rest,
         extractProjectNameFromUrl ("https://" ++ "acme-demo" ++ ".vercel.app" ++ rest)
         = Some "acme-demo")
  /\ (forall pre rest,
         extractProjectNameFromUrl
           (pre ++ "https://" ++ "acme-demo" ++ ".vercel.app" ++ rest) <> None).
Proof.
  split; [discriminate|]. split; [reflexivity|].
  apply (extract_accepts "acme-demo"); [discriminate | reflexivity].
Defined.

Lemma github_match_sound_witness :
  matchGitHubRepoUrl "https://github.com/octo/segment-demo-acme/tree/main"
  = Some ("octo", "segment-demo-acme")
  /\ "octo" <> EmptyString /\ "segment-demo-acme" <> EmptyString
  /\ slash_free "octo" = true /\ slash_free "segment-demo-acme" = true
  /\ exists pre post,
       "https://github.com/octo/segment-demo-acme/tree/main"
       = (pre ++ "https://github.com/" ++ "octo" ++ "/" ++ "segment-demo-acme" ++ post)%string.
Proof.
  split; [vm_compute; reflexivity|].
  apply (github_match_sound "https://github.com/octo/segment-demo-acme/tree/main"
           "octo" "segment-demo-acme").
  vm_compute; reflexivity.
Defined.

Lemma github_match_roundtrip_witness :
  "octo" <> EmptyString /\ "segment-demo-acme" <> EmptyString
  /\ slash_free "octo" = true /\ slash_free "segment-demo-acme" = true
  /\ matchGitHubRepoUrl ("https://github.com/" ++ "octo" ++ "/" ++ "segment-demo-acme")
     = Some ("octo", "segment-demo-acme")
  /\ forall path,
       matchGitHubRepoUrl
         ("https://github.com/" ++ "octo" ++ "/" ++ "segment-demo-acme" ++ "/" ++ path)
       = Some ("octo", "segment-demo-acme").
Proof.
  split; [discriminate|]. split; [discriminate|].
  split; [reflexivity|]. split; [reflexivity|].
  apply (github_match_roundtrip "octo" "segment-demo-acme");
    first [discriminate | reflexivity].
Defined.

Lemma findProjectFuzzy_sound_complete_witness :
  findProjectFuzzy acme_back acme_projects
  = Some {| p_name := acme_back; p_id := "prj_back" |}
  /\ In {| p_name := acme_back; p_id := "prj_back" |} acme_projects
  /\ any_test acme_back {| p_name := acme_back; p_id := "prj_back" |} = true.
Proof.
  split; [vm_compute; reflexivity|].
  apply (proj1 (findProjectFuzzy_sound_complete acme_back acme_projects)).
  vm_compute; reflexivity.
Defined.

Lemma search_selects_other_demo_witness :
  "acme" <> EmptyString /\ base36 "k3x9a" = true
  /\ findProjectFuzzy (generatedName "acme" Frontend "k3x9a")
       [ {| p_name := generatedName "acme" Backend "zz000"; p_id := "prj_other" |} ]
     = Some {| p_name := generatedName "acme" Backend "zz000"; p_id := "prj_other" |}.
Proof.
  split; [discriminate|]. split; [reflexivity|].
  apply (search_selects_other_demo "acme" Frontend Backend "k3x9a" "zz000" "prj_other");
    [discriminate | reflexivity].
Defined.

Lemma project_deletion_scopes_witness :
  truthy (VERCEL_TEAM_ID token_only) = false
  /\ exists evs,
       snd (snd (deleteVercelProject sim_env token_only acme_front "vercel-token"
                   (scene no_faults, [])))
       = evs
       /\ forallb personal_event evs = true.
Proof.
  split; [reflexivity|].
  destruct (project_deletion_scopes sim_env token_only acme_front "vercel-token"
              (scene no_faults, [])) as (evs & Hcalls & _ & Hpersonal).
  exists evs. split; [exact Hcalls | exact (Hpersonal eq_refl)].
Defined.

Lemma validation_before_any_call_witness :
  truthy (@None string) = false
  /\ truthy (customerName anonymous_params) = false
  /\ truthy (VERCEL_TOKEN no_token) = false
  /\ run (delete_vercel_deployments_route sim_env no_token None) (scene no_faults)
     = (Ret {| status := 400; json := JError "Demo ID is required" None |},
        (scene no_faults, []))
  /\ run (delete_demo_route sim_env no_token (Some "d1") None) (scene no_faults)
     = (Ret {| status := 400;
               json := JError "Demo ID and GitHub token are required" None |},
        (scene no_faults, []))
  /\ (exists message,
         run (generate_demo_route sim_env anonymous_params) (scene no_faults)
         = (Ret {| status := 400; json := JError message None |}, (scene no_faults, [])))
  /\ run (test_vercel_route sim_env no_token) (scene no_faults)
     = (Ret {| status := 400; json := JError "VERCEL_TOKEN not set" None |},
        (scene no_faults, [])).
Proof.
  split; [reflexivity|]. split; [reflexivity|]. split; [reflexivity|].
  split; [|split; [|split]].
  - apply (proj1 (validation_before_any_call sim_env no_token None None
                    anonymous_params (scene no_faults))).
    reflexivity.
  - apply (proj1 (proj2 (validation_before_any_call sim_env no_token (Some "d1") None
                           anonymous_params (scene no_faults)))).
    right. reflexivity.
  - apply (proj1 (proj2 (proj2 (validation_before_any_call sim_env no_token None None
                                  anonymous_params (scene no_faults))))).
    left. reflexivity.
  - apply (proj2 (proj2 (proj2 (validation_before_any_call sim_env no_token None None
                                  anonymous_params (scene no_faults))))).
    reflexivity.
Defined.

Lemma unknown_demo_is_404_witness :
  truthy (Some "d9") = true
  /\ db_select_single sim_env "d9" (scene no_faults)
     = ((None, Some "JSON object requested, multiple (or no) rows returned"),
        scene no_faults)
  /\ run (delete_vercel_deployments_route sim_env token_only (Some "d9")) (scene no_faults)
     = (Ret {| status := 404; json := JError "Demo not found" None |},
        (scene no_faults, [fetched (Some "d9") false]))
  /\ run (delete_demo_data_route sim_env (Some "d9") (Some "gh-token")) (scene no_faults)
     = (Ret {| status := 404; json := JError "Demo not found" None |},
        (scene no_faults, [fetched (Some "d9") false]))
  /\ run (delete_demo_route sim_env token_only (Some "d9") (Some "gh-token"))
         (scene no_faults)
     = (Ret {| status := 404; json := JError "Demo not found" None |},
        (scene no_faults, [fetched (Some "d9") false])).
Proof.
  split; [reflexivity|]. split; [vm_compute; reflexivity|].
  pose proof (unknown_demo_is_404 sim_env token_only (Some "d9") (Some "gh-token")
                (None, Some "JSON object requested, multiple (or no) rows returned")
                (scene no_faults) (scene no_faults) eq_refl eq_refl I)
    as (Hfirst & Hsecond & Hthird).
  split; [exact Hfirst|]. split; [exact Hsecond|]. exact (Hthird eq_refl).
Defined.

Lemma unmatched_repository_url_skipped_witness :
  truthy (Some "d2") = true
  /\ db_select_single sim_env "d2" ssh_scene = ((Some ssh_demo, None), ssh_scene)
  /\ matchGitHubRepoUrl (or_empty (github_repo_url (demo_cols ssh_demo))) = None
  /\ exists b,
       calls_of (run (delete_demo_data_route sim_env (Some "d2") (Some "gh-token")) ssh_scene)
       = [fetched (Some "d2") true; record_deleted (Some "d2") b]
       /\ status_of (value_of (run (delete_demo_data_route sim_env (Some "d2")
                                      (Some "gh-token")) ssh_scene))
          = Some (if b then 200 else 500).
Proof.
  split; [reflexivity|]. split; [vm_compute; reflexivity|].
  split; [vm_compute; reflexivity|].
  apply (unmatched_repository_url_skipped sim_env (Some "d2") (Some "gh-token")
           ssh_demo ssh_scene ssh_scene);
    [reflexivity | vm_compute; reflexivity | right; vm_compute; reflexivity].
Defined.

Lemma generation_failure_is_500_witness :
  truthy (customerName acme_params) = true /\ truthy (writeKey acme_params) = true
  /\ truthy (profileToken acme_params) = true /\ truthy (unifySpaceId acme_params) = true
  /\ truthy (Server.githubToken acme_params) = true
  /\ truthy (supabaseUserId acme_params) = true
  /\ run_generateDemo sim_env acme_params (scene no_faults)
     = (inr "OpenAI request failed", scene no_faults)
  /\ run (generate_demo_route sim_env acme_params) (scene no_faults)
     = (Ret {| status := 500;
               json := JError "Failed to generate demo" (Some "OpenAI request failed") |},
        (scene no_faults, [{| ev_call := GenerateDemo acme_params; ev_ok := false |}])).
Proof.
  repeat (split; [vm_compute; reflexivity|]).
  apply (generation_failure_is_500 sim_env acme_params "OpenAI request failed"
           (scene no_faults) (scene no_faults)); vm_compute; reflexivity.
Defined.

Lemma test_vercel_report_witness :
  truthy (VERCEL_TOKEN token_only) = true
  /\ exists used ps,
       value_of (run (test_vercel_route sim_env token_only) (scene no_faults))
       = Ret {| status := 200;
                json := JTest (0 <? length ps)%nat used (length ps) ps |}
       /\ endpoint_name used
       /\ (ps <> [] -> used <> EmptyString)
       /\ (truthy (VERCEL_TEAM_ID token_only) = false -> used <> "team")
       /\ forallb listing_event
            (calls_of (run (test_vercel_route sim_env token_only) (scene no_faults))) = true
       /\ 1 <= length (calls_of (run (test_vercel_route sim_env token_only)
                                     (scene no_faults))) <= 2.
Proof.
  split; [reflexivity|].
  apply (test_vercel_report sim_env token_only (scene no_faults)). reflexivity.
Defined.

Lemma client_route_forwards_witness :
  truthy (Some "d1") = true /\ truthy (Some "gh-token") = true
  /\ exists resp,
       value_of (run (delete_demo_data_route sim_env (Some "d1") (Some "gh-token"))
                     (scene repo_delete_refused))
       = Ret resp
       /\ run (client_delete_demo_data sim_env (Some "d1") (Some "gh-token"))
              (scene repo_delete_refused)
          = (Ret {| status := status resp;
                    json := if (status resp =? 200)%nat then json resp
                            else JError (error_or (json resp) "Failed to delete demo data")
                                        None |},
             snd (run (delete_demo_data_route sim_env (Some "d1") (Some "gh-token"))
                      (scene repo_delete_refused))).
Proof.
  split; [reflexivity|]. split; [reflexivity|].
  apply (client_route_forwards sim_env (Some "d1") (Some "gh-token")
           (scene repo_delete_refused)); reflexivity.
Defined.

Lemma delete_all_status_witness :
  truthy (Some "d1") = true /\ truthy (Some "gh-token") = true
  /\ db_select_single sim_env "d1" (scene front_delete_refused)
     = ((Some acme, None), scene front_delete_refused)
  /\ exists before w2 deleteError w3,
       snd (github_step sim_env acme (Some "gh-token")
              (snd (vercel_step sim_env token_only acme
                      (scene front_delete_refused, [fetched (Some "d1") true]))))
       = (w2, before)
       /\ forallb (fun e => negb (record_delete_event e)) before = true
       /\ db_delete_eq sim_env "d1" w2 = (deleteError, w3)
       /\ run (delete_demo_route sim_env token_only (Some "d1") (Some "gh-token"))
              (scene front_delete_refused)
          = (Ret (match deleteError with
                  | None => {| status := 200;
                               json := JSuccess "Demo deleted successfully" |}
                  | Some _ => {| status := 500;
                                 json := JError "Failed to delete demo"
                                                (Some "Unknown error") |}
                  end),
             (w3, (before
                   ++ [record_deleted (Some "d1") (negb (is_some deleteError))])%list))
       /\ status_of (value_of (run (delete_demo_route sim_env token_only (Some "d1")
                                      (Some "gh-token"))
                                   (scene front_delete_refused)))
          = Some (if negb (is_some deleteError) then 200 else 500).
Proof.
  split; [reflexivity|]. split; [reflexivity|]. split; [vm_compute; reflexivity|].
  apply (delete_all_status sim_env token_only (Some "d1") (Some "gh-token") acme
           (scene front_delete_refused) (scene front_delete_refused));
    vm_compute; reflexivity.
Defined.

Lemma unresolved_urls_report_success_witness :
  truthy (Some "d3") = true
  /\ db_select_single sim_env "d3" custom_domain_scene
     = ((Some custom_domain_demo, None), custom_domain_scene)
  /\ truthy (frontend_url (demo_cols custom_domain_demo))
     || truthy (backend_url (demo_cols custom_domain_demo)) = true
  /\ project_of_url (frontend_url (demo_cols custom_domain_demo)) = None
  /\ project_of_url (backend_url (demo_cols custom_domain_demo)) = None
  /\ run (delete_vercel_deployments_route sim_env token_only (Some "d3")) custom_domain_scene
     = (Ret {| status := 200;
               json := JSuccess "Vercel deployments deleted successfully" |},
        (custom_domain_scene, [fetched (Some "d3") true])).
Proof.
  repeat (split; [vm_compute; reflexivity|]).
  apply (unresolved_urls_report_success sim_env token_only (Some "d3") custom_domain_demo
           custom_domain_scene custom_domain_scene); vm_compute; reflexivity.
Defined.

Lemma deployment_url_sound_witness :
  matchDeploymentUrl "Production: https://acme-demo.vercel.app [2s]"
  = Some "https://acme-demo.vercel.app"
  /\ exists run pre post,
       "https://acme-demo.vercel.app" = ("https://" ++ run)%string
       /\ run <> EmptyString
       /\ all_chars not_space "https://acme-demo.vercel.app" = true
       /\ "Production: https://acme-demo.vercel.app [2s]"
          = (pre ++ "https://acme-demo.vercel.app" ++ post)%string.
Proof.
  split; [vm_compute; reflexivity|].
  apply (deployment_url_sound "Production: https://acme-demo.vercel.app [2s]"
           "https://acme-demo.vercel.app").
  vm_compute; reflexivity.
Defined.

Lemma remote_url_with_token_witness :
  all_chars (fun a => negb (Ascii.eqb a "$")) "gh-token" = true
  /\ replace "https://" ("https://" ++ "gh-token" ++ "@")
       ("https://" ++ "github.com/octo/segment-demo-acme")
     = ("https://" ++ "gh-token" ++ "@" ++ "github.com/octo/segment-demo-acme")%string.
Proof.
  split; [reflexivity|].
  apply (remote_url_with_token "gh-token" "github.com/octo/segment-demo-acme").
  reflexivity.
Defined.

Lemma deploy_without_token_witness :
  truthy (VERCEL_TOKEN (deploy_config no_deploy_token)) = false
  /\ fst (deployToVercel gen_double no_deploy_token "/tmp/demo-0b5e/frontend"
            "segment-demo-acme-frontend" "nextjs" (fresh all_well))
     = Ret (placeholderUrl "segment-demo-acme-frontend"
              (fst (random_id gen_double (g_world (fresh all_well)))))
  /\ g_calls (snd (deployToVercel gen_double no_deploy_token "/tmp/demo-0b5e/frontend"
                     "segment-demo-acme-frontend" "nextjs" (fresh all_well)))
     = (g_calls (fresh all_well) ++ [{| g_call := MathRandom; g_ok := true |}])%list.
Proof.
  split; [reflexivity|].
  apply (deploy_without_token gen_double no_deploy_token "/tmp/demo-0b5e/frontend"
           "segment-demo-acme-frontend" "nextjs" (fresh all_well)).
  reflexivity.
Defined.

Lemma failure_creates_nothing_witness :
  gthrown (fst (generateDemo gen_double full_config plain_slug acme_params
                  (fresh chat_down))) = true
  /\ exists body ok,
       g_calls (snd (generateDemo gen_double full_config plain_slug acme_params
                       (fresh chat_down)))
       = (g_calls (fresh chat_down) ++ {| g_call := Uuid; g_ok := true |} :: body
          ++ [{| g_call := Rm ("/tmp/demo-"
                               ++ fst (uuidv4 gen_double (g_world (fresh chat_down))));
                 g_ok := ok |}])%list
       /\ forallb local_call body = true.
Proof.
  split; [vm_compute; reflexivity|].
  apply (failure_creates_nothing gen_double full_config plain_slug acme_params
           (fresh chat_down)).
  vm_compute; reflexivity.
Defined.

Lemma missing_key_is_fatal_witness :
  g_client (fresh all_well) = false /\ truthy (OPENAI_API_KEY no_key) = false
  /\ exists e evs ok,
       fst (generateDemo gen_double no_key plain_slug acme_params (fresh all_well))
       = Throw e
       /\ g_calls (snd (generateDemo gen_double no_key plain_slug acme_params
                          (fresh all_well)))
          = (g_calls (fresh all_well) ++ {| g_call := Uuid; g_ok := true |} :: evs
             ++ [{| g_call := Rm (demo_dir gen_double (fresh all_well)); g_ok := ok |}])%list
       /\ forallb (fun x => negb (is_chat x)) evs = true
       /\ (e = missing_key_message \/ existsb failed_mkdir evs = true).
Proof.
  split; [reflexivity|]. split; [reflexivity|].
  apply (missing_key_is_fatal gen_double no_key plain_slug acme_params (fresh all_well));
    reflexivity.
Defined.

End MoreScenarios.
